(** * Employee management system: record store, validators and reports

    A shallow embedding of [employee_management.py]: the validation
    functions, the classes [Employee] and [EmployeeManagementSystem] and the
    menu loop, followed by the properties of the record store.

    - A Python [str] is a [string]; a character is a code point below 256
      (the Latin-1 block), and the tables of [str.isspace], [str.isalnum] and
      [str.lower] are the ones of CPython on that block.
    - A Python [float] is an IEEE 754 binary64 number, [spec_float] with
      precision 53 and maximal exponent 1024; [float(str)], [str(float)] and
      the [.2f] format are correctly rounded conversions computed on [Z].
    - A dictionary with string keys is a [gmap string string].
    - [input] reads from the list of the lines that will be typed and raises
      [EOFError] when it is empty; the prompts are not recorded.  [print]
      appends to the list of printed messages.  The backing file is its
      decoded text.  What a write to it meets is given by an oracle,
      [faults]: the commands that save take it and carry the suffix [_with],
      and the names without the suffix are the same commands on a file
      system on which every write succeeds.  Faults while the file is read
      are not modelled, nor is [KeyboardInterrupt].
    - Exceptions are results: a call returns a value or raises.
    - [EmailSender] and [_send_confirmation_email] talk to a mail server and
      read credential files; they catch their own exceptions and touch
      neither the list nor the backing file.  One message stands for what
      they print. *)

From Stdlib Require Import ZArith NArith Bool List Ascii String Lia.
From Stdlib Require Import Sorting.Sorted Sorting.Permutation.
From Stdlib Require Import Floats.SpecFloat Numbers.DecimalString.
From Stdlib Require DecimalFacts DecimalPos.
From stdpp Require Import base strings list gmap.

Local Open Scope Z_scope.

(** ** Python built-ins on characters and strings *)

Module Py.

Definition ord (c : ascii) : N := N_of_ascii c.

Definition between (lo hi : N) (c : ascii) : bool :=
  (N.leb lo (ord c) && N.leb (ord c) hi)%bool.

(** [str.isspace] on one character; also the class [\s] of [re]. *)
Definition isspace_char (c : ascii) : bool :=
  between 9 13 c || between 28 32 c || N.eqb (ord c) 133 || N.eqb (ord c) 160.

(** [str.isalnum] on one character. *)
Definition isalnum_char (c : ascii) : bool :=
  between 48 57 c || between 65 90 c || between 97 122 c
  || N.eqb (ord c) 170 || between 178 179 c || N.eqb (ord c) 181
  || between 185 186 c || between 188 190 c
  || between 192 214 c || between 216 246 c || between 248 255 c.

Definition isdigit_ascii (c : ascii) : bool := between 48 57 c.

Definition lower_char (c : ascii) : ascii :=
  if between 65 90 c || between 192 214 c || between 216 222 c
  then ascii_of_N (ord c + 32) else c.

(** Truth value of a string: [if s] holds for every non-empty string. *)
Definition truthy (s : string) : bool :=
  match s with EmptyString => false | String _ _ => true end.

Fixpoint forallb_str (p : ascii -> bool) (s : string) : bool :=
  match s with
  | EmptyString => true
  | String c r => p c && forallb_str p r
  end.

(** [s.isalnum()]: at least one character and all of them alphanumeric. *)
Definition isalnum (s : string) : bool := truthy s && forallb_str isalnum_char s.

Fixpoint lower (s : string) : string :=
  match s with
  | EmptyString => EmptyString
  | String c r => String (lower_char c) (lower r)
  end.

Fixpoint lstrip_with (ws : ascii -> bool) (s : string) : string :=
  match s with
  | EmptyString => EmptyString
  | String c r => if ws c then lstrip_with ws r else s
  end.

Fixpoint rstrip_with (ws : ascii -> bool) (s : string) : string :=
  match s with
  | EmptyString => EmptyString
  | String c r =>
      match rstrip_with ws r with
      | EmptyString => if ws c then EmptyString else String c EmptyString
      | r' => String c r'
      end
  end.

(** [s.strip()] *)
Definition strip (s : string) : string :=
  rstrip_with isspace_char (lstrip_with isspace_char s).

(** [sep.join(l)] *)
Definition join (sep : string) (l : list string) : string := String.concat sep l.

(** [s.split(sep)] for a non-empty separator: the pieces between the
    occurrences of [sep], found from left to right.  [skip] counts the
    characters of a separator occurrence that are still to be passed. *)
Fixpoint split_from (sep s : string) (skip : nat) : list string :=
  match s with
  | EmptyString => [EmptyString]
  | String c r =>
      match skip with
      | S k => split_from sep r k
      | O =>
          if String.prefix sep s
          then EmptyString :: split_from sep r (Nat.pred (String.length sep))
          else match split_from sep r O with
               | h :: t => String c h :: t
               | [] => [String c EmptyString]
               end
      end
  end.

(** [s.split(sep)] raises [ValueError] on the empty separator: [None]. *)
Definition split (s sep : string) : option (list string) :=
  match sep with
  | EmptyString => None
  | _ => Some (split_from sep s O)
  end.

Definition LF : ascii := "010"%char.
Definition CR : ascii := "013"%char.
Definition newline : string := String LF EmptyString.

(** The lines of a text file opened in text mode with universal newlines:
    a line ends after LF, CR LF or a lone CR, each read as LF; the last line
    may lack its newline. *)
Fixpoint text_lines (s : string) : list string :=
  match s with
  | EmptyString => []
  | String c r =>
      if Ascii.eqb c LF then newline :: text_lines r
      else if Ascii.eqb c CR then
        match r with
        | String c' _ => if Ascii.eqb c' LF then text_lines r
                         else newline :: text_lines r
        | EmptyString => newline :: text_lines r
        end
      else match text_lines r with
           | [] => [String c EmptyString]
           | l :: ls => String c l :: ls
           end
  end.

(** [zip] *)
Fixpoint zip {A B} (l : list A) (k : list B) : list (A * B) :=
  match l, k with
  | a :: l', b :: k' => (a, b) :: zip l' k'
  | _, _ => []
  end.

(** [dict(pairs)]: a later pair overrides an earlier one with the same key. *)
Definition dict (l : list (string * string)) : gmap string string :=
  fold_left (fun m kv => <[kv.1 := kv.2]> m) l ∅.

(** [d.get(key, default)] *)
Definition get (d : gmap string string) (key default : string) : string :=
  match d !! key with Some v => v | None => default end.

(** [sorted(l, key=key)] on string keys: the stable sort, by insertion from
    the right; an element goes before the first one whose key is not smaller. *)
Section Sorted.
Context {A : Type} (key : A -> string).

Fixpoint insert_sorted (x : A) (l : list A) : list A :=
  match l with
  | [] => [x]
  | y :: l' =>
      if String.leb (key x) (key y) then x :: l
      else y :: insert_sorted x l'
  end.

Definition sorted (l : list A) : list A := foldr insert_sorted [] l.

End Sorted.

(** *** The regular expressions of [re] that the validators use *)

Inductive regex : Type :=
| Empty                                  (* matches nothing *)
| Eps                                    (* the empty string *)
| Class (p : ascii -> bool)              (* one character of a class *)
| Cat (r1 r2 : regex)
| Alt (r1 r2 : regex)
| Star (r : regex).

Definition Chr (c : ascii) : regex := Class (Ascii.eqb c).
Definition Plus (r : regex) : regex := Cat r (Star r).

Fixpoint nullable (r : regex) : bool :=
  match r with
  | Empty => false
  | Eps => true
  | Class _ => false
  | Cat r1 r2 => nullable r1 && nullable r2
  | Alt r1 r2 => nullable r1 || nullable r2
  | Star _ => true
  end.

Fixpoint deriv (c : ascii) (r : regex) : regex :=
  match r with
  | Empty => Empty
  | Eps => Empty
  | Class p => if p c then Eps else Empty
  | Cat r1 r2 =>
      if nullable r1 then Alt (Cat (deriv c r1) r2) (deriv c r2)
      else Cat (deriv c r1) r2
  | Alt r1 r2 => Alt (deriv c r1) (deriv c r2)
  | Star r1 => Cat (deriv c r1) (Star r1)
  end.

Fixpoint matches (r : regex) (s : string) : bool :=
  match s with
  | EmptyString => nullable r
  | String c s' => matches (deriv c r) s'
  end.

(** [re.fullmatch(r, s)] as a truth value. *)
Definition re_fullmatch (r : regex) (s : string) : bool := matches r s.

Fixpoint drop_final_newline (s : string) : option string :=
  match s with
  | EmptyString => None
  | String c EmptyString => if Ascii.eqb c LF then Some EmptyString else None
  | String c r =>
      match drop_final_newline r with
      | Some r' => Some (String c r')
      | None => None
      end
  end.

(** [re.match('^' r '$', s)] as a truth value: [$] matches at the end of the
    string and also just before a newline that ends it. *)
Definition re_match_anchored (r : regex) (s : string) : bool :=
  matches r s ||
  match drop_final_newline s with
  | Some s' => matches r s'
  | None => false
  end.

End Py.

(** ** Python floats *)

Module PyFloat.

Definition prec : Z := 53.
Definition emax : Z := 1024.

Definition zero : spec_float := S754_zero false.

(** [x < y], [x <= y], [x == y] and [x + y] on floats. *)
Definition ltb (x y : spec_float) : bool := SFltb x y.
Definition leb (x y : spec_float) : bool := SFleb x y.
Definition eqb (x y : spec_float) : bool := SFeqb x y.
Definition add (x y : spec_float) : spec_float := SFadd prec emax x y.

(** The same datum (unlike [eqb], which follows IEEE on NaN and zeros). *)
Definition same (x y : spec_float) : bool :=
  match x, y with
  | S754_zero s, S754_zero t => Bool.eqb s t
  | S754_infinity s, S754_infinity t => Bool.eqb s t
  | S754_nan, S754_nan => true
  | S754_finite s m e, S754_finite t n f =>
      Bool.eqb s t && Pos.eqb m n && Z.eqb e f
  | _, _ => false
  end.

(** The float nearest to [(-1)^neg * m * 10^e], ties to even: what
    [float] returns for a decimal numeral with digits [m] and exponent [e]. *)
Definition of_decimal (neg : bool) (m e : Z) : spec_float :=
  match m with
  | Zpos p =>
      if 0 <=? e then binary_round prec emax neg (Z.to_pos (m * 10 ^ e)) 0
      else
        let '(q, e', l) := SFdiv_core_binary prec emax m 0 (10 ^ (- e)) 0 in
        binary_round_aux prec emax neg q e' l
  | _ => S754_zero neg
  end.

(** Whitespace that [float] strips around its argument. *)
Definition float_space (c : ascii) : bool :=
  Py.between 9 13 c || N.eqb (Py.ord c) 32
  || N.eqb (Py.ord c) 133 || N.eqb (Py.ord c) 160.

Definition is_underscore (c : ascii) : bool := Ascii.eqb c "_".

(** Underscores are allowed between two digits only, and are dropped. *)
Fixpoint drop_underscores (prev : ascii) (s : string) : option string :=
  match s with
  | EmptyString => if is_underscore prev then None else Some EmptyString
  | String c r =>
      if is_underscore c then
        if Py.isdigit_ascii prev then drop_underscores c r else None
      else if is_underscore prev && negb (Py.isdigit_ascii c) then None
      else option_map (String c) (drop_underscores c r)
  end.

Definition digit_value (c : ascii) : Z := Z.of_N (Py.ord c) - 48.

(** The longest prefix of digits: its value after [acc], the number of
    digits read after [n], and the rest of the string. *)
Fixpoint digits_prefix (s : string) (acc : Z) (n : nat) : Z * nat * string :=
  match s with
  | String c r =>
      if Py.isdigit_ascii c
      then digits_prefix r (acc * 10 + digit_value c) (S n)
      else (acc, n, s)
  | EmptyString => (acc, n, s)
  end.

Definition read_sign (s : string) : bool * string :=
  match s with
  | String c r =>
      if Ascii.eqb c "-" then (true, r)
      else if Ascii.eqb c "+" then (false, r)
      else (false, s)
  | EmptyString => (false, s)
  end.

Definition ascii_lower_char (c : ascii) : ascii :=
  if Py.between 65 90 c then ascii_of_N (Py.ord c + 32) else c.

Fixpoint ascii_lower (s : string) : string :=
  match s with
  | EmptyString => EmptyString
  | String c r => String (ascii_lower_char c) (ascii_lower r)
  end.

(** digits [. digits] [e [sign] digits], with a digit before the exponent. *)
Definition parse_number (neg : bool) (s : string) : option spec_float :=
  let '(ip, ni, s1) := digits_prefix s 0 O in
  let '(m, nf, s2) :=
    match s1 with
    | String c r =>
        if Ascii.eqb c "." then digits_prefix r ip O else (ip, O, s1)
    | EmptyString => (ip, O, s1)
    end in
  if Nat.eqb (ni + nf) O then None
  else
    match s2 with
    | EmptyString => Some (of_decimal neg m (- Z.of_nat nf))
    | String c r =>
        if Ascii.eqb c "e" || Ascii.eqb c "E" then
          let '(eneg, r') := read_sign r in
          let '(ev, ne, s3) := digits_prefix r' 0 O in
          match ne, s3 with
          | S _, EmptyString =>
              Some (of_decimal neg m ((if eneg then - ev else ev) - Z.of_nat nf))
          | _, _ => None
          end
        else None
    end.

Definition parse_signed (s : string) : option spec_float :=
  let '(neg, r) := read_sign s in
  let w := ascii_lower r in
  if String.eqb w "inf" || String.eqb w "infinity" then Some (S754_infinity neg)
  else if String.eqb w "nan" then Some S754_nan
  else parse_number neg r.

(** [float(s)] for a string; [None] when it raises [ValueError]. *)
Definition of_str (s : string) : option spec_float :=
  match drop_underscores "000"%char
          (Py.rstrip_with float_space (Py.lstrip_with float_space s)) with
  | Some t => parse_signed t
  | None => None
  end.

(** *** Decimal output *)

Definition string_of_Z (n : Z) : string :=
  NilZero.string_of_uint (N.to_uint (Z.to_N n)).

Definition round_half_even (num den : Z) : Z :=
  let q := num / den in
  match 2 * (num mod den) ?= den with
  | Lt => q
  | Gt => q + 1
  | Eq => if Z.even q then q else q + 1
  end.

Definition sign_str (s : bool) : string := if s then "-" else "".

(** [format(x, '.2f')]: the nearest decimal with two digits after the point. *)
Definition format_2f (x : spec_float) : string :=
  match x with
  | S754_nan => "nan"
  | S754_infinity s => sign_str s +:+ "inf"
  | S754_zero s => sign_str s +:+ "0.00"
  | S754_finite s m e =>
      let k := if 0 <=? e then Zpos m * 2 ^ e * 100
               else round_half_even (Zpos m * 100) (2 ^ (- e)) in
      sign_str s +:+ string_of_Z (k / 100) +:+ "."
        +:+ string_of_Z (k mod 100 / 10) +:+ string_of_Z (k mod 10)
  end.

(** [round(x, 2)]: the float nearest to the nearest decimal with two digits
    after the point; an infinity or NaN is returned as it is. *)
Definition round_2 (x : spec_float) : spec_float :=
  match x with
  | S754_finite _ _ _ =>
      match of_str (format_2f x) with
      | Some y => y
      | None => x
      end
  | _ => x
  end.

(** The first [j >= j0] with [den <= num * 10^j]. *)
Fixpoint first_scale (fuel : nat) (j num den : Z) : Z :=
  match fuel with
  | O => j
  | S f => if den <=? num * 10 ^ j then j else first_scale f (j + 1) num den
  end.

Definition ndigits (n : Z) : Z := Z.of_nat (String.length (string_of_Z n)).

(** [x] with [10^x <= m * 2^e < 10^(x+1)]. *)
Definition decimal_exponent (m : positive) (e : Z) : Z :=
  if 0 <=? e then ndigits (Zpos m * 2 ^ e) - 1
  else
    let den := 2 ^ (- e) in
    if den <=? Zpos m then ndigits (Zpos m / den) - 1
    else - first_scale (Z.to_nat (- e)) 1 (Zpos m) den.

(** [m * 2^e / 10^p] as quotient, remainder and divisor. *)
Definition scaled (m : positive) (e p : Z) : Z * Z * Z :=
  let num := Zpos m * (if 0 <=? e then 2 ^ e else 1) * (if 0 <=? p then 1 else 10 ^ (- p)) in
  let den := (if 0 <=? e then 1 else 2 ^ (- e)) * (if 0 <=? p then 10 ^ p else 1) in
  (num / den, num mod den, den).

(** The digits of the shortest decimal that [float] reads back as
    [m * 2^e], the nearest one if two have that length: tried with
    [k], [k+1], ... significant digits; with 17 digits the nearest decimal
    is taken. The result is the integer of the digits and the exponent of
    its last digit. *)
Fixpoint shortest_digits (fuel : nat) (k : Z) (m : positive) (e x : Z) : Z * Z :=
  let p := x - k + 1 in
  let '(lo, r, den) := scaled m e p in
  match fuel with
  | O => (round_half_even (lo * den + r) den, p)
  | S f =>
      let ok_lo := same (of_decimal false lo p) (S754_finite false m e) in
      let ok_hi := same (of_decimal false (lo + 1) p) (S754_finite false m e) in
      if ok_lo && ok_hi then (if 2 * r <=? den then lo else lo + 1, p)
      else if ok_lo then (lo, p)
      else if ok_hi then (lo + 1, p)
      else shortest_digits f (k + 1) m e x
  end.

Fixpoint zeros (n : nat) : string :=
  match n with O => EmptyString | S k => String "0" (zeros k) end.

Definition strip_zeros (s : string) : string :=
  Py.rstrip_with (Ascii.eqb "0") s.

Definition substring_from (n : nat) (s : string) : string :=
  String.substring n (String.length s - n) s.

(** [repr(x)], which is also [str(x)]. *)
Definition repr (x : spec_float) : string :=
  match x with
  | S754_nan => "nan"
  | S754_infinity s => sign_str s +:+ "inf"
  | S754_zero s => sign_str s +:+ "0.0"
  | S754_finite s m e =>
      let '(d, p) := shortest_digits 16 1 m e (decimal_exponent m e) in
      let decpt := ndigits d + p in
      let ds := strip_zeros (string_of_Z d) in
      let n := String.length ds in
      sign_str s +:+
      (if (decpt <=? -4) || (16 <? decpt) then
         String.substring 0 1 ds
         +:+ (if Nat.ltb 1 n then "." +:+ substring_from 1 ds else "")
         +:+ "e" +:+ (if decpt - 1 <? 0 then "-" else "+")
         +:+ (if Z.abs (decpt - 1) <? 10 then "0" else "")
         +:+ string_of_Z (Z.abs (decpt - 1))
       else if decpt <=? 0 then
         "0." +:+ zeros (Z.to_nat (- decpt)) +:+ ds
       else if decpt <? Z.of_nat n then
         String.substring 0 (Z.to_nat decpt) ds +:+ "."
         +:+ substring_from (Z.to_nat decpt) ds
       else ds +:+ zeros (Z.to_nat decpt - n) +:+ ".0")
  end.

End PyFloat.

(** ** Configuration constants *)

Definition FILE_NAME : string := "employees.csv".
Definition DELIMITER : string := ",".
Definition EMPLOYEE_KEYS : list string :=
  ["Employee ID"; "Name"; "Department"; "Salary"; "Email"; "Contact Details"].

(** ** Validation functions

    Each returns the pair of the verdict and the message. *)

Definition name_class (c : ascii) : bool :=
  Py.between 97 122 c || Py.between 65 90 c || Ascii.eqb c " ".

Definition department_class (c : ascii) : bool :=
  Py.between 97 122 c || Py.between 65 90 c || Py.between 48 57 c
  || Ascii.eqb c " " || Ascii.eqb c "-".

Definition non_space (c : ascii) : bool := negb (Py.isspace_char c).

(** [[a-zA-Z ]+] *)
Definition name_pattern : Py.regex := Py.Plus (Py.Class name_class).

(** [[a-zA-Z0-9 \-]+] *)
Definition department_pattern : Py.regex := Py.Plus (Py.Class department_class).

(** [\S+@\S+\.\S+], between [^] and [$] *)
Definition email_pattern : Py.regex :=
  Py.Cat (Py.Plus (Py.Class non_space))
    (Py.Cat (Py.Chr "@")
       (Py.Cat (Py.Plus (Py.Class non_space))
          (Py.Cat (Py.Chr ".") (Py.Plus (Py.Class non_space))))).

Definition is_valid_employee_id_format (employee_id : string) : bool * string :=
  if negb (Py.truthy employee_id) then
    (false, "Employee ID cannot be empty.")
  else if negb (Py.isalnum employee_id) then
    (false, "Employee ID must be alphanumeric (letters and numbers only).")
  else (true, "").

Definition is_valid_name_format (name : string) : bool * string :=
  if negb (Py.truthy name) || negb (Py.truthy (Py.strip name)) then
    (false, "Name cannot be empty.")
  else if negb (Py.re_fullmatch name_pattern (Py.strip name)) then
    (false, "Name must contain only alphabetic characters and spaces.")
  else (true, "").

Definition is_valid_department_format (department : string) : bool * string :=
  if negb (Py.truthy department) || negb (Py.truthy (Py.strip department)) then
    (false, "Department cannot be empty.")
  else if negb (Py.re_fullmatch department_pattern (Py.strip department)) then
    (false, "Department can only contain letters, numbers, spaces, and hyphens.")
  else (true, "").

Definition is_valid_salary_format (salary_str : string) : bool * string :=
  if negb (Py.truthy salary_str) || negb (Py.truthy (Py.strip salary_str)) then
    (false, "Salary cannot be empty.")
  else
    match PyFloat.of_str salary_str with
    | Some salary =>
        if PyFloat.ltb salary PyFloat.zero
        then (false, "Salary cannot be negative.")
        else (true, "")
    | None =>
        (false, "Salary must be a valid number (e.g., 50000 or 65000.50).")
    end.

Definition is_valid_email_format (email : string) : bool * string :=
  if negb (Py.truthy email) || negb (Py.truthy (Py.strip email)) then
    (false, "Email cannot be empty.")
  else if negb (Py.re_match_anchored email_pattern (Py.strip email)) then
    (false, "Invalid email format (must contain '@' and '.', no spaces allowed).")
  else (true, "").

Definition is_valid_contact_details_format (contact_details : string)
  : bool * string :=
  if negb (Py.truthy contact_details)
     || negb (Py.truthy (Py.strip contact_details)) then
    (false, "Contact Details cannot be empty.")
  else (true, "").

(** ** Exceptions, results and printed messages *)

Inductive exn : Type :=
| ValueError (msg : string)
| EOFError
| IndexError.

Inductive result (A : Type) : Type :=
| Return (a : A)
| Raise (e : exn).
Arguments Return {A} a.
Arguments Raise {A} e.

(** What one [print] call writes. *)
Inductive message : Type :=
| Text (s : string)
    (** the string itself *)
| TextData (s : string) (data_dict : gmap string string)
    (** [s] followed by the [repr] of a dictionary *)
| DepartmentHeading (department_name : string)
    (** the department heading of the report, with the name in upper case *)
| ConfirmationEmail (employee_id employee_email employee_name : string)
    (** what [_send_confirmation_email] writes while it reads the sender's
        credentials and talks to the mail server *).

(** ** The Employee class *)

Record Employee : Type := mkEmployee {
  employee_id : string;
  name : string;
  department : string;
  salary : spec_float;
  email : string;
  contact_details : string
}.

(** The [salary] argument of the constructor is a string (tests, callers
    with raw text) or a float ([from_dict], [add_employee]). *)
Inductive salary_arg : Type :=
| SalaryStr (s : string)
| SalaryFloat (x : spec_float).

(** [str(salary)] *)
Definition str_of_salary (salary : salary_arg) : string :=
  match salary with
  | SalaryStr s => s
  | SalaryFloat x => PyFloat.repr x
  end.

(** [float(salary)].  The message of the [ValueError] ends with the [repr]
    of the string, which is left out: the constructor calls this after
    [is_valid_salary_format] has accepted the same string. *)
Definition float_of_salary (salary : salary_arg) : result spec_float :=
  match salary with
  | SalaryStr s =>
      match PyFloat.of_str s with
      | Some x => Return x
      | None => Raise (ValueError ("could not convert string to float: " +:+ s))
      end
  | SalaryFloat x => Return x
  end.

(** [Employee.__init__] *)
Definition Employee_init
    (employee_id name department : string) (salary : salary_arg)
    (email contact_details : string) : result Employee :=
  if negb (is_valid_employee_id_format employee_id).1 then
    Raise (ValueError (is_valid_employee_id_format employee_id).2)
  else if negb (is_valid_name_format name).1 then
    Raise (ValueError (is_valid_name_format name).2)
  else if negb (is_valid_department_format department).1 then
    Raise (ValueError (is_valid_department_format department).2)
  else if negb (is_valid_salary_format (str_of_salary salary)).1 then
    Raise (ValueError (is_valid_salary_format (str_of_salary salary)).2)
  else if negb (is_valid_email_format email).1 then
    Raise (ValueError (is_valid_email_format email).2)
  else if negb (is_valid_contact_details_format contact_details).1 then
    Raise (ValueError (is_valid_contact_details_format contact_details).2)
  else
    match float_of_salary salary with
    | Return x =>
        Return {| employee_id := Py.strip employee_id;
                  name := Py.strip name;
                  department := Py.strip department;
                  salary := x;
                  email := Py.strip email;
                  contact_details := Py.strip contact_details |}
    | Raise e => Raise e
    end.

(** [Employee.to_dict] *)
Definition to_dict (self : Employee) : gmap string string :=
  Py.dict [("Employee ID", employee_id self);
           ("Name", name self);
           ("Department", department self);
           ("Salary", PyFloat.format_2f (salary self));
           ("Email", email self);
           ("Contact Details", contact_details self)].

(** [Employee.from_dict]: the printed messages and the outcome, which is an
    employee, [None], or the [ValueError] of the constructor raised again.
    The last handler is for exceptions that the constructor does not raise. *)
Definition from_dict (data_dict : gmap string string)
  : list message * result (option Employee) :=
  let salary_str := Py.get data_dict "Salary" "0" in
  match PyFloat.of_str salary_str with
  | None =>
      ([TextData ("Error creating employee: Invalid salary format '"
                  +:+ salary_str +:+ "'. Data: ") data_dict],
       Return None)
  | Some salary_float =>
      match Employee_init (Py.get data_dict "Employee ID" "")
                          (Py.get data_dict "Name" "")
                          (Py.get data_dict "Department" "")
                          (SalaryFloat salary_float)
                          (Py.get data_dict "Email" "")
                          (Py.get data_dict "Contact Details" "") with
      | Return e => ([], Return (Some e))
      | Raise (ValueError msg) =>
          ([TextData ("Error creating employee object from dictionary: "
                      +:+ msg +:+ ". Data: ") data_dict],
           Raise (ValueError msg))
      | Raise _ =>
          ([TextData "Unexpected error creating employee from dictionary: . Data: "
              data_dict],
           Return None)
      end
  end.

(** [Employee.__str__] *)
Definition Employee_str (self : Employee) : string :=
  "ID: " +:+ employee_id self +:+ ", Name: " +:+ name self
  +:+ ", Dept: " +:+ department self
  +:+ ", Salary: " +:+ PyFloat.format_2f (salary self)
  +:+ ", Email: " +:+ email self
  +:+ ", Contact: " +:+ contact_details self.

(** ** The EmployeeManagementSystem class *)

Record EmployeeManagementSystem : Type := mkSystem {
  _file_name : string;
  _delimiter : string;
  _employee_keys : list string;
  _employees_list : list Employee
}.

Definition len {A} (l : list A) : Z := Z.of_nat (List.length l).

Definition str_of_int (n : Z) : string :=
  (if n <? 0 then "-" else "") +:+ PyFloat.string_of_Z (Z.abs n).

Definition same_id (id : string) (employee : Employee) : bool :=
  String.eqb (employee_id employee) id.

(** The loop over the lines after the header in [_load_employees];
    [line_num] is the number of the first of [lines]. *)
Fixpoint load_lines (self : EmployeeManagementSystem) (lines : list string)
    (line_num : Z) (employees_data : list Employee)
  : list message * result (list Employee) :=
  match lines with
  | [] => ([], Return employees_data)
  | raw :: rest =>
      let line := Py.strip raw in
      let continue (out : list message) (data : list Employee) :=
        let '(out', r) := load_lines self rest (line_num + 1) data in
        (out ++ out', r) in
      if negb (Py.truthy line) then continue [] employees_data
      else
        match Py.split line (_delimiter self) with
        | None => ([], Raise (ValueError "empty separator"))
        | Some values =>
            if len values =? len (_employee_keys self) then
              let employee_dict := Py.dict (Py.zip (_employee_keys self) values) in
              let '(out, r) := from_dict employee_dict in
              match r with
              | Return (Some employee_obj) =>
                  if existsb (same_id (employee_id employee_obj)) employees_data
                  then
                    continue
                      (out ++ [Text ("Warning: Duplicate Employee ID '"
                         +:+ employee_id employee_obj
                         +:+ "' found in file on line " +:+ str_of_int line_num
                         +:+ ". Skipping duplicate.")])
                      employees_data
                  else continue out (employees_data ++ [employee_obj])
              | Return None =>
                  continue
                    (out ++ [Text ("Skipping invalid data on line "
                       +:+ str_of_int line_num +:+ " in " +:+ _file_name self
                       +:+ " (Employee.from_dict returned None): " +:+ line)])
                    employees_data
              | Raise (ValueError ve) =>
                  continue
                    (out ++ [Text ("Skipping invalid data format on line "
                       +:+ str_of_int line_num +:+ " in " +:+ _file_name self
                       +:+ ": " +:+ ve +:+ ". Line: " +:+ line)])
                    employees_data
              | Raise _ =>
                  continue
                    (out ++ [Text ("Unexpected error processing line "
                       +:+ str_of_int line_num +:+ " in " +:+ _file_name self
                       +:+ ": . Line: " +:+ line)])
                    employees_data
              end
            else
              continue
                [Text ("Skipping malformed line " +:+ str_of_int line_num
                   +:+ " in " +:+ _file_name self +:+ " (expected "
                   +:+ str_of_int (len (_employee_keys self)) +:+ " values, got "
                   +:+ str_of_int (len values) +:+ "): " +:+ line)]
                employees_data
        end
  end.

(** [_load_employees]: [disk] is the text of the backing file, [None] when
    there is no such file.  Faults of the file system while reading are not
    part of the model; an empty delimiter makes [split] raise, which the
    outer handler turns into an empty list. *)
Definition _load_employees (self : EmployeeManagementSystem)
    (disk : option string) : list message * list Employee :=
  match disk with
  | None =>
      ([Text ("No data file found (" +:+ _file_name self
              +:+ "). Starting with an empty list.")], [])
  | Some text =>
      let f := Py.text_lines text in
      match Py.split (Py.strip (List.hd EmptyString f)) (_delimiter self) with
      | None =>
          ([Text ("An error occurred while loading data from "
                  +:+ _file_name self +:+ ": empty separator")], [])
      | Some header =>
          match load_lines self (List.tl f) 2 [] with
          | (out, Return employees_data) =>
              (out ++ [Text ("Successfully loaded "
                 +:+ str_of_int (len employees_data)
                 +:+ " employee records from " +:+ _file_name self +:+ ".")],
               employees_data)
          | (out, Raise (ValueError e)) =>
              (out ++ [Text ("An error occurred while loading data from "
                 +:+ _file_name self +:+ ": " +:+ e)], [])
          | (out, Raise _) =>
              (out ++ [Text ("An error occurred while loading data from "
                 +:+ _file_name self +:+ ": ")], [])
          end
      end
  end.

(** [EmployeeManagementSystem.__init__]; the file name is kept as given. *)
Definition EmployeeManagementSystem_init
    (file_name delimiter : string) (employee_keys : list string)
    (disk : option string) : list message * EmployeeManagementSystem :=
  let self := {| _file_name := file_name; _delimiter := delimiter;
                 _employee_keys := employee_keys; _employees_list := [] |} in
  let '(out, employees_data) := _load_employees self disk in
  (out, {| _file_name := file_name; _delimiter := delimiter;
           _employee_keys := employee_keys;
           _employees_list := employees_data |}).

(** One written line of [_save_employees]. *)
Definition save_line (self : EmployeeManagementSystem) (employee_obj : Employee)
  : string :=
  let emp_dict := to_dict employee_obj in
  let values := map (fun key => Py.get emp_dict key "") (_employee_keys self) in
  Py.join (_delimiter self) values +:+ Py.newline.

(** [_save_employees]: the text that the call writes to the backing file.
    The call itself, with its two handlers, is [save_with] below. *)
Definition _save_employees (self : EmployeeManagementSystem) : string :=
  Py.join (_delimiter self) (_employee_keys self) +:+ Py.newline
  +:+ String.concat "" (map (save_line self) (_employees_list self)).

Definition _find_employee_by_id (self : EmployeeManagementSystem)
    (employee_id : string) : option Employee :=
  List.find (same_id employee_id) (_employees_list self).

(** The index of the first employee with that id in [l], counted from [i];
    -1 when there is none. *)
Fixpoint find_index_from (employee_id : string) (l : list Employee) (i : Z) : Z :=
  match l with
  | [] => -1
  | employee :: rest =>
      if same_id employee_id employee then i
      else find_index_from employee_id rest (i + 1)
  end.

Definition _find_employee_index_by_id (self : EmployeeManagementSystem)
    (employee_id : string) : Z :=
  find_index_from employee_id (_employees_list self) 0.

Definition _is_employee_id_unique (self : EmployeeManagementSystem)
    (employee_id : string) : bool :=
  match _find_employee_by_id self employee_id with
  | None => true
  | Some _ => false
  end.

(** [_does_department_exist] *)
Definition _does_department_exist (self : EmployeeManagementSystem)
    (department_name : string) : bool :=
  if negb (Py.truthy department_name) then false
  else
    let dept_name_lower := Py.lower department_name in
    existsb (fun employee =>
               Py.truthy (department employee)
               && String.eqb (Py.lower (department employee)) dept_name_lower)
            (_employees_list self).

(** ** The running program: list, backing file, keyboard and screen *)

Record world : Type := mkWorld {
  self : EmployeeManagementSystem;
  disk : option string;       (* text of the backing file, if it exists *)
  stdin : list string;        (* the lines still to be typed *)
  stdout : list message       (* what has been printed, oldest first *)
}.

Definition M (A : Type) : Type := world -> result A * world.

Definition ret {A} (a : A) : M A := fun w => (Return a, w).

Definition bind {A B} (m : M A) (k : A -> M B) : M B :=
  fun w => match m w with
           | (Return a, w') => k a w'
           | (Raise e, w') => (Raise e, w')
           end.

Definition raise {A} (e : exn) : M A := fun w => (Raise e, w).

Notation "x <- m ;; k" := (bind m (fun x => k))
  (at level 100, m at next level, right associativity).
Notation "m ;;; k" := (bind m (fun _ => k))
  (at level 100, right associativity).

Definition print (m : message) : M unit :=
  fun w => (Return tt, {| self := self w; disk := disk w; stdin := stdin w;
                          stdout := stdout w ++ [m] |}).

Definition print_all (ms : list message) : M unit :=
  fun w => (Return tt, {| self := self w; disk := disk w; stdin := stdin w;
                          stdout := stdout w ++ ms |}).

(** [input(prompt)]: the next typed line, [EOFError] when there is none;
    the prompt is not recorded. *)
Definition input : M string :=
  fun w => match stdin w with
           | [] => (Raise EOFError, w)
           | line :: rest =>
               (Return line, {| self := self w; disk := disk w; stdin := rest;
                                stdout := stdout w |})
           end.

Definition get_self : M EmployeeManagementSystem := fun w => (Return (self w), w).

Definition set_employees_list (l : list Employee) : M unit :=
  fun w => (Return tt,
            {| self := {| _file_name := _file_name (self w);
                          _delimiter := _delimiter (self w);
                          _employee_keys := _employee_keys (self w);
                          _employees_list := l |};
               disk := disk w; stdin := stdin w; stdout := stdout w |}).

(** What a call of [_save_employees] meets in the file system: the whole
    text is written, or [open] or a [write] raises.  [written] is [None] when
    [open] raises, which leaves the file as it was, and [Some n] when the
    file was opened, and so emptied, and [n] characters of the new text
    reached it.  [io_error] tells which of the two handlers takes the
    exception, and [e] is the text of the exception. *)
Inductive write_outcome : Type :=
| Written
| WriteFailed (written : option nat) (io_error : bool) (e : string).

(** [self._save_employees()].  [faults] says what the file system does with
    the write that is attempted in a given state.  The handlers print one
    line and the call returns: the caller cannot tell a failed write from a
    successful one. *)
Definition save_with (faults : world -> write_outcome) : M unit :=
  fun w =>
    match faults w with
    | Written =>
        (Return tt, {| self := self w; disk := Some (_save_employees (self w));
                       stdin := stdin w; stdout := stdout w |})
    | WriteFailed written io_error e =>
        (Return tt,
         {| self := self w;
            disk := match written with
                    | None => disk w
                    | Some n => Some (String.substring 0 n (_save_employees (self w)))
                    end;
            stdin := stdin w;
            stdout := stdout w ++
              [Text (if io_error
                     then "An I/O error occurred while saving data to "
                          +:+ _file_name (self w) +:+ ": " +:+ e
                     else "An unexpected error occurred while saving data: "
                          +:+ e)] |})
    end.

(** A file system on which every write succeeds. *)
Definition no_fault : world -> write_outcome := fun _ => Written.

(** [self._save_employees()] on a file system on which every write
    succeeds. *)
Definition save : M unit := save_with no_fault.

(** A [while True] loop that asks until [check] accepts the typed line:
    [check] returns the message to print before asking again, or the
    outcome that leaves the loop. *)
Fixpoint ask_lines {A} (check : string -> message + result A)
    (lines : list string) : list message * option (result A * list string) :=
  match lines with
  | [] => ([], None)
  | line :: rest =>
      match check line with
      | inr a => ([], Some (a, rest))
      | inl m => let '(out, r) := ask_lines check rest in (m :: out, r)
      end
  end.

Definition ask {A} (check : string -> message + result A) : M A :=
  fun w =>
    match ask_lines check (stdin w) with
    | (out, Some (a, rest)) =>
        (a, {| self := self w; disk := disk w; stdin := rest;
               stdout := stdout w ++ out |})
    | (out, None) =>
        (Raise EOFError, {| self := self w; disk := disk w; stdin := [];
                            stdout := stdout w ++ out |})
    end.

Definition failed (msg : string) : message := Text ("Validation failed: " +:+ msg).

(** The six input loops of [add_employee]. *)
Definition check_new_id (self : EmployeeManagementSystem) (line : string)
  : message + result string :=
  let employee_id := Py.strip line in
  let '(id_valid, id_msg) := is_valid_employee_id_format employee_id in
  if negb id_valid then inl (failed id_msg)
  else if negb (_is_employee_id_unique self employee_id) then
    inl (Text ("Validation failed: Employee ID '" +:+ employee_id
               +:+ "' already exists."))
  else inr (Return employee_id).

Definition check_with (valid : string -> bool * string) (line : string)
  : message + result string :=
  let value := Py.strip line in
  let '(ok, msg) := valid value in
  if negb ok then inl (failed msg) else inr (Return value).

Definition check_salary (line : string) : message + result spec_float :=
  let salary_str := Py.strip line in
  let '(salary_valid, salary_msg) := is_valid_salary_format salary_str in
  if negb salary_valid then inl (failed salary_msg)
  else inr (float_of_salary (SalaryStr salary_str)).

(** [add_employee]; [faults] is what the file system does with its write,
    and so for the other commands that save. *)
Definition add_employee_with (faults : world -> write_outcome) : M unit :=
  print (Text (Py.newline +:+ "--- Add New Employee ---")) ;;;
  this <- get_self ;;
  employee_id <- ask (check_new_id this) ;;
  name <- ask (check_with is_valid_name_format) ;;
  department <- ask (check_with is_valid_department_format) ;;
  salary <- ask check_salary ;;
  email <- ask (check_with is_valid_email_format) ;;
  contact_details <- ask (check_with is_valid_contact_details_format) ;;
  match Employee_init employee_id name department (SalaryFloat salary)
          email contact_details with
  | Return new_employee =>
      set_employees_list (_employees_list this ++ [new_employee]) ;;;
      save_with faults ;;;
      print (Text (Py.newline +:+ "Confirmation: Employee '" +:+ name
                   +:+ "' (ID: " +:+ employee_id
                   +:+ ") has been successfully added.")) ;;;
      print (ConfirmationEmail employee_id email name)
  | Raise (ValueError e) =>
      print (Text ("Error creating employee record: " +:+ e))
  | Raise _ =>
      print (Text "An unexpected error occurred during employee addition: ")
  end.

(** [add_employee] on a file system on which every write succeeds. *)
Definition add_employee : M unit := add_employee_with no_fault.

Definition input_stripped : M string := line <- input ;; ret (Py.strip line).

Definition not_found (employee_id_input : string) : message :=
  Text ("Error: Employee not found with ID '" +:+ employee_id_input +:+ "'.").

Definition view_employee : M unit :=
  print (Text (Py.newline +:+ "--- View Employee Details ---")) ;;;
  this <- get_self ;;
  match _employees_list this with
  | [] => print (Text "No employee records available to view.")
  | _ =>
      employee_id_input <- input_stripped ;;
      let '(id_valid, id_msg) := is_valid_employee_id_format employee_id_input in
      if negb id_valid then print (Text ("Invalid input: " +:+ id_msg))
      else
        match _find_employee_by_id this employee_id_input with
        | Some found_employee =>
            print_all
              [Text (Py.newline +:+ "Employee Details:");
               Text ("  Employee ID: " +:+ employee_id found_employee);
               Text ("  Name: " +:+ name found_employee);
               Text ("  Department: " +:+ department found_employee);
               Text ("  Salary: " +:+ PyFloat.format_2f (salary found_employee));
               Text ("  Email: " +:+ email found_employee);
               Text ("  Contact Details: " +:+ contact_details found_employee)]
        | None => print (not_found employee_id_input)
        end
  end.

(** [l[i]] for an index that is not negative. *)
Definition item {A} (l : list A) (i : Z) : M A :=
  match l !! Z.to_nat i with
  | Some a => ret a
  | None => raise IndexError
  end.

Definition yes_or_y (confirmation : string) : bool :=
  String.eqb confirmation "yes" || String.eqb confirmation "y".

Definition update_employee_with (faults : world -> write_outcome) : M unit :=
  print (Text (Py.newline +:+ "--- Update Employee Details ---")) ;;;
  this <- get_self ;;
  match _employees_list this with
  | [] => print (Text "No employee records available to update.")
  | _ =>
  employee_id_input <- input_stripped ;;
  let '(id_valid, id_msg) := is_valid_employee_id_format employee_id_input in
  if negb id_valid then print (Text ("Invalid input: " +:+ id_msg)) else
  let found_employee_index := _find_employee_index_by_id this employee_id_input in
  if found_employee_index =? -1 then print (not_found employee_id_input) else
  employee_to_update <- item (_employees_list this) found_employee_index ;;
  print_all
    [Text (Py.newline +:+ "Current Employee Details:");
     Text ("  ID: " +:+ employee_id employee_to_update);
     Text ("  Name: " +:+ name employee_to_update);
     Text ("  Department: " +:+ department employee_to_update);
     Text ("  Salary: " +:+ PyFloat.format_2f (salary employee_to_update));
     Text ("  Email: " +:+ email employee_to_update);
     Text ("  Contact Details: " +:+ contact_details employee_to_update);
     Text (Py.newline +:+ "Enter new details (press Enter to keep current value):")] ;;;
  new_name_str <- input_stripped ;;
  if Py.truthy new_name_str && negb (is_valid_name_format new_name_str).1 then
    print (Text ("Update aborted: Invalid Name - "
                 +:+ (is_valid_name_format new_name_str).2)) else
  let updated_name :=
    if Py.truthy new_name_str then new_name_str else name employee_to_update in
  new_department_str <- input_stripped ;;
  if Py.truthy new_department_str
     && negb (is_valid_department_format new_department_str).1 then
    print (Text ("Update aborted: Invalid Department - "
                 +:+ (is_valid_department_format new_department_str).2)) else
  let updated_department :=
    if Py.truthy new_department_str then new_department_str
    else department employee_to_update in
  new_salary_str <- input_stripped ;;
  if Py.truthy new_salary_str
     && negb (is_valid_salary_format new_salary_str).1 then
    print (Text ("Update aborted: Invalid Salary - "
                 +:+ (is_valid_salary_format new_salary_str).2)) else
  updated_salary <-
    (if Py.truthy new_salary_str
     then (fun w => (float_of_salary (SalaryStr new_salary_str), w))
     else ret (salary employee_to_update)) ;;
  new_email_str <- input_stripped ;;
  if Py.truthy new_email_str && negb (is_valid_email_format new_email_str).1 then
    print (Text ("Update aborted: Invalid Email - "
                 +:+ (is_valid_email_format new_email_str).2)) else
  let updated_email :=
    if Py.truthy new_email_str then new_email_str else email employee_to_update in
  new_contact_str <- input_stripped ;;
  if Py.truthy new_contact_str
     && negb (is_valid_contact_details_format new_contact_str).1 then
    print (Text ("Update aborted: Invalid Contact Details - "
                 +:+ (is_valid_contact_details_format new_contact_str).2)) else
  let updated_contact_details :=
    if Py.truthy new_contact_str then new_contact_str
    else contact_details employee_to_update in
  let changes_made :=
    Py.truthy new_name_str || Py.truthy new_department_str
    || Py.truthy new_salary_str || Py.truthy new_email_str
    || Py.truthy new_contact_str in
  if negb changes_made then print (Text "No changes entered. Update cancelled.") else
  print_all
    [Text (Py.newline +:+ "Preview of updated details:");
     Text ("  Name: " +:+ updated_name);
     Text ("  Department: " +:+ updated_department);
     Text ("  Salary: " +:+ PyFloat.format_2f updated_salary);
     Text ("  Email: " +:+ updated_email);
     Text ("  Contact Details: " +:+ updated_contact_details)] ;;;
  answer <- input ;;
  let confirmation := Py.strip (Py.lower answer) in
  if yes_or_y confirmation then
    set_employees_list
      (<[Z.to_nat found_employee_index :=
           {| employee_id := employee_id employee_to_update;
              name := updated_name;
              department := updated_department;
              salary := updated_salary;
              email := updated_email;
              contact_details := updated_contact_details |}]>
         (_employees_list this)) ;;;
    save_with faults ;;;
    print (Text "Employee details updated successfully.")
  else print (Text "Update cancelled. No changes were saved.")
  end.

(** [update_employee] on a file system on which every write succeeds. *)
Definition update_employee : M unit := update_employee_with no_fault.

Definition delete_employee_with (faults : world -> write_outcome) : M unit :=
  print (Text (Py.newline +:+ "--- Delete Employee Record ---")) ;;;
  this <- get_self ;;
  match _employees_list this with
  | [] => print (Text "No employee records available to delete.")
  | _ =>
  employee_id_input <- input_stripped ;;
  let '(id_valid, id_msg) := is_valid_employee_id_format employee_id_input in
  if negb id_valid then print (Text ("Invalid input: " +:+ id_msg)) else
  let found_employee_index := _find_employee_index_by_id this employee_id_input in
  if found_employee_index =? -1 then print (not_found employee_id_input) else
  employee_to_delete <- item (_employees_list this) found_employee_index ;;
  print_all
    [Text (Py.newline +:+ "Employee Details to Delete:");
     Text ("  Employee ID: " +:+ employee_id employee_to_delete);
     Text ("  Name: " +:+ name employee_to_delete);
     Text ("  Department: " +:+ department employee_to_delete)] ;;;
  answer <- input ;;
  let confirmation := Py.strip (Py.lower answer) in
  if yes_or_y confirmation then
    set_employees_list
      (delete (Z.to_nat found_employee_index) (_employees_list this)) ;;;
    save_with faults ;;;
    print (Text ("Employee with ID '" +:+ employee_id_input
                 +:+ "' has been successfully deleted."))
  else print (Text "Deletion cancelled.")
  end.

(** [delete_employee] on a file system on which every write succeeds. *)
Definition delete_employee : M unit := delete_employee_with no_fault.

(** [s * n] for a one-character string, and the format [{s:<width}]. *)
Fixpoint repeat_char (c : ascii) (n : nat) : string :=
  match n with O => EmptyString | S k => String c (repeat_char c k) end.

Definition ljust (s : string) (width : nat) : string :=
  s +:+ repeat_char " " (width - String.length s).

Definition by_employee_id (l : list Employee) : list Employee :=
  Py.sorted employee_id l.

Definition listing_row (employee : Employee) : message :=
  Text (ljust (employee_id employee) 15 +:+ " " +:+ ljust (name employee) 25
        +:+ " " +:+ ljust (department employee) 20).

Definition list_all_employees : M unit :=
  print (Text (Py.newline +:+ "--- List All Employees ---")) ;;;
  this <- get_self ;;
  match _employees_list this with
  | [] => print (Text "No employee records found.")
  | _ =>
      print (Text (ljust "Employee ID" 15 +:+ " " +:+ ljust "Name" 25
                   +:+ " " +:+ ljust "Department" 20)) ;;;
      print (Text (repeat_char "-" 60)) ;;;
      let sorted_list := by_employee_id (_employees_list this) in
      print_all (map listing_row sorted_list) ;;;
      print (Text (repeat_char "-" 60)) ;;;
      print (Text ("Total Employees: "
                   +:+ str_of_int (len (_employees_list this))))
  end.

(** *** The department report *)

(** One value of [departments_data]. *)
Record dept_info : Type := mkDept {
  display_name : string;
  employees : list Employee
}.

Definition dept_key_of (employee : Employee) : string :=
  if Py.truthy (department employee)
  then Py.lower (Py.strip (department employee))
  else "uncategorized".

Definition dept_display_name_of (employee : Employee) : string :=
  if Py.truthy (department employee)
  then Py.strip (department employee)
  else "Uncategorized".

(** [departments_data] is a dictionary that is walked in insertion order:
    a list of keys and values without repeated keys.  One turn of the
    grouping loop: *)
Fixpoint group_employee (employee : Employee)
    (departments_data : list (string * dept_info)) : list (string * dept_info) :=
  match departments_data with
  | [] =>
      [(dept_key_of employee,
        {| display_name := dept_display_name_of employee;
           employees := [employee] |})]
  | (k, info) :: rest =>
      if String.eqb k (dept_key_of employee)
      then (k, {| display_name := display_name info;
                  employees := employees info ++ [employee] |}) :: rest
      else (k, info) :: group_employee employee rest
  end.

Definition group_by_department (l : list Employee) : list (string * dept_info) :=
  fold_left (fun departments_data employee =>
               group_employee employee departments_data) l [].

Definition lookup_dept (departments_data : list (string * dept_info))
    (dept_key : string) : dept_info :=
  match List.find (fun kv => String.eqb kv.1 dept_key) departments_data with
  | Some kv => kv.2
  | None => {| display_name := EmptyString; employees := [] |}
  end.

Definition sorted_dept_keys (departments_data : list (string * dept_info))
  : list string :=
  Py.sorted (fun k => display_name (lookup_dept departments_data k))
            (map fst departments_data).

(** What the report shows for one department. *)
Record dept_section : Type := mkSection {
  department_name : string;
  sorted_dept_list : list Employee;
  employees_in_dept_count : Z;
  total_salary_dept : spec_float
}.

Definition section_of (info : dept_info) : dept_section :=
  let sorted_dept_list := Py.sorted name (employees info) in
  {| department_name := display_name info;
     sorted_dept_list := sorted_dept_list;
     employees_in_dept_count := len (employees info);
     total_salary_dept :=
       fold_left (fun total employee => PyFloat.add total (salary employee))
                 sorted_dept_list PyFloat.zero |}.

(** The sections of the report in the order in which they are printed. *)
Definition report_sections (l : list Employee) : list dept_section :=
  let departments_data := group_by_department l in
  map (fun dept_key => section_of (lookup_dept departments_data dept_key))
      (sorted_dept_keys departments_data).

Definition total_employees_overall (sections : list dept_section) : Z :=
  fold_left (fun total s => total + employees_in_dept_count s) sections 0.

Definition report_row (employee : Employee) : message :=
  Text (ljust (employee_id employee) 15 +:+ " " +:+ ljust (name employee) 25
        +:+ " " +:+ ljust (PyFloat.format_2f (salary employee)) 15
        +:+ " " +:+ ljust (email employee) 25).

Definition print_section (s : dept_section) : list message :=
  [DepartmentHeading (department_name s);
   Text (ljust "Employee ID" 15 +:+ " " +:+ ljust "Name" 25 +:+ " "
         +:+ ljust "Salary" 15 +:+ " " +:+ ljust "Email" 25);
   Text (repeat_char "-" 75)]
  ++ map report_row (sorted_dept_list s)
  ++ [Text (repeat_char "-" 75);
      Text ("Total Employees in " +:+ department_name s +:+ ": "
            +:+ str_of_int (employees_in_dept_count s));
      Text ("Total Salary for " +:+ department_name s +:+ ": "
            +:+ PyFloat.format_2f (total_salary_dept s));
      Text (repeat_char "-" 75)].

Definition generate_department_report : M unit :=
  print (Text (Py.newline +:+ "--- Employee Report by Department ---")) ;;;
  this <- get_self ;;
  match _employees_list this with
  | [] => print (Text "No employee records available to generate reports.")
  | _ =>
      let departments_data := group_by_department (_employees_list this) in
      match departments_data with
      | [] => print (Text "No departments found among employees.")
      | _ =>
          let sections := report_sections (_employees_list this) in
          print_all
            [Text (Py.newline +:+ repeat_char "=" 75);
             Text " Overall Employee Distribution by Department";
             Text (repeat_char "=" 75)] ;;;
          print_all (concat (map print_section sections)) ;;;
          print_all
            [Text (Py.newline +:+ repeat_char "=" 75);
             Text ("Report Complete. Found "
                   +:+ str_of_int (len departments_data) +:+ " departments.");
             Text ("Total Employees Across All Departments: "
                   +:+ str_of_int (total_employees_overall sections));
             Text (repeat_char "=" 75)]
      end
  end.

(** *** The menu *)

Definition menu : list message :=
  [Text (Py.newline +:+ "--- Main Menu ---");
   Text "1. Add Employee"; Text "2. View Employee"; Text "3. Update Employee";
   Text "4. Delete Employee"; Text "5. List All Employees";
   Text "6. Department Wise Report"; Text "7. Exit"].

Definition catch {A} (m : M A) (handler : exn -> M A) : M A :=
  fun w => match m w with
           | (Return a, w') => (Return a, w')
           | (Raise e, w') => handler e w'
           end.

Definition goodbye_with (faults : world -> write_outcome) : M bool :=
  save_with faults ;;; print (Text "Goodbye!") ;;; ret false.

Definition goodbye : M bool := goodbye_with no_fault.

Definition exn_text (e : exn) : string :=
  match e with
  | ValueError msg => msg
  | EOFError => EmptyString
  | IndexError => "list index out of range"
  end.

(** One turn of the [while True] loop of [run]; [false] after [break]. *)
Definition menu_turn_with (faults : world -> write_outcome) : M bool :=
  print_all menu ;;;
  choice <- input_stripped ;;
  catch
    (if String.eqb choice "1" then add_employee_with faults ;;; ret true
     else if String.eqb choice "2" then view_employee ;;; ret true
     else if String.eqb choice "3" then update_employee_with faults ;;; ret true
     else if String.eqb choice "4" then delete_employee_with faults ;;; ret true
     else if String.eqb choice "5" then list_all_employees ;;; ret true
     else if String.eqb choice "6" then generate_department_report ;;; ret true
     else if String.eqb choice "7" then
       print (Text "Exiting Employee Management System. Saving data...") ;;;
       goodbye_with faults
     else
       print (Text "Invalid choice. Please enter a number between 1 and 7.") ;;;
       ret true)
    (fun e =>
       match e with
       | EOFError =>
           print (Text (Py.newline
              +:+ "Exiting due to unexpected end of input. Saving data...")) ;;;
           goodbye_with faults
       | _ =>
           print (Text (Py.newline +:+ "An unexpected error occurred: "
                        +:+ exn_text e)) ;;;
           print (Text "Please try again or contact support if the issue persists.") ;;;
           ret true
       end).

(** One turn on a file system on which every write succeeds. *)
Definition menu_turn : M bool := menu_turn_with no_fault.

(** [run]: every turn reads at least one line or ends the loop, so the
    number of typed lines bounds the number of turns (see
    [turns_enough_fuel]). *)
Fixpoint turns_with (faults : world -> write_outcome) (fuel : nat) : M unit :=
  match fuel with
  | O => ret tt
  | S f =>
      again <- menu_turn_with faults ;;
      if again then turns_with faults f else ret tt
  end.

Definition turns (fuel : nat) : M unit := turns_with no_fault fuel.

Definition run_with (faults : world -> write_outcome) : M unit :=
  print (Text (Py.newline
               +:+ "Welcome to the BitFutura Employee Management System")) ;;;
  fun w => turns_with faults (S (List.length (stdin w))) w.

(** [run] on a file system on which every write succeeds. *)
Definition run : M unit := run_with no_fault.


(** The program: build the system from the backing file, then [run]. *)
Definition boot (file_name delimiter : string) (employee_keys : list string)
    (disk : option string) (typed : list string) : world :=
  let '(out, ems_app) :=
    EmployeeManagementSystem_init file_name delimiter employee_keys disk in
  {| self := ems_app; disk := disk; stdin := typed; stdout := out |}.

Definition main (disk : option string) (typed : list string) : result unit * world :=
  run (boot FILE_NAME DELIMITER EMPLOYEE_KEYS disk typed).

(** [post m w Q]: the outcome and the final state of running [m] in the
    state [w] satisfy [Q]. *)
Definition post {A} (m : M A) (w : world) (Q : result A -> world -> Prop) : Prop :=
  Q (m w).1 (m w).2.

(** ** Reachable states *)

(** The states of the running program between two turns of the menu: after
    the system is built from the backing file, after the welcome line, and
    after each turn, whatever is typed. *)
Inductive reachable : world -> Prop :=
| reachable_boot (file_name delimiter : string) (employee_keys : list string)
    (disk : option string) (typed : list string) :
    reachable (boot file_name delimiter employee_keys disk typed)
| reachable_print (w : world) (m : message) :
    reachable w -> reachable (print m w).2
| reachable_turn (w : world) :
    reachable w -> reachable (menu_turn w).2.

(** An employee that the constructor has returned. *)
Definition constructed (e : Employee) : Prop :=
  exists employee_id name department salary email contact_details,
    Employee_init employee_id name department salary email contact_details
      = Return e.

(** The last line printed by an update that was saved. *)
Definition update_committed (w : world) : Prop :=
  last (stdout w) = Some (Text "Employee details updated successfully.").

(** The system with another list. *)
Definition with_list (s : EmployeeManagementSystem) (l : list Employee)
  : EmployeeManagementSystem :=
  {| _file_name := _file_name s; _delimiter := _delimiter s;
     _employee_keys := _employee_keys s; _employees_list := l |}.

(** What one turn of the menu can do to the list. *)
Inductive store_step (l : list Employee) : list Employee -> Prop :=
| store_same : store_step l l
| store_add (e : Employee) :
    constructed e ->
    Forall (fun x => employee_id x <> employee_id e) l ->
    store_step l (l ++ [e])
| store_update (i : nat) (old new : Employee) :
    l !! i = Some old ->
    employee_id new = employee_id old ->
    department new = department old
      \/ Py.truthy (Py.strip (department new)) = true ->
    store_step l (<[i := new]> l)
| store_delete (i : nat) : store_step l (delete i l).

(** The frame of a saved update: [typed] are the lines read by
    [update_employee], [old] and [new] are the employee before and after. *)
Definition updated_fields (typed : list string) (old new : Employee) : Prop :=
  exists id_line name_line department_line salary_line email_line
         contact_line answer,
    typed = [id_line; name_line; department_line; salary_line; email_line;
             contact_line; answer] /\
    employee_id old = Py.strip id_line /\
    employee_id new = employee_id old /\
    name new = (if Py.truthy (Py.strip name_line)
                then Py.strip name_line else name old) /\
    department new = (if Py.truthy (Py.strip department_line)
                      then Py.strip department_line else department old) /\
    (if Py.truthy (Py.strip salary_line)
     then PyFloat.of_str (Py.strip salary_line) = Some (salary new)
     else salary new = salary old) /\
    email new = (if Py.truthy (Py.strip email_line)
                 then Py.strip email_line else email old) /\
    contact_details new = (if Py.truthy (Py.strip contact_line)
                           then Py.strip contact_line
                           else contact_details old).

(** ** Auxiliary notions and sample data *)

Definition sample_dict (salary department : string) : gmap string string :=
  Py.dict [("Employee ID", "BF001"); ("Name", "Alice Smith");
           ("Department", department); ("Salary", salary);
           ("Email", "alice.s@bitfutura.test");
           ("Contact Details", "123-456-7890")].

Definition nan_employee : Employee :=
  {| employee_id := "E1"; name := "Ann"; department := "Ops";
     salary := S754_nan; email := "ann@bitfutura.test";
     contact_details := "555-0100" |}.

Definition comma_employee : Employee :=
  {| employee_id := "BF001"; name := "Alice Smith";
     department := "Engineering";
     salary := S754_finite false 5153995114938368 (-36);
     email := "alice.s@bitfutura.test"; contact_details := "12 Main St, Springfield" |}.

Definition default_system (l : list Employee) : EmployeeManagementSystem :=
  {| _file_name := FILE_NAME; _delimiter := DELIMITER;
     _employee_keys := EMPLOYEE_KEYS; _employees_list := l |}.

(** A line of text without line break, and the values of a line of the
    backing file under the default delimiter. *)
Definition no_break (s : string) : bool :=
  Py.forallb_str (fun c => negb (Ascii.eqb c Py.LF) && negb (Ascii.eqb c Py.CR)) s.

Definition values_of (line : string) : list string :=
  Py.split_from DELIMITER (Py.strip line) O.

Definition test_system : EmployeeManagementSystem :=
  {| _file_name := "test_employees.csv"; _delimiter := DELIMITER;
     _employee_keys := EMPLOYEE_KEYS; _employees_list := [] |}.

(** The order of [sorted(l, key=key)]. *)
Definition key_le {A : Type} (key : A -> string) (a b : A) : Prop :=
  String.leb (key a) (key b) = true.

(** Three employees in the departments Engineering, engineering (typed with
    a space after it) and Marketing, as the constructor builds them. *)
Definition engineering_1 : result Employee :=
  Employee_init "BF001" "Alice Smith" "Engineering" (SalaryStr "75000.50")
    "alice.s@bitfutura.test" "123-456-7890".

Definition engineering_2 : result Employee :=
  Employee_init "BF003" "Charlie Lee" "engineering " (SalaryStr "80000.00")
    "charlie.l@bitfutura.test" "555-111-2222".

Definition marketing_1 : result Employee :=
  Employee_init "BF002" "Bob Johnson" "Marketing" (SalaryStr "60000")
    "bob.j@bitfutura.test" "987-654-3210".

Definition returned (rs : list (result Employee)) : list Employee :=
  omap (fun r => match r with Return e => Some e | Raise _ => None end) rs.

(** The same employee with another department text. *)
Definition with_department (department : string) (e : Employee) : Employee :=
  {| employee_id := employee_id e; name := name e; department := department;
     salary := salary e; email := email e;
     contact_details := contact_details e |}.

(** A summary of the sections of a report: name, ids in the order shown,
    number of employees and the salary total as it is printed. *)
Definition summary (sections : list dept_section)
  : list (string * list string * Z * string) :=
  map (fun s => (department_name s, map employee_id (sorted_dept_list s),
                 employees_in_dept_count s,
                 PyFloat.format_2f (total_salary_dept s))) sections.

(** A backing file in which the id BF001 comes twice, and a session on it:
    BF001 is typed as a new id and turned down, BF005 is added, BF002 is
    updated and BF001 is deleted. *)
Definition sample_file : string :=
  "Employee ID,Name,Department,Salary,Email,Contact Details" +:+ Py.newline
  +:+ "BF001,Alice Smith,Engineering,75000.50,alice.s@bitfutura.test,123-456-7890"
  +:+ Py.newline
  +:+ "BF002,Bob Johnson,Marketing,60000,bob.j@bitfutura.test,987-654-3210"
  +:+ Py.newline
  +:+ "BF001,Alice Smith,Research,75000.50,alice.s@bitfutura.test,123-456-7890"
  +:+ Py.newline.

Definition sample_session : list string :=
  ["1"; "BF001"; "BF005"; "Dana Scott"; " quality assurance "; "52000";
   "dana.s@bitfutura.test"; "555-0101";
   "3"; "BF002"; ""; "Sales"; ""; ""; ""; "yes";
   "4"; "BF001"; "y"].

Definition sample_world : world := (main (Some sample_file) sample_session).2.

(** The state before the update of the test suite: one employee, and the
    lines typed for the update. *)
Definition update_sample : world :=
  {| self := default_system
       [{| employee_id := "BF001"; name := "Alice Smith";
           department := "Engineering";
           salary := S754_finite false 5153995114938368 (-36);
           email := "alice.s@bitfutura.test";
           contact_details := "123-456-7890" |}];
     disk := None;
     stdin := ["BF001"; "Alice Smith Jr"; ""; "80000"; ""; "New Contact"; "yes"];
     stdout := [] |}.

(** ** Further notions and sample data *)

(** The characters of a salary written with two decimals. *)
Definition salary_char (c : ascii) : bool :=
  Py.isdigit_ascii c || Ascii.eqb c "." || Ascii.eqb c "-"
  || Ascii.eqb c "n" || Ascii.eqb c "a" || Ascii.eqb c "i" || Ascii.eqb c "f".

(** The characters of a decimal numeral. *)
Definition numeral_char (c : ascii) : bool :=
  Py.isdigit_ascii c || Ascii.eqb c "." || Ascii.eqb c "-" || Ascii.eqb c "+"
  || Ascii.eqb c "e".

(** An employee as the constructor leaves it: the five text fields pass
    their validators and are stripped, and the text of the salary passes the
    salary test. *)
Definition well_formed (e : Employee) : Prop :=
  ((is_valid_employee_id_format (employee_id e)).1 = true /\
   (is_valid_name_format (name e)).1 = true /\
   (is_valid_department_format (department e)).1 = true /\
   (is_valid_email_format (email e)).1 = true /\
   (is_valid_contact_details_format (contact_details e)).1 = true /\
   (is_valid_salary_format (PyFloat.repr (salary e))).1 = true) /\
  (Py.strip (employee_id e) = employee_id e /\
   Py.strip (name e) = name e /\
   Py.strip (department e) = department e /\
   Py.strip (email e) = email e /\
   Py.strip (contact_details e) = contact_details e).

(** Two employees, and the lines typed to delete the first. *)
Definition delete_sample : world :=
  {| self := default_system
       [{| employee_id := "BF001"; name := "Alice Smith";
           department := "Engineering";
           salary := S754_finite false 5153995114938368 (-36);
           email := "alice.s@bitfutura.test";
           contact_details := "123-456-7890" |};
        {| employee_id := "BF002"; name := "Bob Johnson";
           department := "Marketing";
           salary := S754_finite false 8246337208320000 (-37);
           email := "bob.j@bitfutura.test";
           contact_details := "987-654-3210" |}];
     disk := None;
     stdin := ["BF001"; "y"];
     stdout := [] |}.

(** What [_load_employees] looks at in a backing file: the lines after the
    first, stripped, that are not empty. *)
Definition data_lines (text : string) : list string :=
  List.filter Py.truthy (map Py.strip (List.tl (Py.text_lines text))).

(** The sample file with another first line, line ends of two characters and
    blank lines. *)
Definition sample_file_variant : string :=
  "id;name" +:+ String Py.CR Py.newline +:+ Py.newline
  +:+ "BF001,Alice Smith,Engineering,75000.50,alice.s@bitfutura.test,123-456-7890"
  +:+ String Py.CR Py.newline
  +:+ "BF002,Bob Johnson,Marketing,60000,bob.j@bitfutura.test,987-654-3210"
  +:+ Py.newline +:+ "   " +:+ Py.newline
  +:+ "BF001,Alice Smith,Research,75000.50,alice.s@bitfutura.test,123-456-7890".

(** A text without the default delimiter. *)
Definition no_delimiter (s : string) : bool :=
  Py.forallb_str (fun c => negb (Ascii.eqb c ",")) s.

(** The same employee with another salary. *)
Definition with_salary (salary : spec_float) (e : Employee) : Employee :=
  {| employee_id := employee_id e; name := name e; department := department e;
     salary := salary; email := email e;
     contact_details := contact_details e |}.

(** The employee as it is read back from its line of the backing file. *)
Definition reloaded (e : Employee) : Employee :=
  with_salary (PyFloat.round_2 (salary e)) e.

(** The text of a line of the backing file, before its newline. *)
Definition line_of (e : Employee) : string :=
  employee_id e +:+ "," +:+ name e +:+ "," +:+ department e +:+ ","
  +:+ PyFloat.format_2f (salary e) +:+ "," +:+ email e +:+ ","
  +:+ contact_details e.

(** An employee whose line of the backing file can be read back: the text
    fields are well formed, the email and the contact details are free of
    the delimiter, and the contact details are on one line. *)
Definition storable (e : Employee) : Prop :=
  well_formed e /\
  no_delimiter (email e) = true /\
  no_delimiter (contact_details e) = true /\
  no_break (contact_details e) = true.

(** The state before two employees are saved and loaded again. *)
Definition saved_sample : EmployeeManagementSystem :=
  default_system (_employees_list (self delete_sample)).

(** The configuration of a system: file name, delimiter and keys. *)
Definition config (s : EmployeeManagementSystem) : string * string * list string :=
  (_file_name s, _delimiter s, _employee_keys s).

(** A session that adds two employees, updates one and leaves. *)
Definition restart_session : list string :=
  ["1"; "BF001"; "Alice Smith"; "Engineering"; "75000.50";
   "alice.s@bitfutura.test"; "123-456-7890";
   "1"; "BF002"; "Bob Johnson"; "Marketing"; "60000";
   "bob.j@bitfutura.test"; "987-654-3210";
   "3"; "BF002"; ""; "Sales"; "61000.129"; ""; ""; "y";
   "7"].

(** The state before an employee is added and deleted again: one employee,
    and the lines typed for both commands. *)
Definition add_sample : world :=
  {| self := default_system (_employees_list (self update_sample));
     disk := None;
     stdin := [" BF007 "; "Eve Adams"; "Quality Assurance"; "52000.5";
               "eve.a@bitfutura.test"; "555-0107"; "BF007"; "yes"; "7"];
     stdout := [] |}.

(** ** Write faults and the listing: notions and sample data *)

(** A state that holds the three employees in the order BF001, BF003, BF002,
    with nothing typed and nothing printed yet. *)
Definition listing_sample : world :=
  {| self := default_system (returned [engineering_1; engineering_2; marketing_1]);
     disk := None; stdin := []; stdout := [] |}.

(** Two states with the same list and the same lines still to be typed. *)
Definition alike (w v : world) : Prop := self w = self v /\ stdin w = stdin v.

(** [m] and [m'] take the same course from related states: the same outcome,
    and related states again. *)
Definition same_course {A} (R : world -> world -> Prop) (m m' : M A) : Prop :=
  forall w v, R w v -> (m w).1 = (m' v).1 /\ R (m w).2 (m' v).2.

(** Every [open] of the backing file for writing is refused. *)
Definition open_denied : world -> write_outcome :=
  fun _ => WriteFailed None true "[Errno 13] Permission denied".

(** The lines that the handler of [IOError] has printed. *)
Definition write_failures (out : list message) : list message :=
  List.filter (fun m => match m with
                        | Text s => String.prefix "An I/O error occurred" s
                        | _ => false
                        end) out.

(** The steps that do not write the file take the same course from states
    that are equal, and from states that are alike. *)
Definition steps_respect (R : world -> world -> Prop) : Prop :=
  (forall m, same_course R (print m) (print m)) /\
  (forall ms, same_course R (print_all ms) (print_all ms)) /\
  same_course R input input /\
  same_course R get_self get_self /\
  (forall l, same_course R (set_employees_list l) (set_employees_list l)) /\
  (forall A (check : string -> message + result A),
     same_course R (ask check) (ask check)).

(** * Properties *)

(** ** Strings *)

Lemma truthy_false (s : string) : Py.truthy s = false <-> s = EmptyString.
Proof. destruct s; simpl; split; intros H; congruence. Qed.

Lemma lstrip_first (ws : ascii -> bool) (s : string) :
  match Py.lstrip_with ws s with
  | EmptyString => True
  | String c _ => ws c = false
  end.
Proof.
  induction s as [|c s IH]; simpl; [exact I|].
  destruct (ws c) eqn:E; [exact IH | exact E].
Qed.

Lemma lstrip_fixed (ws : ascii -> bool) (s : string) :
  match s with EmptyString => True | String c _ => ws c = false end ->
  Py.lstrip_with ws s = s.
Proof. destruct s as [|c s]; simpl; [reflexivity|]. intros ->. reflexivity. Qed.

Lemma rstrip_first (ws : ascii -> bool) (s : string) :
  match s with EmptyString => True | String c _ => ws c = false end ->
  match Py.rstrip_with ws s with
  | EmptyString => s = EmptyString
  | String c _ => ws c = false
  end.
Proof.
  destruct s as [|c s]; simpl; [reflexivity|]. intros H.
  destruct (Py.rstrip_with ws s); [rewrite H|]; exact H.
Qed.

Lemma rstrip_idempotent (ws : ascii -> bool) (s : string) :
  Py.rstrip_with ws (Py.rstrip_with ws s) = Py.rstrip_with ws s.
Proof.
  induction s as [|c s IH]; simpl; [reflexivity|].
  destruct (Py.rstrip_with ws s) as [|d t] eqn:E.
  - destruct (ws c) eqn:Ec; simpl; [reflexivity|]. rewrite Ec. reflexivity.
  - simpl in *. rewrite IH. reflexivity.
Qed.

(** Stripping twice is stripping once. *)
Lemma strip_idempotent (s : string) : Py.strip (Py.strip s) = Py.strip s.
Proof.
  unfold Py.strip.
  pose proof (lstrip_first Py.isspace_char s) as H.
  apply rstrip_first in H.
  rewrite lstrip_fixed.
  - apply rstrip_idempotent.
  - destruct (Py.rstrip_with Py.isspace_char (Py.lstrip_with Py.isspace_char s));
      [exact I | exact H].
Qed.


Lemma truthy_strip (s : string) :
  Py.truthy (Py.strip s) = true -> Py.truthy s = true.
Proof. destruct s; [discriminate | reflexivity]. Qed.


Lemma isalnum_not_space (c : ascii) :
  Py.isalnum_char c = true -> Py.isspace_char c = false.
Proof.
  destruct c as [[] [] [] [] [] [] [] []]; vm_compute; congruence.
Qed.

Lemma rstrip_fixed (ws : ascii -> bool) (s : string) :
  Py.forallb_str (fun c => negb (ws c)) s = true -> Py.rstrip_with ws s = s.
Proof.
  induction s as [|c s IH]; simpl; [reflexivity|].
  intros [Hc Hs]%andb_prop. rewrite (IH Hs).
  apply negb_true_iff in Hc. rewrite Hc. destruct s; reflexivity.
Qed.

Lemma forallb_str_impl (p q : ascii -> bool) (s : string) :
  (forall c, p c = true -> q c = true) ->
  Py.forallb_str p s = true -> Py.forallb_str q s = true.
Proof.
  intros H. induction s as [|c s IH]; simpl; [reflexivity|].
  intros [Hc Hs]%andb_prop. rewrite (H c Hc), (IH Hs). reflexivity.
Qed.

(** An alphanumeric string has nothing to strip. *)
Lemma isalnum_strip (s : string) : Py.isalnum s = true -> Py.strip s = s.
Proof.
  unfold Py.isalnum, Py.strip. intros [_ H]%andb_prop.
  assert (Hns : Py.forallb_str (fun c => negb (Py.isspace_char c)) s = true).
  { eapply forallb_str_impl; [|exact H]. intros c Hc.
    rewrite (isalnum_not_space c Hc). reflexivity. }
  rewrite lstrip_fixed; [exact (rstrip_fixed _ _ Hns)|].
  destruct s as [|c s]; [exact I|]. simpl in Hns.
  apply andb_prop in Hns as [Hc _]. apply negb_true_iff, Hc.
Qed.

Lemma lstrip_snoc (ws : ascii -> bool) (s : string) (c : ascii) :
  ws c = true ->
  Py.lstrip_with ws (s +:+ String c EmptyString) =
  match Py.lstrip_with ws s with
  | EmptyString => EmptyString
  | t => t +:+ String c EmptyString
  end.
Proof.
  intros Hc. induction s as [|d s IH]; simpl.
  - rewrite Hc. reflexivity.
  - destruct (ws d); [exact IH | reflexivity].
Qed.

Lemma rstrip_snoc (ws : ascii -> bool) (s : string) (c : ascii) :
  ws c = true ->
  Py.rstrip_with ws (s +:+ String c EmptyString) = Py.rstrip_with ws s.
Proof.
  intros Hc. induction s as [|d s IH]; simpl.
  - rewrite Hc. reflexivity.
  - rewrite IH. reflexivity.
Qed.

(** The newline that ends a line of the file is stripped with the rest. *)
Lemma strip_newline (l : string) : Py.strip (l +:+ Py.newline) = Py.strip l.
Proof.
  unfold Py.strip, Py.newline. rewrite lstrip_snoc by reflexivity.
  destruct (Py.lstrip_with Py.isspace_char l) as [|d t] eqn:E; [reflexivity|].
  apply rstrip_snoc. reflexivity.
Qed.

Lemma text_lines_line (l rest : string) :
  no_break l = true ->
  Py.text_lines (l +:+ Py.newline +:+ rest) = (l +:+ Py.newline) :: Py.text_lines rest.
Proof.
  induction l as [|c l IH]; simpl; intros H; [reflexivity|].
  apply andb_prop in H as [Hc Hl]. apply andb_prop in Hc as [H1 H2].
  apply negb_true_iff in H1, H2. rewrite H1, H2, (IH Hl). reflexivity.
Qed.

(** ** The salary validator *)

(** What [is_valid_salary_format] accepts: the strings that are not blank
    and that [float] reads as a float that is not below zero. *)
Lemma is_valid_salary_format_accepts (salary_str : string) :
  (is_valid_salary_format salary_str).1 = true <->
  Py.truthy (Py.strip salary_str) = true /\
  exists salary, PyFloat.of_str salary_str = Some salary /\
                 PyFloat.ltb salary PyFloat.zero = false.
Proof.
  unfold is_valid_salary_format.
  destruct (Py.truthy salary_str) eqn:Ht; simpl.
  - destruct (Py.truthy (Py.strip salary_str)) eqn:Hs; simpl.
    + destruct (PyFloat.of_str salary_str) as [x|] eqn:Hx.
      * destruct (PyFloat.ltb x PyFloat.zero) eqn:Hl; simpl; split.
        -- discriminate.
        -- intros [_ [y [[= <-] Hy]]]. congruence.
        -- intros _. split; [reflexivity|]. exists x. split; [reflexivity | exact Hl].
        -- reflexivity.
      * simpl. split; [discriminate|]. intros [_ [y [[=] _]]].
    + split; [discriminate|]. intros [[=] _].
  - apply truthy_false in Ht. subst salary_str. simpl.
    split; [discriminate|]. intros [[=] _].
Qed.

(** The three failure messages are told apart. *)
Lemma is_valid_salary_format_messages :
  is_valid_salary_format "" = (false, "Salary cannot be empty.") /\
  is_valid_salary_format "   " = (false, "Salary cannot be empty.") /\
  is_valid_salary_format "-100" = (false, "Salary cannot be negative.") /\
  is_valid_salary_format "-" =
    (false, "Salary must be a valid number (e.g., 50000 or 65000.50).") /\
  is_valid_salary_format "abc" =
    (false, "Salary must be a valid number (e.g., 50000 or 65000.50).") /\
  is_valid_salary_format "0" = (true, "") /\
  is_valid_salary_format "65000.50" = (true, "").
Proof. vm_compute. repeat split. Qed.

(** C5, at the input that breaks it: the salary validator is to accept a
    string exactly when it is not empty and reads as a real number that is at
    least zero.  The text [nan] is accepted although [float] reads it as NaN,
    which is no real number and for which [0 <= x] is false: the validator
    tests [salary < 0], which is false for NaN as well. *)
Theorem is_valid_salary_format_nan :
  is_valid_salary_format "nan" = (true, "") /\
  PyFloat.of_str "nan" = Some S754_nan /\
  PyFloat.leb PyFloat.zero S754_nan = false /\
  PyFloat.ltb S754_nan PyFloat.zero = false.
Proof. vm_compute. repeat split. Qed.

(** The same test lets through infinity and a negative numeral that is read
    as minus zero. *)
Lemma is_valid_salary_format_inf_underflow :
  is_valid_salary_format "inf" = (true, "") /\
  PyFloat.of_str "inf" = Some (S754_infinity false) /\
  is_valid_salary_format "-1e-400" = (true, "") /\
  PyFloat.of_str "-1e-400" = Some (S754_zero true).
Proof. vm_compute. repeat split. Qed.

(** ** The constructor *)

(** What the constructor has checked and stored when it returns. *)
Lemma Employee_init_fields (id name_ department_ : string)
    (salary_ : salary_arg) (email_ contact : string) (e : Employee) :
  Employee_init id name_ department_ salary_ email_ contact = Return e ->
  (is_valid_employee_id_format id).1 = true /\
  (is_valid_name_format name_).1 = true /\
  (is_valid_department_format department_).1 = true /\
  (is_valid_salary_format (str_of_salary salary_)).1 = true /\
  (is_valid_email_format email_).1 = true /\
  (is_valid_contact_details_format contact).1 = true /\
  float_of_salary salary_ = Return (salary e) /\
  employee_id e = Py.strip id /\ name e = Py.strip name_ /\
  department e = Py.strip department_ /\ email e = Py.strip email_ /\
  contact_details e = Py.strip contact.
Proof.
  unfold Employee_init.
  repeat match goal with
         | |- context [if negb ?b then _ else _] =>
             destruct b eqn:?; simpl; [|discriminate]
         end.
  destruct (float_of_salary salary_) as [x|]; [|discriminate].
  intros [= <-]. simpl. repeat split; reflexivity.
Qed.

Lemma is_valid_department_format_truthy (department : string) :
  (is_valid_department_format department).1 = true ->
  Py.truthy (Py.strip department) = true.
Proof.
  unfold is_valid_department_format.
  destruct (Py.truthy department); simpl; [|discriminate].
  destruct (Py.truthy (Py.strip department)); simpl; [reflexivity | discriminate].
Qed.

(** The department of a constructed employee is not blank. *)
Lemma constructed_department (e : Employee) :
  constructed e -> Py.truthy (Py.strip (department e)) = true.
Proof.
  intros (i & n & d & s & m & c & H).
  apply Employee_init_fields in H as (_ & _ & Hd & _ & _ & _ & _ & _ & _ & -> & _).
  rewrite strip_idempotent. apply is_valid_department_format_truthy, Hd.
Qed.

Lemma from_dict_constructed (data_dict : gmap string string) (e : Employee) :
  (from_dict data_dict).2 = Return (Some e) -> constructed e.
Proof.
  unfold from_dict.
  destruct (PyFloat.of_str (Py.get data_dict "Salary" "0")) as [x|]; [|discriminate].
  destruct (Employee_init _ _ _ _ _ _) as [e'|[msg| |]] eqn:E; simpl;
    try discriminate.
  intros [= <-]. do 6 eexists. exact E.
Qed.

(** ** Employee.from_dict *)

(** The constructor only raises [ValueError]. *)
Lemma Employee_init_raises (employee_id name department : string)
    (salary : salary_arg) (email contact_details : string) (e : exn) :
  Employee_init employee_id name department salary email contact_details
    = Raise e ->
  exists msg, e = ValueError msg.
Proof.
  unfold Employee_init.
  repeat match goal with
         | |- context [if ?b then _ else _] => destruct b
         end;
    try (intros [= <-]; eexists; reflexivity).
  destruct salary as [s|x]; simpl.
  - destruct (PyFloat.of_str s); [discriminate|].
    intros [= <-]. eexists; reflexivity.
  - discriminate.
Qed.

(** A field that fails its validator makes the constructor raise. *)
Lemma Employee_init_rejects (employee_id name department : string)
    (salary : salary_arg) (email contact_details : string) :
  (is_valid_employee_id_format employee_id).1 = false \/
  (is_valid_name_format name).1 = false \/
  (is_valid_department_format department).1 = false \/
  (is_valid_email_format email).1 = false \/
  (is_valid_contact_details_format contact_details).1 = false ->
  exists msg,
    Employee_init employee_id name department salary email contact_details
      = Raise (ValueError msg).
Proof.
  intros H. unfold Employee_init.
  repeat match goal with
         | |- context [if negb ?b then _ else _] =>
             destruct b eqn:?; simpl; [|eexists; reflexivity]
         end.
  exfalso. intuition congruence.
Qed.

(** C4: [from_dict] fails in two ways.  When the text under [Salary] (or the
    default ["0"]) is not read as a number it returns [None] and raises
    nothing; when it is read as a number and another field fails its
    validator, the [ValueError] of the constructor reaches the caller. *)
Theorem from_dict_failure_modes (data_dict : gmap string string) :
  (PyFloat.of_str (Py.get data_dict "Salary" "0") = None ->
   (from_dict data_dict).2 = Return None) /\
  (forall salary_float,
     PyFloat.of_str (Py.get data_dict "Salary" "0") = Some salary_float ->
     (is_valid_employee_id_format (Py.get data_dict "Employee ID" "")).1 = false \/
     (is_valid_name_format (Py.get data_dict "Name" "")).1 = false \/
     (is_valid_department_format (Py.get data_dict "Department" "")).1 = false \/
     (is_valid_email_format (Py.get data_dict "Email" "")).1 = false \/
     (is_valid_contact_details_format
        (Py.get data_dict "Contact Details" "")).1 = false ->
     exists msg,
       Employee_init (Py.get data_dict "Employee ID" "")
         (Py.get data_dict "Name" "") (Py.get data_dict "Department" "")
         (SalaryFloat salary_float) (Py.get data_dict "Email" "")
         (Py.get data_dict "Contact Details" "") = Raise (ValueError msg) /\
       (from_dict data_dict).2 = Raise (ValueError msg)).
Proof.
  split.
  - intros H. unfold from_dict. rewrite H. reflexivity.
  - intros x Hx Hbad. unfold from_dict. rewrite Hx.
    destruct (Employee_init_rejects (Py.get data_dict "Employee ID" "")
                (Py.get data_dict "Name" "") (Py.get data_dict "Department" "")
                (SalaryFloat x) (Py.get data_dict "Email" "")
                (Py.get data_dict "Contact Details" "") Hbad) as [msg Hmsg].
    exists msg. rewrite Hmsg. split; reflexivity.
Qed.

Lemma from_dict_failure_modes_witness :
  (from_dict (sample_dict "not-a-number" "Engineering")).2 = Return None /\
  exists msg,
    Employee_init "BF001" "Alice Smith" ""
      (SalaryFloat (S754_finite false 5153995114938368 (-36)))
      "alice.s@bitfutura.test" "123-456-7890" = Raise (ValueError msg) /\
    (from_dict (sample_dict "75000.50" "")).2 = Raise (ValueError msg).
Proof.
  split.
  - apply (from_dict_failure_modes (sample_dict "not-a-number" "Engineering")).
    vm_compute. reflexivity.
  - apply (proj2 (from_dict_failure_modes (sample_dict "75000.50" ""))
             (S754_finite false 5153995114938368 (-36))).
    + vm_compute. reflexivity.
    + right. right. left. vm_compute. reflexivity.
Defined.

(** [from_dict] prints nothing when it returns an employee. *)
Lemma from_dict_quiet (data_dict : gmap string string) (employee : Employee) :
  (from_dict data_dict).2 = Return (Some employee) ->
  from_dict data_dict = ([], Return (Some employee)).
Proof.
  unfold from_dict.
  destruct (PyFloat.of_str (Py.get data_dict "Salary" "0")); [|discriminate].
  destruct (Employee_init _ _ _ _ _ _) as [e|[msg| |]]; simpl; try discriminate.
  intros [= ->]. reflexivity.
Qed.

(** The dictionary that [_load_employees] builds from six values. *)
Lemma dict_of_six_values (a b c d e f : string) :
  let data_dict := Py.dict (Py.zip EMPLOYEE_KEYS [a; b; c; d; e; f]) in
  Py.get data_dict "Employee ID" "" = a /\ Py.get data_dict "Name" "" = b /\
  Py.get data_dict "Department" "" = c /\ Py.get data_dict "Salary" "0" = d /\
  Py.get data_dict "Email" "" = e /\ Py.get data_dict "Contact Details" "" = f.
Proof.
  unfold Py.get, Py.dict, EMPLOYEE_KEYS; simpl.
  repeat split;
    repeat (rewrite lookup_insert_ne by discriminate);
    rewrite lookup_insert_eq; reflexivity.
Qed.

(** A value that a validator accepts is accepted again after stripping. *)
Lemma valid_after_strip :
  (forall s, (is_valid_employee_id_format s).1 = true ->
             (is_valid_employee_id_format (Py.strip s)).1 = true) /\
  (forall s, (is_valid_name_format s).1 = true ->
             (is_valid_name_format (Py.strip s)).1 = true) /\
  (forall s, (is_valid_department_format s).1 = true ->
             (is_valid_department_format (Py.strip s)).1 = true) /\
  (forall s, (is_valid_email_format s).1 = true ->
             (is_valid_email_format (Py.strip s)).1 = true) /\
  (forall s, (is_valid_contact_details_format s).1 = true ->
             (is_valid_contact_details_format (Py.strip s)).1 = true).
Proof.
  repeat split; intros s;
    unfold is_valid_employee_id_format, is_valid_name_format,
      is_valid_department_format, is_valid_email_format,
      is_valid_contact_details_format.
  - destruct (Py.truthy s) eqn:Ht; simpl; [|discriminate].
    destruct (Py.isalnum s) eqn:Ha; simpl; [|discriminate].
    rewrite (isalnum_strip s Ha), Ht, Ha. reflexivity.
  - rewrite strip_idempotent. destruct (Py.truthy s); simpl; [|discriminate].
    destruct (Py.truthy (Py.strip s)); simpl; [|discriminate]. exact id.
  - rewrite strip_idempotent. destruct (Py.truthy s); simpl; [|discriminate].
    destruct (Py.truthy (Py.strip s)); simpl; [|discriminate]. exact id.
  - rewrite strip_idempotent. destruct (Py.truthy s); simpl; [|discriminate].
    destruct (Py.truthy (Py.strip s)); simpl; [|discriminate]. exact id.
  - rewrite strip_idempotent. destruct (Py.truthy s); simpl; [|discriminate].
    destruct (Py.truthy (Py.strip s)); simpl; [|discriminate]. exact id.
Qed.

(** Where the round trip works: for a constructed employee whose salary,
    written with two decimals, is read back as [y], and [y] passes the salary
    test of the constructor, [from_dict(to_dict(e))] is [e] with the salary
    [y], which is [round(e.salary, 2)] for a finite salary. *)
Lemma from_dict_to_dict (e : Employee) (y : spec_float) :
  constructed e ->
  PyFloat.of_str (PyFloat.format_2f (salary e)) = Some y ->
  (is_valid_salary_format (PyFloat.repr y)).1 = true ->
  from_dict (to_dict e) =
  ([], Return (Some {| employee_id := employee_id e; name := name e;
                       department := department e; salary := y;
                       email := email e;
                       contact_details := contact_details e |})).
Proof.
  intros (i & n & d & s & m & c & H) Hy Hv.
  apply Employee_init_fields in H
    as (Hi & Hn & Hd & _ & Hm & Hc & _ & Ei & En & Ed & Em & Ec).
  destruct valid_after_strip as (Vi & Vn & Vd & Vm & Vc).
  unfold from_dict.
  change (to_dict e) with
    (Py.dict (Py.zip EMPLOYEE_KEYS
       [employee_id e; name e; department e; PyFloat.format_2f (salary e);
        email e; contact_details e])).
  destruct (dict_of_six_values (employee_id e) (name e) (department e)
              (PyFloat.format_2f (salary e)) (email e) (contact_details e))
    as (-> & -> & -> & -> & -> & ->).
  rewrite Hy. unfold Employee_init. cbn [str_of_salary float_of_salary].
  rewrite Ei, En, Ed, Em, Ec.
  rewrite (Vi i Hi), (Vn n Hn), (Vd d Hd), Hv, (Vm m Hm), (Vc c Hc).
  cbn [negb]. rewrite !strip_idempotent. reflexivity.
Qed.

Lemma from_dict_to_dict_example :
  from_dict (to_dict comma_employee) = ([], Return (Some comma_employee)) /\
  PyFloat.round_2 (salary comma_employee) = salary comma_employee.
Proof. vm_compute. split; reflexivity. Qed.

(** C2, at the input that breaks it: [from_dict(to_dict(employee))] is to
    give back an employee equal to the original in all six fields, the salary
    compared after rounding to two decimals.  The constructor accepts the
    salary text [nan], as the salary validator does; [to_dict] writes that
    salary as [nan], [from_dict] reads it back as NaN, and NaN is not equal
    to itself, rounded or not.  The text can be typed at the salary prompt
    of [add_employee]. *)
Theorem from_dict_to_dict_nan :
  Employee_init "E1" "Ann" "Ops" (SalaryStr "nan") "ann@bitfutura.test"
    "555-0100" = Return nan_employee /\
  to_dict nan_employee !! "Salary" = Some "nan" /\
  from_dict (to_dict nan_employee) = ([], Return (Some nan_employee)) /\
  PyFloat.eqb (salary nan_employee) (salary nan_employee) = false /\
  PyFloat.eqb (PyFloat.round_2 (salary nan_employee))
              (PyFloat.round_2 (salary nan_employee)) = false /\
  _employees_list
    (self (main None ["1"; "E1"; "Ann"; "Ops"; "nan"; "ann@bitfutura.test";
                      "555-0100"; "7"]).2) = [nan_employee].
Proof. vm_compute. repeat split. Qed.

(** ** Saving and loading *)

(** C9: nothing is quoted or escaped when the list is saved.  The employee
    [comma_employee], whose contact details contain the delimiter, is built
    by the constructor; the line written for it splits into seven values, so
    that loading the saved file skips it as malformed and loads nothing.  The
    same happens through the menu: the employee is added and saved, and a
    restart on that file starts with an empty list. *)
Theorem delimiter_in_field_lost_on_reload :
  Employee_init "BF001" "Alice Smith" "Engineering" (SalaryStr "75000.5")
    "alice.s@bitfutura.test" "12 Main St, Springfield" = Return comma_employee /\
  _save_employees (default_system [comma_employee]) =
    "Employee ID,Name,Department,Salary,Email,Contact Details" +:+ Py.newline
    +:+ "BF001,Alice Smith,Engineering,75000.50,alice.s@bitfutura.test,12 Main St, Springfield"
    +:+ Py.newline /\
  _load_employees (default_system [])
    (Some (_save_employees (default_system [comma_employee]))) =
    ([Text "Skipping malformed line 2 in employees.csv (expected 6 values, got 7): BF001,Alice Smith,Engineering,75000.50,alice.s@bitfutura.test,12 Main St, Springfield";
      Text "Successfully loaded 0 employee records from employees.csv."],
     []) /\
  (let after :=
     (main None ["1"; "BF001"; "Alice Smith"; "Engineering"; "75000.5";
                 "alice.s@bitfutura.test"; "12 Main St, Springfield"; "7"]).2 in
   _employees_list (self after) = [comma_employee] /\
   _employees_list
     (self (boot FILE_NAME DELIMITER EMPLOYEE_KEYS (disk after) [])) = []).
Proof. vm_compute. repeat split. Qed.

Lemma values_of_blank (line : string) :
  Py.truthy (Py.strip line) = false -> len (values_of line) = 1.
Proof.
  intros H. apply truthy_false in H. unfold values_of. rewrite H. reflexivity.
Qed.

(** One turn of the loading loop on a line with six values. *)
Lemma load_lines_six (self : EmployeeManagementSystem) (raw : string)
    (rest : list string) (line_num : Z) (employees_data : list Employee) :
  _delimiter self = DELIMITER -> _employee_keys self = EMPLOYEE_KEYS ->
  len (values_of raw) = 6 ->
  load_lines self (raw :: rest) line_num employees_data =
  let line := Py.strip raw in
  let continue (out : list message) (data : list Employee) :=
    let '(out', r) := load_lines self rest (line_num + 1) data in
    (out ++ out', r) in
  let '(out, r) := from_dict (Py.dict (Py.zip EMPLOYEE_KEYS (values_of raw))) in
  match r with
  | Return (Some employee_obj) =>
      if existsb (same_id (employee_id employee_obj)) employees_data
      then
        continue
          (out ++ [Text ("Warning: Duplicate Employee ID '"
             +:+ employee_id employee_obj
             +:+ "' found in file on line " +:+ str_of_int line_num
             +:+ ". Skipping duplicate.")])
          employees_data
      else continue out (employees_data ++ [employee_obj])
  | Return None =>
      continue
        (out ++ [Text ("Skipping invalid data on line "
           +:+ str_of_int line_num +:+ " in " +:+ _file_name self
           +:+ " (Employee.from_dict returned None): " +:+ line)])
        employees_data
  | Raise (ValueError ve) =>
      continue
        (out ++ [Text ("Skipping invalid data format on line "
           +:+ str_of_int line_num +:+ " in " +:+ _file_name self
           +:+ ": " +:+ ve +:+ ". Line: " +:+ line)])
        employees_data
  | Raise _ =>
      continue
        (out ++ [Text ("Unexpected error processing line "
           +:+ str_of_int line_num +:+ " in " +:+ _file_name self
           +:+ ": . Line: " +:+ line)])
        employees_data
  end.
Proof.
  intros Hd Hk Hsix. simpl load_lines.
  destruct (Py.truthy (Py.strip raw)) eqn:Ht.
  - simpl negb. cbv iota. rewrite Hd, Hk. unfold Py.split, DELIMITER at 1.
    fold DELIMITER. fold (values_of raw). rewrite Hsix.
    change (len EMPLOYEE_KEYS) with 6. rewrite Z.eqb_refl. reflexivity.
  - apply values_of_blank in Ht. rewrite Ht in Hsix. discriminate.
Qed.

(** One turn of the loading loop on a line that is not blank and has another
    number of values than six. *)
Lemma load_lines_malformed (self : EmployeeManagementSystem) (raw : string)
    (rest : list string) (line_num : Z) (employees_data : list Employee) :
  _delimiter self = DELIMITER -> _employee_keys self = EMPLOYEE_KEYS ->
  Py.truthy (Py.strip raw) = true -> len (values_of raw) <> 6 ->
  load_lines self (raw :: rest) line_num employees_data =
  let '(out', r) := load_lines self rest (line_num + 1) employees_data in
  ([Text ("Skipping malformed line " +:+ str_of_int line_num
          +:+ " in " +:+ _file_name self +:+ " (expected 6 values, got "
          +:+ str_of_int (len (values_of raw)) +:+ "): " +:+ Py.strip raw)]
     ++ out', r).
Proof.
  intros Hd Hk Ht Hn. simpl load_lines. rewrite Ht. simpl negb. cbv iota.
  rewrite Hd, Hk. unfold Py.split, DELIMITER at 1.
  fold DELIMITER. fold (values_of raw).
  change (len EMPLOYEE_KEYS) with 6.
  destruct (Z.eqb_spec (len (values_of raw)) 6) as [E|_]; [contradiction|].
  reflexivity.
Qed.

(** C3: load resilience.  The backing file holds a header, a well-formed
    line (six values from which [from_dict] builds [employee]), a line that is
    not blank and does not split into six values, and a line of six values
    whose salary text [float] does not read.  [_load_employees] then returns
    the list with [employee] alone, reports each of the two other lines with
    its line number (the header is line 1), and ends normally with the count
    of loaded records. *)
Theorem load_resilience
    (file_name header good malformed bad_salary : string) (employee : Employee) :
  let self := {| _file_name := file_name; _delimiter := DELIMITER;
                 _employee_keys := EMPLOYEE_KEYS; _employees_list := [] |} in
  no_break header = true -> no_break good = true ->
  no_break malformed = true -> no_break bad_salary = true ->
  len (values_of good) = 6 ->
  (from_dict (Py.dict (Py.zip EMPLOYEE_KEYS (values_of good)))).2
    = Return (Some employee) ->
  Py.truthy (Py.strip malformed) = true ->
  len (values_of malformed) <> 6 ->
  len (values_of bad_salary) = 6 ->
  PyFloat.of_str (nth 3 (values_of bad_salary) EmptyString) = None ->
  _load_employees self
    (Some (header +:+ Py.newline +:+ good +:+ Py.newline
           +:+ malformed +:+ Py.newline +:+ bad_salary +:+ Py.newline)) =
  ([Text ("Skipping malformed line 3 in " +:+ file_name
          +:+ " (expected 6 values, got "
          +:+ str_of_int (len (values_of malformed)) +:+ "): "
          +:+ Py.strip malformed);
    TextData ("Error creating employee: Invalid salary format '"
              +:+ nth 3 (values_of bad_salary) EmptyString +:+ "'. Data: ")
             (Py.dict (Py.zip EMPLOYEE_KEYS (values_of bad_salary)));
    Text ("Skipping invalid data on line 4 in " +:+ file_name
          +:+ " (Employee.from_dict returned None): " +:+ Py.strip bad_salary);
    Text ("Successfully loaded 1 employee records from " +:+ file_name +:+ ".")],
   [employee]).
Proof.
  intros self Hh Hg Hm Hb Hsix Hgood Hmt Hmal Hbsix Hbad.
  unfold _load_employees.
  rewrite (text_lines_line header) by exact Hh.
  rewrite (text_lines_line good) by exact Hg.
  rewrite (text_lines_line malformed) by exact Hm.
  change (bad_salary +:+ Py.newline)
    with (bad_salary +:+ Py.newline +:+ EmptyString).
  rewrite (text_lines_line bad_salary) by exact Hb.
  change (Py.text_lines EmptyString) with (@nil string).
  cbn [List.hd List.tl].
  change (_delimiter self) with DELIMITER.
  unfold Py.split at 1, DELIMITER at 1.
  assert (Hv : forall l, values_of (l +:+ Py.newline) = values_of l).
  { intros l. unfold values_of. rewrite strip_newline. reflexivity. }
  rewrite load_lines_six by (rewrite ?Hv; done).
  rewrite Hv, (from_dict_quiet _ _ Hgood). cbn [existsb app].
  rewrite load_lines_malformed by (rewrite ?Hv, ?strip_newline; done).
  rewrite load_lines_six by (rewrite ?Hv; done).
  rewrite !Hv, !strip_newline.
  assert (Hnone : from_dict (Py.dict (Py.zip EMPLOYEE_KEYS (values_of bad_salary)))
    = ([TextData ("Error creating employee: Invalid salary format '"
              +:+ nth 3 (values_of bad_salary) EmptyString +:+ "'. Data: ")
             (Py.dict (Py.zip EMPLOYEE_KEYS (values_of bad_salary)))],
       Return None)).
  { destruct (values_of bad_salary) as [|a [|b [|c [|d [|e [|f [|g l]]]]]]];
      try discriminate Hbsix.
    - unfold from_dict.
      destruct (dict_of_six_values a b c d e f) as (_ & _ & _ & Hsal & _).
      rewrite Hsal. cbn [nth] in Hbad |- *. rewrite Hbad. reflexivity.
    - exfalso. unfold len in Hbsix. cbn [List.length] in Hbsix. lia. }
  rewrite Hnone. cbn [load_lines app]. reflexivity.
Qed.

Lemma load_resilience_witness :
  _load_employees test_system
    (Some ("Employee ID,Name,Department,Salary,Email,Contact Details"
           +:+ Py.newline
           +:+ "BF002,Bob Johnson,Marketing,60000,bob.j@bitfutura.test,987-654-3210"
           +:+ Py.newline
           +:+ "BF001,Alice Smith,Engineering,75000.50,alice.s@bitfutura.test"
           +:+ Py.newline
           +:+ "BF003,Charlie Lee,Engineering,INVALID_SAL,charlie.l@bitfutura.test,555-111-2222"
           +:+ Py.newline)) =
  ([Text "Skipping malformed line 3 in test_employees.csv (expected 6 values, got 5): BF001,Alice Smith,Engineering,75000.50,alice.s@bitfutura.test";
    TextData "Error creating employee: Invalid salary format 'INVALID_SAL'. Data: "
      (Py.dict [("Employee ID", "BF003"); ("Name", "Charlie Lee");
                ("Department", "Engineering"); ("Salary", "INVALID_SAL");
                ("Email", "charlie.l@bitfutura.test");
                ("Contact Details", "555-111-2222")]);
    Text "Skipping invalid data on line 4 in test_employees.csv (Employee.from_dict returned None): BF003,Charlie Lee,Engineering,INVALID_SAL,charlie.l@bitfutura.test,555-111-2222";
    Text "Successfully loaded 1 employee records from test_employees.csv."],
   [{| employee_id := "BF002"; name := "Bob Johnson"; department := "Marketing";
       salary := S754_finite false 8246337208320000 (-37);
       email := "bob.j@bitfutura.test"; contact_details := "987-654-3210" |}]).
Proof.
  apply (load_resilience "test_employees.csv"
           "Employee ID,Name,Department,Salary,Email,Contact Details"
           "BF002,Bob Johnson,Marketing,60000,bob.j@bitfutura.test,987-654-3210"
           "BF001,Alice Smith,Engineering,75000.50,alice.s@bitfutura.test"
           "BF003,Charlie Lee,Engineering,INVALID_SAL,charlie.l@bitfutura.test,555-111-2222");
    vm_compute; congruence.
Defined.

(** ** Sorting *)



Lemma string_leb_trans (a b c : string) :
  String.leb a b = true -> String.leb b c = true -> String.leb a c = true.
Proof.
  unfold String.leb. revert b c.
  induction a as [|x a IH]; intros [|y b] [|z c]; simpl; try congruence.
  unfold Ascii.compare.
  destruct (N.compare_spec (N_of_ascii x) (N_of_ascii y)) as [Exy|Lxy|Gxy];
    destruct (N.compare_spec (N_of_ascii y) (N_of_ascii z)) as [Eyz|Lyz|Gyz];
    try congruence; intros H1 H2.
  - rewrite Exy, Eyz, N.compare_refl. exact (IH b c H1 H2).
  - rewrite Exy. apply N.compare_lt_iff in Lyz. rewrite Lyz. reflexivity.
  - rewrite <- Eyz. apply N.compare_lt_iff in Lxy. rewrite Lxy. reflexivity.
  - assert (L : (N_of_ascii x < N_of_ascii z)%N) by lia.
    apply N.compare_lt_iff in L. rewrite L. reflexivity.
Qed.

Section SortedFacts.
Context {A : Type} (key : A -> string).

Lemma insert_sorted_perm (x : A) (l : list A) :
  Permutation (Py.insert_sorted key x l) (x :: l).
Proof.
  induction l as [|y l IH]; simpl; [reflexivity|].
  destruct (String.leb (key x) (key y)); [reflexivity|].
  rewrite IH. apply perm_swap.
Qed.

Lemma sorted_perm (l : list A) : Permutation (Py.sorted key l) l.
Proof.
  induction l as [|x l IH]; simpl; [reflexivity|].
  rewrite insert_sorted_perm, IH. reflexivity.
Qed.

Lemma insert_sorted_sorted (x : A) (l : list A) :
  StronglySorted (key_le key) l -> StronglySorted (key_le key) (Py.insert_sorted key x l).
Proof.
  induction l as [|y l IH]; simpl; intros Hs.
  - repeat constructor.
  - inversion Hs as [|? ? Hl Hy]; subst.
    destruct (String.leb (key x) (key y)) eqn:E.
    + constructor; [exact Hs|]. constructor; [exact E|].
      eapply Forall_impl; [exact Hy|]. intros z Hz.
      exact (string_leb_trans _ _ _ E Hz).
    + constructor; [exact (IH Hl)|].
      apply (Permutation_Forall (Permutation_sym (insert_sorted_perm x l))).
      constructor; [|exact Hy].
      destruct (String.leb_total (key x) (key y)) as [F|F]; [congruence | exact F].
Qed.

Lemma sorted_sorted (l : list A) : StronglySorted (key_le key) (Py.sorted key l).
Proof.
  induction l as [|x l IH]; simpl; [constructor|].
  apply insert_sorted_sorted, IH.
Qed.

Lemma sorted_length (l : list A) : List.length (Py.sorted key l) = List.length l.
Proof. apply Permutation_length, sorted_perm. Qed.

End SortedFacts.

(** ** The listing *)

(** C7: the sorted listing is a view.  [list_all_employees] prints one row
    for each employee, in ascending order of the ids as strings; it changes
    neither the list, nor its order, nor the backing file, so that a second
    call right after the first prints the same rows again.  A row is the id,
    the name and the department of its employee, filled up with spaces on
    the right to 15, 25 and 20 characters, with one space in between.  For
    the employees BF001, BF003 and BF002, held in this order, the rows are
    those of BF001, BF002 and BF003, and the list is in the order it had. *)
Theorem list_all_employees_pure_view (w : world) :
  let l := _employees_list (self w) in
  let out :=
    Text (Py.newline +:+ "--- List All Employees ---") ::
    match l with
    | [] => [Text "No employee records found."]
    | _ =>
        [Text (ljust "Employee ID" 15 +:+ " " +:+ ljust "Name" 25
               +:+ " " +:+ ljust "Department" 20);
         Text (repeat_char "-" 60)]
        ++ map listing_row (by_employee_id l)
        ++ [Text (repeat_char "-" 60);
            Text ("Total Employees: " +:+ str_of_int (len l))]
    end in
  let after (w : world) :=
    {| self := self w; disk := disk w; stdin := stdin w;
       stdout := stdout w ++ out |} in
  list_all_employees w = (Return tt, after w) /\
  list_all_employees (after w) = (Return tt, after (after w)) /\
  Permutation (by_employee_id l) l /\
  StronglySorted
    (fun a b => String.leb (employee_id a) (employee_id b) = true)
    (by_employee_id l) /\
  (forall e,
     listing_row e =
     Text ((employee_id e
            +:+ repeat_char " " (15 - String.length (employee_id e)))
           +:+ " "
           +:+ (name e +:+ repeat_char " " (25 - String.length (name e)))
           +:+ " "
           +:+ (department e
                +:+ repeat_char " " (20 - String.length (department e))))) /\
  stdout (list_all_employees listing_sample).2 =
    [Text (Py.newline +:+ "--- List All Employees ---");
     Text "Employee ID     Name                      Department          ";
     Text "------------------------------------------------------------";
     Text "BF001           Alice Smith               Engineering         ";
     Text "BF002           Bob Johnson               Marketing           ";
     Text "BF003           Charlie Lee               engineering         ";
     Text "------------------------------------------------------------";
     Text "Total Employees: 3"] /\
  map employee_id (_employees_list (self listing_sample))
    = ["BF001"; "BF003"; "BF002"] /\
  self (list_all_employees listing_sample).2 = self listing_sample.
Proof.
  intros l out after.
  assert (H : forall v, _employees_list (self v) = l ->
            list_all_employees v = (Return tt, after v)).
  { intros v Hv. unfold list_all_employees, bind, print, print_all, get_self.
    cbn [self disk stdin stdout]. rewrite Hv.
    subst after out. cbn beta. destruct l; cbn [self disk stdin stdout];
      rewrite <- ?app_assoc; reflexivity. }
  split; [apply H; reflexivity|].
  split; [apply H; reflexivity|].
  split; [apply sorted_perm|].
  split; [apply (sorted_sorted employee_id)|].
  split; [intros e; reflexivity|].
  repeat split; vm_compute; reflexivity.
Qed.

(** ** The department report *)

Lemma group_employee_keys (e : Employee) (G : list (string * dept_info)) :
  map fst (group_employee e G) =
  if decide (dept_key_of e ∈ map fst G) then map fst G
  else map fst G ++ [dept_key_of e].
Proof.
  induction G as [|[k info] G IH]; simpl.
  - destruct (decide (dept_key_of e ∈ @nil string)) as [H|_];
      [inversion H | reflexivity].
  - destruct (String.eqb_spec k (dept_key_of e)) as [->|Hne]; simpl.
    + destruct (decide (dept_key_of e ∈ dept_key_of e :: map fst G)) as [_|H];
        [reflexivity|].
      exfalso. apply H. left.
    + rewrite IH. destruct (decide (dept_key_of e ∈ map fst G)) as [H|H];
        destruct (decide (dept_key_of e ∈ k :: map fst G)) as [H'|H'];
        try reflexivity.
      * exfalso. apply H'. right. exact H.
      * exfalso. apply elem_of_cons in H' as [H'|H']; [congruence | contradiction].
Qed.

Lemma group_employee_members (e : Employee) (G : list (string * dept_info))
    (k : string) (x : Employee) :
  x ∈ employees (lookup_dept (group_employee e G) k) <->
  x ∈ employees (lookup_dept G k) \/ (x = e /\ dept_key_of e = k).
Proof.
  unfold lookup_dept. induction G as [|[k' info] G IH]; simpl.
  - destruct (String.eqb_spec (dept_key_of e) k) as [E|E]; simpl.
    + rewrite list_elem_of_singleton, elem_of_nil. intuition.
    + rewrite elem_of_nil. intuition.
  - destruct (String.eqb_spec k' (dept_key_of e)) as [->|Hne]; simpl.
    + destruct (String.eqb_spec (dept_key_of e) k) as [E|E]; simpl.
      * rewrite elem_of_app, list_elem_of_singleton. intuition.
      * intuition.
    + destruct (String.eqb_spec k' k) as [E|E]; simpl.
      * intuition congruence.
      * exact IH.
Qed.

Lemma group_employee_total (e : Employee) (G : list (string * dept_info)) :
  sum_list_with (fun kv => List.length (employees kv.2)) (group_employee e G) =
  S (sum_list_with (fun kv => List.length (employees kv.2)) G).
Proof.
  induction G as [|[k info] G IH]; simpl; [reflexivity|].
  destruct (String.eqb k (dept_key_of e)); simpl.
  - rewrite length_app. simpl. lia.
  - rewrite IH. lia.
Qed.

(** The grouping loop, started from any dictionary [G]. *)
Lemma group_loop (l : list Employee) (G : list (string * dept_info)) :
  let G' := fold_left (fun d e => group_employee e d) l G in
  (NoDup (map fst G) -> NoDup (map fst G')) /\
  (forall k, k ∈ map fst G' <->
             k ∈ map fst G \/ exists e, e ∈ l /\ dept_key_of e = k) /\
  (forall k x, x ∈ employees (lookup_dept G' k) <->
               x ∈ employees (lookup_dept G k) \/ (x ∈ l /\ dept_key_of x = k)) /\
  sum_list_with (fun kv => List.length (employees kv.2)) G' =
    (sum_list_with (fun kv => List.length (employees kv.2)) G + List.length l)%nat.
Proof.
  revert G. induction l as [|e l IH]; intros G; simpl.
  - repeat split; try tauto.
    + intros [H|[e [H _]]]; [exact H | inversion H].
    + intros [H|[H _]]; [exact H | inversion H].
    + lia.
  - destruct (IH (group_employee e G)) as (Hnd & Hk & Hm & Hs). repeat split.
    + intros H. apply Hnd. rewrite group_employee_keys.
      destruct (decide (dept_key_of e ∈ map fst G)) as [Hin|Hin]; [exact H|].
      apply NoDup_app. repeat split; [exact H | | apply NoDup_singleton].
      intros x Hx Hx'%list_elem_of_singleton. subst x. contradiction.
    + intros H. apply Hk in H as [H|[x [Hx Hkx]]].
      * rewrite group_employee_keys in H.
        destruct (decide (dept_key_of e ∈ map fst G)) as [Hin|Hin];
          [left; exact H|].
        apply elem_of_app in H as [H|H%list_elem_of_singleton];
          [left; exact H | right; exists e; split; [left | congruence]].
      * right. exists x. split; [right; exact Hx | exact Hkx].
    + intros H. apply Hk. rewrite group_employee_keys.
      destruct H as [H|[x [Hx Hkx]]].
      * left. destruct (decide (dept_key_of e ∈ map fst G));
          [exact H | apply elem_of_app; left; exact H].
      * apply elem_of_cons in Hx as [->|Hx].
        -- left. subst k.
           destruct (decide (dept_key_of e ∈ map fst G)) as [Hin|Hin];
             [exact Hin|].
           apply elem_of_app. right. left.
        -- right. exists x. split; assumption.
    + intros H. apply Hm in H as [H|H].
      * apply group_employee_members in H as [H|[-> Hk']];
          [left; exact H | right; split; [left | exact Hk']].
      * right. split; [right|]; apply H.
    + intros H. apply Hm. rewrite group_employee_members.
      destruct H as [H|[Hx Hkx]]; [left; left; exact H|].
      apply elem_of_cons in Hx as [->|Hx];
        [left; right; split; [reflexivity | exact Hkx] | right; split; assumption].
    + rewrite Hs, group_employee_total. lia.
Qed.

Lemma lookup_dept_head (k : string) (info : dept_info)
    (G : list (string * dept_info)) : lookup_dept ((k, info) :: G) k = info.
Proof. unfold lookup_dept. simpl. rewrite String.eqb_refl. reflexivity. Qed.

Lemma lookup_dept_tail (k k' : string) (info : dept_info)
    (G : list (string * dept_info)) :
  k' <> k -> lookup_dept ((k', info) :: G) k = lookup_dept G k.
Proof.
  intros H. unfold lookup_dept. simpl.
  destruct (String.eqb_spec k' k); [contradiction | reflexivity].
Qed.

Lemma sum_list_with_ext_in {A} (f g : A -> nat) (l : list A) :
  (forall x, x ∈ l -> f x = g x) -> sum_list_with f l = sum_list_with g l.
Proof.
  induction l as [|a l IH]; simpl; intros H; [reflexivity|].
  rewrite (H a) by left. rewrite IH; [reflexivity|].
  intros x Hx. apply H. right. exact Hx.
Qed.

(** Summing over the keys is summing over the values. *)
Lemma sum_over_keys (f : dept_info -> nat) (G : list (string * dept_info)) :
  NoDup (map fst G) ->
  sum_list_with (fun k => f (lookup_dept G k)) (map fst G) =
  sum_list_with (fun kv => f kv.2) G.
Proof.
  induction G as [|[k info] G IH]; simpl; intros H; [reflexivity|].
  apply NoDup_cons in H as [Hk HG].
  rewrite lookup_dept_head. f_equal. rewrite <- (IH HG).
  apply sum_list_with_ext_in. intros x Hx.
  rewrite lookup_dept_tail; [reflexivity|]. intros ->. contradiction.
Qed.

Lemma total_employees_overall_sum (G : list (string * dept_info))
    (keys : list string) (a : Z) :
  fold_left (fun total s => total + employees_in_dept_count s)
    (map (fun k => section_of (lookup_dept G k)) keys) a =
  a + Z.of_nat (sum_list_with
                  (fun k => List.length (employees (lookup_dept G k))) keys).
Proof.
  revert a. induction keys as [|k keys IH]; intros a; simpl; [lia|].
  rewrite IH. unfold len. lia.
Qed.

Lemma group_by_department_cons (e : Employee) (l : list Employee) :
  group_by_department (e :: l) <> [].
Proof.
  intros H.
  destruct (group_loop (e :: l) []) as (_ & Hk & _).
  fold (group_by_department (e :: l)) in Hk. rewrite H in Hk.
  specialize (Hk (dept_key_of e)). simpl in Hk.
  assert (F : dept_key_of e ∈ @nil string).
  { apply Hk. right. exists e. split; [left | reflexivity]. }
  inversion F.
Qed.

Lemma StronglySorted_map {A B : Type} (R1 : A -> A -> Prop)
    (R2 : B -> B -> Prop) (f : A -> B) (l : list A) :
  (forall x y, R1 x y -> R2 (f x) (f y)) ->
  StronglySorted R1 l -> StronglySorted R2 (map f l).
Proof.
  intros H. induction 1 as [|a l Hl IH Ha]; simpl; constructor; [exact IH|].
  apply Forall_forall. intros y Hy.
  apply list_elem_of_fmap in Hy as [x [-> Hx]].
  apply H. rewrite Forall_forall in Ha. apply Ha, Hx.
Qed.

(** C6: the department report.  [generate_department_report] prints the
    sections [report_sections] of the list.  There is one section for each
    key, the department trimmed and in lower case; the section of a key shows
    exactly the employees of the list with that key, sorted by name; the
    sections are in ascending order of the displayed department name; each
    carries the number of its employees and the total of their salaries, and
    the numbers of employees add up to the length of the list.  What is
    printed for a section is its heading, the column titles, one row for
    each of its employees in that order, then the number of its employees
    and the total of their salaries with two decimals; a row is the id, the
    name, the salary with two decimals and the email, filled up with spaces
    on the right to 15, 25, 15 and 25 characters.  Employees in the
    departments Engineering, engineering followed by a space, and Marketing
    make two sections, of two and of one employee, and the report of these
    three is spelled out line by line. *)
Theorem department_report_groups (l : list Employee) :
  let departments_data := group_by_department l in
  let keys := sorted_dept_keys departments_data in
  let sections := report_sections l in
  (forall w, _employees_list (self w) = l ->
     generate_department_report w =
     (Return tt,
      {| self := self w; disk := disk w; stdin := stdin w;
         stdout := stdout w ++
           Text (Py.newline +:+ "--- Employee Report by Department ---") ::
           match l with
           | [] => [Text "No employee records available to generate reports."]
           | _ =>
               [Text (Py.newline +:+ repeat_char "=" 75);
                Text " Overall Employee Distribution by Department";
                Text (repeat_char "=" 75)]
               ++ concat (map print_section sections)
               ++ [Text (Py.newline +:+ repeat_char "=" 75);
                   Text ("Report Complete. Found "
                         +:+ str_of_int (len departments_data) +:+ " departments.");
                   Text ("Total Employees Across All Departments: "
                         +:+ str_of_int (total_employees_overall sections));
                   Text (repeat_char "=" 75)]
           end |})) /\
  sections = map (fun k => section_of (lookup_dept departments_data k)) keys /\
  NoDup keys /\
  (forall e, e ∈ l ->
     dept_key_of e = Py.lower (Py.strip (department e)) \/ department e = EmptyString) /\
  (forall e, e ∈ l -> dept_key_of e ∈ keys) /\
  (forall k e, k ∈ keys ->
     (e ∈ sorted_dept_list (section_of (lookup_dept departments_data k)) <->
      e ∈ l /\ dept_key_of e = k)) /\
  Forall (fun s => StronglySorted (key_le name) (sorted_dept_list s)) sections /\
  StronglySorted (key_le department_name) sections /\
  Forall (fun s =>
            employees_in_dept_count s = len (sorted_dept_list s) /\
            total_salary_dept s =
              fold_left (fun total e => PyFloat.add total (salary e))
                        (sorted_dept_list s) PyFloat.zero) sections /\
  total_employees_overall sections = len l /\
  summary (report_sections (returned [engineering_1; engineering_2; marketing_1]))
    = [("Engineering", ["BF001"; "BF003"], 2, "155000.50");
       ("Marketing", ["BF002"], 1, "60000.00")] /\
  summary (report_sections
             (map (fun e => if String.eqb (employee_id e) "BF003"
                            then with_department "engineering " e else e)
                  (returned [engineering_1; engineering_2; marketing_1])))
    = [("Engineering", ["BF001"; "BF003"], 2, "155000.50");
       ("Marketing", ["BF002"], 1, "60000.00")] /\
  (forall e,
     report_row e =
     Text ((employee_id e
            +:+ repeat_char " " (15 - String.length (employee_id e)))
           +:+ " "
           +:+ (name e +:+ repeat_char " " (25 - String.length (name e)))
           +:+ " "
           +:+ (PyFloat.format_2f (salary e)
                +:+ repeat_char " "
                      (15 - String.length (PyFloat.format_2f (salary e))))
           +:+ " "
           +:+ (email e +:+ repeat_char " " (25 - String.length (email e))))) /\
  Forall (fun s =>
            print_section s =
            [DepartmentHeading (department_name s);
             Text ("Employee ID     Name                      "
                   +:+ "Salary          Email                    ");
             Text (repeat_char "-" 75)]
            ++ map report_row (sorted_dept_list s)
            ++ [Text (repeat_char "-" 75);
                Text ("Total Employees in " +:+ department_name s +:+ ": "
                      +:+ str_of_int (len (sorted_dept_list s)));
                Text ("Total Salary for " +:+ department_name s +:+ ": "
                      +:+ PyFloat.format_2f
                            (fold_left
                               (fun total e => PyFloat.add total (salary e))
                               (sorted_dept_list s) PyFloat.zero));
                Text (repeat_char "-" 75)]) sections /\
  stdout (generate_department_report listing_sample).2 =
    [Text (Py.newline +:+ "--- Employee Report by Department ---");
     Text (Py.newline +:+ repeat_char "=" 75);
     Text " Overall Employee Distribution by Department";
     Text (repeat_char "=" 75);
     DepartmentHeading "Engineering";
     Text ("Employee ID     Name                      "
           +:+ "Salary          Email                    ");
     Text (repeat_char "-" 75);
     Text ("BF001           Alice Smith               "
           +:+ "75000.50        alice.s@bitfutura.test   ");
     Text ("BF003           Charlie Lee               "
           +:+ "80000.00        charlie.l@bitfutura.test ");
     Text (repeat_char "-" 75);
     Text "Total Employees in Engineering: 2";
     Text "Total Salary for Engineering: 155000.50";
     Text (repeat_char "-" 75);
     DepartmentHeading "Marketing";
     Text ("Employee ID     Name                      "
           +:+ "Salary          Email                    ");
     Text (repeat_char "-" 75);
     Text ("BF002           Bob Johnson               "
           +:+ "60000.00        bob.j@bitfutura.test     ");
     Text (repeat_char "-" 75);
     Text "Total Employees in Marketing: 1";
     Text "Total Salary for Marketing: 60000.00";
     Text (repeat_char "-" 75);
     Text (Py.newline +:+ repeat_char "=" 75);
     Text "Report Complete. Found 2 departments.";
     Text "Total Employees Across All Departments: 3";
     Text (repeat_char "=" 75)].
Proof.
  intros G keys sections.
  destruct (group_loop l []) as (Hnd & Hk & Hm & Hs).
  fold (group_by_department l) in Hnd, Hk, Hm, Hs. fold G in Hnd, Hk, Hm, Hs.
  specialize (Hnd (NoDup_nil_2 (A:=string))).
  assert (Hperm : Permutation keys (map fst G)) by apply sorted_perm.
  split; [|split; [reflexivity|]].
  { intros w Hw.
    unfold generate_department_report, bind, print, print_all, get_self.
    cbn [self disk stdin stdout]. rewrite Hw. fold G. fold sections.
    destruct l as [|e l]; cbn [self disk stdin stdout].
    - rewrite <- ?app_assoc. reflexivity.
    - pose proof (group_by_department_cons e l) as Hne. fold G in Hne.
      destruct G as [|kv G']; [contradiction|].
      cbn [self disk stdin stdout]. rewrite <- ?app_assoc. reflexivity. }
  split; [rewrite Hperm; exact Hnd|].
  split.
  { intros e _. unfold dept_key_of.
    destruct (department e); [right | left]; reflexivity. }
  split.
  { intros e He. rewrite Hperm. apply Hk. right. exists e. split; [exact He | reflexivity]. }
  split.
  { intros k e _. cbn [section_of sorted_dept_list].
    rewrite (sorted_perm name (employees (lookup_dept G k))), Hm.
    unfold lookup_dept at 1. cbn. rewrite elem_of_nil. tauto. }
  split.
  { apply Forall_forall. intros s Hs'. unfold sections, report_sections in Hs'.
    apply list_elem_of_fmap in Hs' as [k [-> _]]. apply sorted_sorted. }
  split.
  { unfold sections, report_sections. fold G. fold keys.
    apply StronglySorted_map with
      (R1 := key_le (fun k => display_name (lookup_dept G k))).
    - intros x y H. exact H.
    - apply sorted_sorted. }
  split.
  { apply Forall_forall. intros s Hs'. unfold sections, report_sections in Hs'.
    apply list_elem_of_fmap in Hs' as [k [-> _]].
    cbn [section_of employees_in_dept_count sorted_dept_list total_salary_dept].
    split; [|reflexivity]. unfold len. rewrite sorted_length. reflexivity. }
  split.
  { unfold total_employees_overall, sections, report_sections. fold G. fold keys.
    rewrite total_employees_overall_sum, Hperm,
      (sum_over_keys (fun info => List.length (employees info)) G Hnd), Hs.
    unfold len. simpl. lia. }
  split; [vm_compute; reflexivity|].
  split; [vm_compute; reflexivity|].
  split; [intros e; reflexivity|].
  split; [|vm_compute; reflexivity].
  apply Forall_forall. intros s Hs'. unfold sections, report_sections in Hs'.
  apply list_elem_of_fmap in Hs' as [k [-> _]].
  unfold print_section.
  cbn [section_of department_name employees_in_dept_count sorted_dept_list
       total_salary_dept].
  unfold len. rewrite sorted_length. reflexivity.
Qed.

(** ** Running a command step by step *)

Lemma post_bind {A B} (m : M A) (k : A -> M B) (w : world)
    (Q : result B -> world -> Prop) :
  post m w (fun r w1 => match r with
                        | Return a => post (k a) w1 Q
                        | Raise e => Q (Raise e) w1
                        end) ->
  post (bind m k) w Q.
Proof. unfold post, bind. destruct (m w) as [[a|e] w1]; simpl; auto. Qed.

Lemma post_ret {A} (a : A) (w : world) (Q : result A -> world -> Prop) :
  Q (Return a) w -> post (ret a) w Q.
Proof. exact id. Qed.

Lemma post_raise {A} (e : exn) (w : world) (Q : result A -> world -> Prop) :
  Q (Raise e) w -> post (raise e) w Q.
Proof. exact id. Qed.

Lemma post_print (m : message) (w : world) (Q : result unit -> world -> Prop) :
  Q (Return tt) {| self := self w; disk := disk w; stdin := stdin w;
                   stdout := stdout w ++ [m] |} ->
  post (print m) w Q.
Proof. exact id. Qed.

Lemma post_print_all (ms : list message) (w : world)
    (Q : result unit -> world -> Prop) :
  Q (Return tt) {| self := self w; disk := disk w; stdin := stdin w;
                   stdout := stdout w ++ ms |} ->
  post (print_all ms) w Q.
Proof. exact id. Qed.

Lemma post_get_self (w : world)
    (Q : result EmployeeManagementSystem -> world -> Prop) :
  Q (Return (self w)) w -> post get_self w Q.
Proof. exact id. Qed.

Lemma post_input (w : world) (Q : result string -> world -> Prop) :
  (stdin w = [] -> Q (Raise EOFError) w) ->
  (forall line rest, stdin w = line :: rest ->
     Q (Return line) {| self := self w; disk := disk w; stdin := rest;
                        stdout := stdout w |}) ->
  post input w Q.
Proof. unfold post, input. destruct (stdin w); simpl; auto. Qed.

Lemma post_set_employees_list (l : list Employee) (w : world)
    (Q : result unit -> world -> Prop) :
  Q (Return tt)
    {| self := {| _file_name := _file_name (self w);
                  _delimiter := _delimiter (self w);
                  _employee_keys := _employee_keys (self w);
                  _employees_list := l |};
       disk := disk w; stdin := stdin w; stdout := stdout w |} ->
  post (set_employees_list l) w Q.
Proof. exact id. Qed.

Lemma post_save (w : world) (Q : result unit -> world -> Prop) :
  Q (Return tt) {| self := self w; disk := Some (_save_employees (self w));
                   stdin := stdin w; stdout := stdout w |} ->
  post save w Q.
Proof. exact id. Qed.

Lemma post_pure {A} (x : result A) (w : world) (Q : result A -> world -> Prop) :
  Q x w -> post (fun w => (x, w)) w Q.
Proof. exact id. Qed.

Lemma post_item {A} (l : list A) (i : Z) (w : world)
    (Q : result A -> world -> Prop) :
  (forall a, l !! Z.to_nat i = Some a -> Q (Return a) w) ->
  (l !! Z.to_nat i = None -> Q (Raise IndexError) w) ->
  post (item l i) w Q.
Proof. unfold post, item. destruct (l !! Z.to_nat i); simpl; auto. Qed.

Lemma post_catch {A} (m : M A) (handler : exn -> M A) (w : world)
    (Q : result A -> world -> Prop) :
  post m w (fun r w1 => match r with
                        | Return a => Q (Return a) w1
                        | Raise e => post (handler e) w1 Q
                        end) ->
  post (catch m handler) w Q.
Proof. unfold post, catch. destruct (m w) as [[a|e] w1]; simpl; auto. Qed.

Lemma post_weaken {A} (m : M A) (w : world) (P Q : result A -> world -> Prop) :
  post m w P -> (forall r w', P r w' -> Q r w') -> post m w Q.
Proof. unfold post. auto. Qed.

Lemma ask_lines_accepted {A} (check : string -> message + result A)
    (lines : list string) (out : list message) (a : result A)
    (rest : list string) :
  ask_lines check lines = (out, Some (a, rest)) ->
  (exists line, check line = inr a) /\
  (List.length rest < List.length lines)%nat.
Proof.
  revert out. induction lines as [|line lines IH]; simpl; intros out H.
  - discriminate.
  - destruct (check line) as [m|a'] eqn:E.
    + destruct (ask_lines check lines) as [out' r]. injection H as _ ->.
      destruct (IH out' eq_refl) as [Hl Hlen]. split; [exact Hl | lia].
    + injection H as _ -> ->. split; [exists line; exact E | lia].
Qed.

Lemma post_ask {A} (check : string -> message + result A) (w : world)
    (Q : result A -> world -> Prop) :
  (forall line a out rest, check line = inr a ->
     (List.length rest < List.length (stdin w))%nat ->
     Q a {| self := self w; disk := disk w; stdin := rest;
            stdout := stdout w ++ out |}) ->
  (forall out, Q (Raise EOFError)
     {| self := self w; disk := disk w; stdin := [];
        stdout := stdout w ++ out |}) ->
  post (ask check) w Q.
Proof.
  intros Hacc Heof. unfold post, ask.
  destruct (ask_lines check (stdin w)) as [out [[a rest]|]] eqn:E; simpl.
  - destruct (ask_lines_accepted check _ _ _ _ E) as [[line Hline] Hlen].
    exact (Hacc line a out rest Hline Hlen).
  - apply Heof.
Qed.

(** One step of a command: the rule of its head, a case distinction on the
    condition of a branch. *)
Ltac wp_step :=
  cbn beta iota;
  lazymatch goal with
  | |- post (bind _ _) _ _ => apply post_bind
  | |- post (print _) _ _ => apply post_print
  | |- post (print_all _) _ _ => apply post_print_all
  | |- post input _ _ =>
      apply post_input; cbn [self disk stdin stdout];
      [intros ? | intros ? ? ?]; subst
  | |- post input_stripped _ _ => unfold input_stripped
  | |- post (ret _) _ _ => apply post_ret
  | |- post (raise _) _ _ => apply post_raise
  | |- post get_self _ _ => apply post_get_self
  | |- post (set_employees_list _) _ _ => apply post_set_employees_list
  | |- post save _ _ => apply post_save
  | |- post (save_with no_fault) _ _ => apply post_save
  | |- post goodbye _ _ => unfold goodbye, goodbye_with
  | |- post (goodbye_with _) _ _ => unfold goodbye_with
  | |- post (ask _) _ _ => apply post_ask; [intros ? ? ? ? ? ? | intros ?]
  | |- post (item _ _) _ _ => apply post_item; [intros ? ?|intros ?]
  | |- post (catch _ _) _ _ => apply post_catch
  | |- post (if ?b then _ else _) _ _ => destruct b eqn:?
  | |- post (match ?x with _ => _ end) _ _ => destruct x eqn:?
  | |- post (fun w => (_, w)) _ _ => apply post_pure
  | |- match ?x with Return _ => _ | Raise _ => _ end => destruct x eqn:?
  end; cbn [self disk stdin stdout].

Ltac wp := repeat wp_step; cbn beta iota.

(** The last printed line is not the one of a saved update. *)
Ltac not_committed :=
  unfold update_committed; cbn [stdout]; rewrite last_app; cbn [last];
  let H := fresh in intros H; exfalso; revert H; simpl; discriminate.

(** ** Finding an employee *)

Lemma find_index_from_found (id : string) (l : list Employee) (i j : Z) :
  find_index_from id l i = j -> j <> -1 -> 0 <= i ->
  i <= j /\
  exists e, l !! Z.to_nat (j - i) = Some e /\ employee_id e = id.
Proof.
  revert i. induction l as [|e l IH]; simpl; intros i Hj Hne Hi.
  - congruence.
  - unfold same_id in Hj. destruct (String.eqb_spec (employee_id e) id) as [E|E].
    + subst j. split; [lia|]. rewrite Z.sub_diag. exists e. split; [reflexivity | exact E].
    + destruct (IH (i + 1) Hj Hne) as [Hle [x [Hx Hid]]]; [lia|].
      split; [lia|]. exists x. split; [|exact Hid].
      replace (Z.to_nat (j - i)) with (S (Z.to_nat (j - (i + 1)))) by lia.
      exact Hx.
Qed.



(** ** Updating *)

(** What [update_employee] does: nothing to the list and the file unless it
    ends with the line of a saved update, and then one employee is replaced
    and the file is written. *)
Lemma update_employee_effect (w : world) :
  post update_employee w (fun _ w' =>
    (~ update_committed w' /\ self w' = self w /\ disk w' = disk w) \/
    (update_committed w' /\
     exists (i : nat) (old new : Employee) (typed : list string),
       stdin w = typed ++ stdin w' /\
       updated_fields typed old new /\
       _employees_list (self w) !! i = Some old /\
       self w' = with_list (self w) (<[i := new]> (_employees_list (self w))) /\
       disk w' = Some (_save_employees (self w')))).
Proof.
  unfold update_employee, update_employee_with. wp.
  all: try (left; split; [not_committed | split; reflexivity]).
  all: right; split; [unfold update_committed; cbn [stdout]; apply last_snoc|].
  all: cbn [self _employees_list disk stdin].
  all: match goal with
       | Hs : stdin ?v = ?a :: ?b :: ?c :: ?d :: ?e :: ?f :: ?g :: ?r,
         Hf : _ !! Z.to_nat (_find_employee_index_by_id (self ?v) (Py.strip ?a))
                = Some ?old |- _ =>
           exists (Z.to_nat (_find_employee_index_by_id (self v) (Py.strip a))),
                  old;
           eexists; exists [a; b; c; d; e; f; g]
       end.
  all: match goal with
       | Hl : _employees_list (self ?v) = _ |- _ => rewrite <- Hl in *
       end.
  all: match goal with
       | Hb : (_find_employee_index_by_id (self ?v) ?id =? -1) = false |- _ =>
           apply Z.eqb_neq in Hb;
           destruct (find_index_from_found id (_employees_list (self v)) 0
                       (_find_employee_index_by_id (self v) id)
                       eq_refl Hb (Z.le_refl 0)) as [_ [x [Hx Hid]]];
           rewrite Z.sub_0_r in Hx
       end.
  all: split; [assumption|].
  all: split; [|split; [assumption | split; reflexivity]].
  all: unfold updated_fields; do 7 eexists; split; [reflexivity|].
  all: repeat match goal with
         | H : Py.truthy _ = _ |- _ => rewrite H
         end.
  all: cbn [employee_id name department salary email contact_details].
  all: repeat split; try reflexivity; try congruence.
  all: match goal with
       | H : float_of_salary (SalaryStr ?s) = Return ?x |- _ =>
           unfold float_of_salary in H; destruct (PyFloat.of_str s);
           congruence
       end.
Qed.

(** C8: the frame of an update.  When [update_employee] has saved an update
    (its last printed line says so), the typed lines were the id, the five
    new values and the confirmation; the list differs from the one before at
    the position [i] of the employee with that id only; there, the id is the
    old one, and each other field is the typed value, stripped, when that is
    not empty, and the old value when it is. *)
Theorem update_employee_frame (w : world) :
  update_committed (update_employee w).2 ->
  exists (i : nat) (old new : Employee)
         (id_line name_line department_line salary_line email_line
          contact_line answer : string),
    stdin w = id_line :: name_line :: department_line :: salary_line
                 :: email_line :: contact_line :: answer
                 :: stdin (update_employee w).2 /\
    _employees_list (self w) !! i = Some old /\
    employee_id old = Py.strip id_line /\
    _employees_list (self (update_employee w).2)
      = <[i := new]> (_employees_list (self w)) /\
    employee_id new = employee_id old /\
    name new = (if Py.truthy (Py.strip name_line)
                then Py.strip name_line else name old) /\
    department new = (if Py.truthy (Py.strip department_line)
                      then Py.strip department_line else department old) /\
    (if Py.truthy (Py.strip salary_line)
     then PyFloat.of_str (Py.strip salary_line) = Some (salary new)
     else salary new = salary old) /\
    email new = (if Py.truthy (Py.strip email_line)
                 then Py.strip email_line else email old) /\
    contact_details new = (if Py.truthy (Py.strip contact_line)
                           then Py.strip contact_line
                           else contact_details old) /\
    List.length (_employees_list (self (update_employee w).2))
      = List.length (_employees_list (self w)) /\
    (forall j, j <> i ->
       _employees_list (self (update_employee w).2) !! j
         = _employees_list (self w) !! j).
Proof.
  intros Hc.
  destruct (update_employee_effect w) as [[Hn _]|[_ H]]; [contradiction|].
  destruct H as (i & old & new & typed & Hin & Hf & Hold & Hself & _).
  destruct Hf as (a & b & c & d & e & f & g & -> & Hid & Hnew).
  exists i, old, new, a, b, c, d, e, f, g.
  rewrite Hself. cbn [with_list _employees_list].
  split; [exact Hin|]. split; [exact Hold|]. split; [exact Hid|].
  split; [reflexivity|].
  repeat (split; [apply Hnew|]).
  split; [apply length_insert|].
  intros j Hj. apply list_lookup_insert_ne. congruence.
Qed.

Lemma update_employee_frame_witness :
  update_committed (update_employee update_sample).2 /\
  exists (i : nat) (old new : Employee),
    _employees_list (self update_sample) !! i = Some old /\
    _employees_list (self (update_employee update_sample).2)
      = <[i := new]> (_employees_list (self update_sample)) /\
    employee_id new = employee_id old /\
    name new = "Alice Smith Jr" /\
    department new = department old /\
    PyFloat.of_str "80000" = Some (salary new) /\
    email new = email old /\
    contact_details new = "New Contact".
Proof.
  assert (Hc : update_committed (update_employee update_sample).2)
    by (vm_compute; reflexivity).
  split; [exact Hc|].
  destruct (update_employee_frame update_sample Hc)
    as (i & old & new & a & b & c & d & e & f & g & Hin & Hold & _ & Hnew
        & Hid & Hname & Hdep & Hsal & Hem & Hcon & _).
  injection Hin as <- <- <- <- <- <- _.
  exists i, old, new. repeat split; assumption.
Defined.

(** ** Adding and deleting *)

Lemma is_unique_not_in (this : EmployeeManagementSystem) (id : string) :
  _is_employee_id_unique this id = true ->
  Forall (fun x => employee_id x <> id) (_employees_list this).
Proof.
  unfold _is_employee_id_unique, _find_employee_by_id.
  destruct (List.find (same_id id) (_employees_list this)) eqn:E; [discriminate|].
  intros _. apply Forall_forall. intros x Hx Hid.
  apply list_elem_of_In in Hx.
  pose proof (find_none _ _ E x Hx) as H. unfold same_id in H.
  rewrite Hid, String.eqb_refl in H. discriminate.
Qed.

Lemma is_unique_in (this : EmployeeManagementSystem) (id : string) :
  id ∈ map employee_id (_employees_list this) ->
  _is_employee_id_unique this id = false.
Proof.
  intros H. destruct (_is_employee_id_unique this id) eqn:E; [|reflexivity].
  apply is_unique_not_in in E. rewrite Forall_forall in E.
  apply list_elem_of_fmap in H as [x [-> Hx]]. destruct (E x Hx eq_refl).
Qed.

(** The id that leaves the first loop of [add_employee] is the typed line,
    stripped; it is well formed and not in the list. *)
Lemma check_new_id_accepted (this : EmployeeManagementSystem) (line : string)
    (a : result string) :
  check_new_id this line = inr a ->
  a = Return (Py.strip line) /\
  (is_valid_employee_id_format (Py.strip line)).1 = true /\
  _is_employee_id_unique this (Py.strip line) = true.
Proof.
  unfold check_new_id.
  destruct (is_valid_employee_id_format (Py.strip line)) as [ok msg]; simpl.
  destruct ok; simpl; [|discriminate].
  destruct (_is_employee_id_unique this (Py.strip line)); simpl; [|discriminate].
  intros [= <-]. repeat split.
Qed.

(** An id that is in the list is turned down, whatever else is typed. *)
Lemma check_new_id_rejects (this : EmployeeManagementSystem) (line : string) :
  Py.strip line ∈ map employee_id (_employees_list this) ->
  exists m, check_new_id this line = inl m /\
    ((is_valid_employee_id_format (Py.strip line)).1 = true ->
     m = Text ("Validation failed: Employee ID '" +:+ Py.strip line
               +:+ "' already exists.")).
Proof.
  intros H. unfold check_new_id. rewrite (is_unique_in _ _ H).
  destruct (is_valid_employee_id_format (Py.strip line)) as [ok msg]; simpl.
  destruct ok; simpl; eexists; (split; [reflexivity|]);
    [reflexivity | discriminate].
Qed.


(** What [add_employee] does: nothing to the list and the file, or it
    appends one constructed employee whose id is not in the list and writes
    the file. *)
Lemma add_employee_effect (w : world) :
  post add_employee w (fun _ w' =>
    (self w' = self w /\ disk w' = disk w) \/
    exists e, constructed e /\
      Forall (fun x => employee_id x <> employee_id e) (_employees_list (self w)) /\
      self w' = with_list (self w) (_employees_list (self w) ++ [e]) /\
      disk w' = Some (_save_employees (self w'))).
Proof.
  unfold add_employee, add_employee_with. wp.
  all: try (left; split; reflexivity).
  right.
  match goal with
  | H : Employee_init _ _ _ _ _ _ = Return ?e |- _ =>
      exists e; split; [do 6 eexists; exact H|];
      apply Employee_init_fields in H as (_&_&_&_&_&_&_& Hid &_)
  end.
  split; [|split; reflexivity].
  match goal with
  | H : check_new_id _ _ = inr _ |- _ =>
      apply check_new_id_accepted in H as ([= ->] & _ & Hu)
  end.
  rewrite Hid, strip_idempotent. apply is_unique_not_in, Hu.
Qed.

(** What [delete_employee] does: nothing to the list and the file, or it
    removes one employee and writes the file. *)
Lemma delete_employee_effect (w : world) :
  post delete_employee w (fun _ w' =>
    (self w' = self w /\ disk w' = disk w) \/
    exists i : nat,
      self w' = with_list (self w) (delete i (_employees_list (self w))) /\
      disk w' = Some (_save_employees (self w'))).
Proof.
  unfold delete_employee, delete_employee_with. wp.
  all: try (left; split; reflexivity).
  right. eexists. split; [|reflexivity].
  reflexivity.
Qed.

(** The three commands that only show something. *)
Lemma view_employee_effect (w : world) :
  post view_employee w (fun _ w' => self w' = self w /\ disk w' = disk w).
Proof. unfold view_employee. wp. all: split; reflexivity. Qed.

Lemma list_all_employees_effect (w : world) :
  post list_all_employees w (fun _ w' => self w' = self w /\ disk w' = disk w).
Proof. unfold list_all_employees. wp. all: split; reflexivity. Qed.

Lemma generate_department_report_effect (w : world) :
  post generate_department_report w
    (fun _ w' => self w' = self w /\ disk w' = disk w).
Proof. unfold generate_department_report. wp. all: split; reflexivity. Qed.

(** ** One turn of the menu *)

Lemma store_step_add (w : world) (s : EmployeeManagementSystem) :
  (s = self w) \/
  (exists e, constructed e /\
     Forall (fun x => employee_id x <> employee_id e) (_employees_list (self w)) /\
     s = with_list (self w) (_employees_list (self w) ++ [e])) ->
  store_step (_employees_list (self w)) (_employees_list s).
Proof.
  intros [->|(e & Hc & Hn & ->)]; [apply store_same | apply store_add; assumption].
Qed.

(** After a command, [run] goes on, or it saves and stops at the end of
    the input; neither changes the list. *)
Ltac after_command :=
  intros [[]|[?| |]] w' Heff; wp; cbn [self _employees_list].

Lemma menu_turn_effect (w : world) :
  post menu_turn w (fun _ w' =>
    store_step (_employees_list (self w)) (_employees_list (self w'))).
Proof.
  unfold menu_turn, menu_turn_with. wp.
  all: try apply store_same.
  - eapply post_weaken; [apply add_employee_effect|]. after_command.
    all: cbn [self] in *; apply (store_step_add w);
      destruct Heff as [[Heff _]|Heff]; [left; exact Heff | right].
    all: destruct Heff as (e & Hc & Hn & Hs & _); exists e; auto.
  - eapply post_weaken; [apply view_employee_effect|]. after_command.
    all: destruct Heff as [-> _]; apply store_same.
  - eapply post_weaken; [apply update_employee_effect|]. after_command.
    all: cbn [self] in *; destruct Heff as [(_ & -> & _)|(_ & i & old & new & typed & _ & Hf & Hold & -> & _)];
      [apply store_same|].
    all: cbn [with_list _employees_list].
    all: destruct Hf as (a & b & c & d & e & f & g & _ & _ & Hid & _ & Hdep & _).
    all: apply (store_update _ i old new Hold Hid).
    all: rewrite Hdep; destruct (Py.truthy (Py.strip c)) eqn:E;
      [right; rewrite strip_idempotent; exact E | left; reflexivity].
  - eapply post_weaken; [apply delete_employee_effect|]. after_command.
    all: cbn [self] in *; destruct Heff as [[-> _]|(i & -> & _)];
      [apply store_same | apply store_delete].
  - eapply post_weaken; [apply list_all_employees_effect|]. after_command.
    all: destruct Heff as [-> _]; apply store_same.
  - eapply post_weaken; [apply generate_department_report_effect|]. after_command.
    all: destruct Heff as [-> _]; apply store_same.
Qed.

(** ** Loading *)

Lemma existsb_same_id (id : string) (l : list Employee) :
  existsb (same_id id) l = false ->
  Forall (fun x => employee_id x <> id) l.
Proof.
  induction l as [|x l IH]; simpl; [constructor|].
  intros [Hx Hl]%orb_false_elim. constructor; [|exact (IH Hl)].
  unfold same_id in Hx. apply String.eqb_neq, Hx.
Qed.

Lemma NoDup_ids_snoc (l : list Employee) (e : Employee) :
  NoDup (map employee_id l) ->
  Forall (fun x => employee_id x <> employee_id e) l ->
  NoDup (map employee_id (l ++ [e])).
Proof.
  intros Hn Hf. rewrite map_app. apply NoDup_app. split; [exact Hn|].
  split; [|apply NoDup_singleton].
  intros id Hid Hin%list_elem_of_singleton. subst id.
  apply list_elem_of_fmap in Hid as [x [Hx Hin]].
  rewrite Forall_forall in Hf. exact (Hf x Hin (eq_sym Hx)).
Qed.

(** A line that is skipped: the loop goes on with the same list. *)
Ltac skip_line H IH Hn Hc :=
  match type of H with
  | context [load_lines ?t ?rest ?n ?d] =>
      let E := fresh "E" in
      destruct (load_lines t rest n d) as [? ?] eqn:E;
      injection H as _ ->; exact (IH _ _ _ E Hn Hc)
  end.

(** The loading loop keeps the employees already accepted, in their order,
    and never accepts an id twice; what holds of every employee that
    [from_dict] returns holds of the employees it accepts. *)
Lemma load_lines_inv (P : Employee -> Prop) (this : EmployeeManagementSystem)
    (lines : list string) (line_num : Z) (employees_data : list Employee)
    (out : list message) (loaded : list Employee) :
  (forall data_dict e, (from_dict data_dict).2 = Return (Some e) -> P e) ->
  load_lines this lines line_num employees_data = (out, Return loaded) ->
  NoDup (map employee_id employees_data) ->
  Forall P employees_data ->
  NoDup (map employee_id loaded) /\ Forall P loaded /\
  exists more, loaded = employees_data ++ more.
Proof.
  intros HP. revert line_num employees_data out.
  induction lines as [|raw rest IH]; intros line_num data out H Hn Hc.
  - injection H as _ <-. repeat split; [exact Hn | exact Hc|].
    exists []. symmetry. apply app_nil_r.
  - simpl load_lines in H.
    destruct (Py.truthy (Py.strip raw)); simpl negb in H; cbv iota in H;
      [|skip_line H IH Hn Hc].
    destruct (Py.split (Py.strip raw) (_delimiter this)) as [values|];
      [|discriminate].
    destruct (len values =? len (_employee_keys this));
      [|skip_line H IH Hn Hc].
    destruct (from_dict _) as [out1 [[e|]|[msg| |]]] eqn:Ed;
      try skip_line H IH Hn Hc.
    destruct (existsb (same_id (employee_id e)) data) eqn:Ex;
      [skip_line H IH Hn Hc|].
    destruct (load_lines this rest (line_num + 1) (data ++ [e]))
      as [out2 r] eqn:E.
    injection H as _ ->.
    assert (He : P e).
    { apply (HP (Py.dict (Py.zip (_employee_keys this) values))).
      rewrite Ed. reflexivity. }
    destruct (IH _ _ _ E) as (Hn' & Hc' & more & ->).
    + apply NoDup_ids_snoc; [exact Hn | apply existsb_same_id, Ex].
    + apply Forall_app. split; [exact Hc | repeat constructor; exact He].
    + repeat split; [exact Hn' | exact Hc'|].
      exists (e :: more). rewrite <- app_assoc. reflexivity.
Qed.

Lemma _load_employees_inv (this : EmployeeManagementSystem)
    (file : option string) :
  NoDup (map employee_id (_load_employees this file).2) /\
  Forall constructed (_load_employees this file).2.
Proof.
  unfold _load_employees. destruct file as [text|]; simpl.
  2:{ split; constructor. }
  destruct (Py.split _ _); simpl; [|split; constructor].
  destruct (load_lines this (List.tl (Py.text_lines text)) 2 [])
    as [out [loaded|[msg| |]]] eqn:E; simpl; try (split; constructor).
  destruct (load_lines_inv constructed _ _ _ _ _ _ from_dict_constructed E)
    as (Hn & Hc & _); [constructor | constructor | split; assumption].
Qed.

(** ** The invariants of the list *)

Lemma store_step_NoDup (l l' : list Employee) :
  store_step l l' -> NoDup (map employee_id l) -> NoDup (map employee_id l').
Proof.
  intros [|e Hc Hf|i old new Hold Hid _|i] Hn.
  - exact Hn.
  - apply NoDup_ids_snoc; assumption.
  - change (NoDup (employee_id <$> <[i:=new]> l)).
    rewrite list_fmap_insert, list_insert_id; [exact Hn|].
    rewrite list_lookup_fmap, Hold. simpl. congruence.
  - change (NoDup (employee_id <$> delete i l)).
    rewrite list_fmap_delete.
    eapply sublist_NoDup; [exact Hn | apply sublist_delete].
Qed.

Lemma store_step_department (l l' : list Employee) :
  store_step l l' ->
  Forall (fun e => Py.truthy (Py.strip (department e)) = true) l ->
  Forall (fun e => Py.truthy (Py.strip (department e)) = true) l'.
Proof.
  intros [|e Hc Hf|i old new Hold _ Hd|i] H.
  - exact H.
  - apply Forall_app. split; [exact H|].
    repeat constructor. apply constructed_department, Hc.
  - apply Forall_insert; [exact H|].
    destruct Hd as [->|Hd]; [|exact Hd].
    rewrite Forall_forall in H. apply H. eapply list_elem_of_lookup_2, Hold.
  - apply Forall_delete, H.
Qed.

(** Every state between two turns of the menu has a list without repeated
    ids, all of whose departments are not blank. *)
Lemma reachable_inv (w : world) :
  reachable w ->
  NoDup (map employee_id (_employees_list (self w))) /\
  Forall (fun e => Py.truthy (Py.strip (department e)) = true)
         (_employees_list (self w)).
Proof.
  induction 1 as [fn delim keys file typed|w m Hw IH|w Hw IH].
  - unfold boot, EmployeeManagementSystem_init.
    pose proof (_load_employees_inv (mkSystem fn delim keys []) file) as [Hn Hc].
    destruct (_load_employees _ file) as [out data]. simpl in *.
    split; [exact Hn|].
    eapply Forall_impl; [exact Hc|]. apply constructed_department.
  - exact IH.
  - pose proof (menu_turn_effect w) as Hs. unfold post in Hs.
    destruct IH as [Hn Hd].
    split; [exact (store_step_NoDup _ _ Hs Hn) |
            exact (store_step_department _ _ Hs Hd)].
Qed.

Lemma turns_S (fuel : nat) :
  turns (S fuel) = (again <- menu_turn ;; if again then turns fuel else ret tt).
Proof. reflexivity. Qed.

(** [run] only passes through reachable states. *)
Lemma turns_reachable (fuel : nat) (w : world) :
  reachable w -> reachable (turns fuel w).2.
Proof.
  revert w. induction fuel as [|fuel IH]; intros w Hw; [exact Hw|].
  rewrite turns_S. unfold bind. pose proof (reachable_turn w Hw) as Ht.
  destruct (menu_turn w) as [[[]|e] w1]; simpl in *; auto.
Qed.

Lemma main_reachable (file : option string) (typed : list string) :
  reachable (main file typed).2.
Proof.
  unfold main, run, run_with, bind.
  set (w := boot FILE_NAME DELIMITER EMPLOYEE_KEYS file typed).
  assert (Hw : reachable (print (Text (Py.newline
            +:+ "Welcome to the BitFutura Employee Management System")) w).2).
  { apply reachable_print, reachable_boot. }
  destruct (print _ w) as [[[]|e] w1] eqn:E; cbn [fst snd] in *.
  - apply (turns_reachable (S (List.length (stdin w1)))), Hw.
  - exact Hw.
Qed.

Lemma ask_lines_rejected {A} (check : string -> message + result A)
    (lines : list string) :
  Forall (fun line => exists m, check line = inl m) lines ->
  (ask_lines check lines).2 = None.
Proof.
  induction 1 as [|line lines [m Hm] _ IH]; simpl; [reflexivity|].
  rewrite Hm. destruct (ask_lines check lines) as [out r]. exact IH.
Qed.

(** C1: the ids of the employees are pairwise distinct in every reachable
    state.  [add_employee] turns down a typed id that is in the list; it
    leaves the list and the file as they are, or it appends one employee
    whose id was not in the list and only then writes the file; when nothing
    but ids of the list is typed it ends with the list and the file
    unchanged.  The loading loop keeps the employees it has accepted and
    accepts no id twice, so that the first line with an id wins. *)
Theorem employee_ids_distinct (w : world) :
  reachable w ->
  NoDup (map employee_id (_employees_list (self w))) /\
  (forall (i j : nat) (a b : Employee),
     _employees_list (self w) !! i = Some a ->
     _employees_list (self w) !! j = Some b ->
     i <> j -> employee_id a <> employee_id b) /\
  (forall line, Py.strip line ∈ map employee_id (_employees_list (self w)) ->
     exists m, check_new_id (self w) line = inl m /\
       ((is_valid_employee_id_format (Py.strip line)).1 = true ->
        m = Text ("Validation failed: Employee ID '" +:+ Py.strip line
                  +:+ "' already exists."))) /\
  ((self (add_employee w).2 = self w /\ disk (add_employee w).2 = disk w) \/
   exists e,
     (employee_id e ∉ map employee_id (_employees_list (self w))) /\
     self (add_employee w).2
       = with_list (self w) (_employees_list (self w) ++ [e]) /\
     disk (add_employee w).2 = Some (_save_employees (self (add_employee w).2))) /\
  (Forall (fun line =>
             Py.strip line ∈ map employee_id (_employees_list (self w)))
          (stdin w) ->
   (add_employee w).1 = Raise EOFError /\
   self (add_employee w).2 = self w /\ disk (add_employee w).2 = disk w) /\
  (forall this lines line_num employees_data out loaded,
     load_lines this lines line_num employees_data = (out, Return loaded) ->
     NoDup (map employee_id employees_data) ->
     NoDup (map employee_id loaded) /\
     exists more, loaded = employees_data ++ more).
Proof.
  intros Hw. destruct (reachable_inv w Hw) as [Hn _].
  split; [exact Hn|]. split.
  { intros i j a b Ha Hb Hij Hid. apply Hij.
    apply (NoDup_lookup _ i j (employee_id a) Hn);
      change (map employee_id ?l) with (employee_id <$> l);
      rewrite list_lookup_fmap; [rewrite Ha | rewrite Hb, Hid]; reflexivity. }
  split; [intros line; apply check_new_id_rejects|].
  split.
  { pose proof (add_employee_effect w) as H. unfold post in H.
    destruct H as [H|(e & _ & Hf & Hs & Hd)]; [left; exact H | right].
    exists e. split; [|split; assumption].
    intros Hin. apply list_elem_of_fmap in Hin as [x [Hx Hin]].
    rewrite Forall_forall in Hf. exact (Hf x Hin (eq_sym Hx)). }
  split.
  { intros Hall. unfold add_employee, add_employee_with, bind, print, get_self, ask.
    cbn [self disk stdin stdout].
    pose proof (ask_lines_rejected (check_new_id (self w)) (stdin w)) as Hr.
    destruct (ask_lines (check_new_id (self w)) (stdin w)) as [out r].
    cbn [snd] in Hr. rewrite Hr.
    - repeat split.
    - eapply Forall_impl; [exact Hall|]. intros line Hline.
      destruct (check_new_id_rejects (self w) line Hline) as [m [Hm _]].
      exists m. exact Hm. }
  intros this lines line_num data out loaded H Hd.
  destruct (load_lines_inv (fun _ => True) this lines line_num data out loaded)
    as (Hn' & _ & Hmore); auto.
  apply Forall_forall. auto.
Qed.

Lemma employee_ids_distinct_witness :
  reachable sample_world /\
  map employee_id (_employees_list (self sample_world)) = ["BF002"; "BF005"] /\
  NoDup (map employee_id (_employees_list (self sample_world))).
Proof.
  split; [apply main_reachable|].
  split; [vm_compute; reflexivity|].
  apply (employee_ids_distinct sample_world). apply main_reachable.
Defined.

(** C10: in every reachable state the department of every employee is not
    empty after stripping: the validator turns down a blank department, the
    constructor stores the stripped text, and an update stores a stripped
    text that is not empty.  So the report never takes the branch of an
    empty department: the key is the department, stripped and in lower case,
    and the displayed name is the department, stripped. *)
Theorem department_never_blank (w : world) :
  reachable w ->
  Forall (fun e =>
            Py.truthy (Py.strip (department e)) = true /\
            Py.truthy (department e) = true /\
            dept_key_of e = Py.lower (Py.strip (department e)) /\
            dept_display_name_of e = Py.strip (department e))
         (_employees_list (self w)) /\
  (forall department,
     Py.truthy (Py.strip department) = false ->
     is_valid_department_format department
       = (false, "Department cannot be empty.")) /\
  (forall e, constructed e -> Py.truthy (Py.strip (department e)) = true).
Proof.
  intros Hw. destruct (reachable_inv w Hw) as [_ Hd].
  split; [|split].
  - eapply Forall_impl; [exact Hd|]. intros e He. cbn beta in *.
    pose proof (truthy_strip _ He) as Ht.
    unfold dept_key_of, dept_display_name_of. rewrite Ht. repeat split; assumption.
  - intros d Hb. unfold is_valid_department_format. rewrite Hb.
    rewrite orb_true_r. reflexivity.
  - apply constructed_department.
Qed.

Lemma department_never_blank_witness :
  reachable sample_world /\
  map department (_employees_list (self sample_world))
    = ["Sales"; "quality assurance"] /\
  Forall (fun e =>
            Py.truthy (Py.strip (department e)) = true /\
            Py.truthy (department e) = true /\
            dept_key_of e = Py.lower (Py.strip (department e)) /\
            dept_display_name_of e = Py.strip (department e))
         (_employees_list (self sample_world)).
Proof.
  split; [apply main_reachable|].
  split; [vm_compute; reflexivity|].
  apply (department_never_blank sample_world). apply main_reachable.
Defined.

(** ** The menu loop *)

(** No command gives back typed lines. *)
Ltac consumed :=
  cbn [stdin] in *;
  repeat match goal with
         | H : stdin _ = _ |- _ => rewrite H
         end;
  cbn [List.length]; lia.

Lemma commands_consume (w : world) :
  let Q := fun (_ : result unit) (w' : world) =>
             (List.length (stdin w') <= List.length (stdin w))%nat in
  post add_employee w Q /\ post view_employee w Q /\
  post update_employee w Q /\ post delete_employee w Q /\
  post list_all_employees w Q /\ post generate_department_report w Q.
Proof.
  cbn zeta. repeat split.
  - unfold add_employee, add_employee_with. wp. all: consumed.
  - unfold view_employee. wp. all: consumed.
  - unfold update_employee, update_employee_with. wp. all: consumed.
  - unfold delete_employee, delete_employee_with. wp. all: consumed.
  - unfold list_all_employees. wp. all: consumed.
  - unfold generate_department_report. wp. all: consumed.
Qed.

(** A turn that does not end the loop has read at least one line. *)
Lemma menu_turn_consumes (w : world) :
  post menu_turn w (fun r w' =>
    r = Return true -> (List.length (stdin w') < List.length (stdin w))%nat).
Proof.
  destruct (commands_consume
              {| self := self w; disk := disk w; stdin := List.tl (stdin w);
                 stdout := stdout w ++ menu |})
    as (Ha & Hv & Hu & Hd & Hl & Hr).
  unfold menu_turn, menu_turn_with. wp.
  all: try discriminate.
  all: try (intros _; consumed).
  all: match goal with
       | H : stdin _ = _ |- _ => rewrite H in *; cbn [List.tl] in *
       end.
  all: eapply post_weaken;
    [first [exact Ha | exact Hv | exact Hu | exact Hd | exact Hl | exact Hr]|].
  all: intros [[]|[?| |]] w' Hlen; wp; try discriminate; intros _; consumed.
Qed.

(** [run] is the loop: more fuel than typed lines changes nothing. *)
Lemma turns_enough_fuel (fuel extra : nat) (w : world) :
  (List.length (stdin w) < fuel)%nat ->
  turns (fuel + extra) w = turns fuel w.
Proof.
  revert w. induction fuel as [|fuel IH]; intros w Hlen; [lia|].
  cbn [Nat.add]. rewrite !turns_S. unfold bind.
  pose proof (menu_turn_consumes w) as Hc. unfold post in Hc.
  destruct (menu_turn w) as [[[]|e] w1]; cbn [fst snd] in Hc; try reflexivity.
  apply IH. specialize (Hc eq_refl). lia.
Qed.

(** ** Finding an employee, continued *)

Lemma find_index_from_spec (id : string) (l : list Employee) (k : Z) :
  match List.find (same_id id) l with
  | None =>
      find_index_from id l k = -1 /\
      Forall (fun x => employee_id x <> id) l
  | Some e =>
      exists i : nat,
        find_index_from id l k = k + Z.of_nat i /\
        l !! i = Some e /\ employee_id e = id /\
        forall j x, (j < i)%nat -> l !! j = Some x -> employee_id x <> id
  end.
Proof.
  revert k. induction l as [|a l IH]; intros k; simpl.
  - split; [reflexivity | constructor].
  - destruct (same_id id a) eqn:E; unfold same_id in E;
      [apply String.eqb_eq in E | apply String.eqb_neq in E].
    + exists O. rewrite Z.add_0_r. repeat split; [exact E|]. intros j x Hj. lia.
    + specialize (IH (k + 1)).
      destruct (List.find (same_id id) l) as [e|].
      * destruct IH as (i & Hi & Hl & He & Hfirst). exists (S i).
        split; [rewrite Hi; lia|]. split; [exact Hl|]. split; [exact He|].
        intros [|j] x Hj Hx; simpl in Hx; [congruence|].
        apply (Hfirst j x); [lia | exact Hx].
      * destruct IH as [Hi Hl]. split; [exact Hi|]. constructor; assumption.
Qed.

(** X1: the three lookups agree.  When [_find_employee_by_id] finds
    nothing, [_find_employee_index_by_id] is -1, the id counts as unique and
    it is the id of no employee of the list.  When it finds an employee, the
    index is the position of that employee, which has the id asked for, no
    employee before it has that id, and the id does not count as unique. *)
Theorem find_employee_agree (this : EmployeeManagementSystem) (id : string) :
  match _find_employee_by_id this id with
  | None =>
      _find_employee_index_by_id this id = -1 /\
      _is_employee_id_unique this id = true /\
      id ∉ map employee_id (_employees_list this)
  | Some e =>
      exists i : nat,
        _find_employee_index_by_id this id = Z.of_nat i /\
        _employees_list this !! i = Some e /\
        employee_id e = id /\
        _is_employee_id_unique this id = false /\
        forall j x, (j < i)%nat -> _employees_list this !! j = Some x ->
                    employee_id x <> id
  end.
Proof.
  pose proof (find_index_from_spec id (_employees_list this) 0) as H.
  unfold _is_employee_id_unique, _find_employee_index_by_id, _find_employee_by_id.
  destruct (List.find (same_id id) (_employees_list this)) as [e|].
  - destruct H as (i & Hi & Hl & He & Hfirst). exists i.
    repeat split; assumption.
  - destruct H as [Hi Hl]. repeat split; [exact Hi|].
    intros Hin. apply list_elem_of_fmap in Hin as [x [Hx Hin]].
    rewrite Forall_forall in Hl. exact (Hl x Hin (eq_sym Hx)).
Qed.

(** ** How a command ends *)

Lemma check_with_accepted (valid : string -> bool * string) (line : string)
    (a : result string) :
  check_with valid line = inr a ->
  a = Return (Py.strip line) /\ (valid (Py.strip line)).1 = true.
Proof.
  unfold check_with. destruct (valid (Py.strip line)) as [ok msg]; simpl.
  destruct ok; simpl; [|discriminate]. intros [= <-]. split; reflexivity.
Qed.

Lemma check_salary_accepted (line : string) (a : result spec_float) :
  check_salary line = inr a ->
  exists x, a = Return x /\ PyFloat.of_str (Py.strip line) = Some x /\
            PyFloat.ltb x PyFloat.zero = false.
Proof.
  unfold check_salary.
  destruct (is_valid_salary_format (Py.strip line)) as [ok msg] eqn:E; simpl.
  destruct ok; simpl; [|discriminate].
  intros [= <-].
  assert (H : (is_valid_salary_format (Py.strip line)).1 = true)
    by (rewrite E; reflexivity).
  apply is_valid_salary_format_accepts in H as [_ (x & Hx & Hl)].
  exists x. unfold float_of_salary. rewrite Hx. auto.
Qed.

(** A salary text that passed the validator is read by [float]. *)
Lemma float_of_salary_valid (s : string) (e : exn) :
  (is_valid_salary_format s).1 = true ->
  float_of_salary (SalaryStr s) = Raise e -> False.
Proof.
  intros H.
  apply is_valid_salary_format_accepts in H as [_ (x & Hx & _)].
  unfold float_of_salary. rewrite Hx. discriminate.
Qed.

(** The branches of a command that are never taken: an input loop is left
    with a value, the index that was found is in the list, and a validated
    salary text is a number. *)
Ltac never_raised :=
  exfalso;
  match goal with
  | H : check_new_id _ _ = inr (Raise _) |- _ =>
      apply check_new_id_accepted in H as [[=] _]
  | H : check_with _ _ = inr (Raise _) |- _ =>
      apply check_with_accepted in H as [[=] _]
  | H : check_salary _ = inr (Raise _) |- _ =>
      apply check_salary_accepted in H as (? & [=] & _)
  | Hb : (_find_employee_index_by_id ?s ?id =? -1) = false,
    Hn : _ !! Z.to_nat (_find_employee_index_by_id ?s ?id) = None |- _ =>
      apply Z.eqb_neq in Hb;
      destruct (find_index_from_found id (_employees_list s) 0
                  (_find_employee_index_by_id s id)
                  eq_refl Hb (Z.le_refl 0)) as [_ [x [Hx _]]];
      rewrite Z.sub_0_r in Hx; congruence
  | H : float_of_salary (SalaryStr ?s) = Raise _,
    Hv : true && negb (is_valid_salary_format ?s).1 = false |- _ =>
      simpl in Hv; apply negb_false_iff in Hv;
      exact (float_of_salary_valid s _ Hv H)
  end.

Ltac ends_well :=
  first [ left; reflexivity
        | right; split; [reflexivity|]; cbn [stdin];
          first [reflexivity | assumption]
        | never_raised ].

Lemma commands_end (w : world) :
  let Q := fun (r : result unit) (w' : world) =>
             r = Return tt \/ (r = Raise EOFError /\ stdin w' = []) in
  post add_employee w Q /\ post view_employee w Q /\
  post update_employee w Q /\ post delete_employee w Q /\
  post list_all_employees w Q /\ post generate_department_report w Q.
Proof.
  cbn zeta. repeat split.
  - unfold add_employee, add_employee_with. wp. all: ends_well.
  - unfold view_employee. wp. all: ends_well.
  - unfold update_employee, update_employee_with. wp. all: ends_well.
  - unfold delete_employee, delete_employee_with. wp. all: ends_well.
  - unfold list_all_employees. wp. all: ends_well.
  - unfold generate_department_report. wp. all: ends_well.
Qed.

(** X2: each of the six commands of the menu returns, or raises [EOFError]
    with no typed line left.  No [ValueError] and no [IndexError] leaves a
    command: an input loop is left only with a validated value, the employee
    at an index that was found is there, and [float] reads a salary text that
    the validator has accepted. *)
Theorem commands_raise_only_eof (w : world) :
  let Q := fun (r : result unit) (w' : world) =>
             r = Return tt \/ (r = Raise EOFError /\ stdin w' = []) in
  post add_employee w Q /\ post view_employee w Q /\
  post update_employee w Q /\ post delete_employee w Q /\
  post list_all_employees w Q /\ post generate_department_report w Q.
Proof. exact (commands_end w). Qed.

(** ** How the program ends *)

(** One turn of the menu goes on, or it has saved the list and said
    goodbye, or the input ended at the menu prompt. *)
Lemma menu_turn_outcome (w : world) :
  post menu_turn w (fun r w' =>
    r = Return true \/
    (r = Return false /\ last (stdout w') = Some (Text "Goodbye!") /\
     disk w' = Some (_save_employees (self w'))) \/
    (r = Raise EOFError /\ stdin w' = [])).
Proof.
  destruct (commands_end
              {| self := self w; disk := disk w; stdin := List.tl (stdin w);
                 stdout := stdout w ++ menu |})
    as (Ha & Hv & Hu & Hd & Hl & Hr).
  unfold menu_turn, menu_turn_with. wp.
  all: try (left; reflexivity).
  all: try (right; right; split; [reflexivity | assumption]).
  all: try (right; left; split; [reflexivity|];
            split; [cbn [stdout]; apply last_snoc | reflexivity]).
  all: match goal with
       | H : stdin _ = _ |- _ => rewrite H in *; cbn [List.tl] in *
       end.
  all: eapply post_weaken;
    [first [exact Ha | exact Hv | exact Hu | exact Hd | exact Hl | exact Hr]|].
  all: intros r w' [->|[-> Hs]]; wp.
  all: try (left; reflexivity).
  all: right; left; split; [reflexivity|];
    split; [cbn [stdout]; apply last_snoc | reflexivity].
Qed.

Lemma turns_outcome (fuel : nat) (w : world) :
  (List.length (stdin w) < fuel)%nat ->
  ((turns fuel w).1 = Return tt /\
   last (stdout (turns fuel w).2) = Some (Text "Goodbye!") /\
   disk (turns fuel w).2 = Some (_save_employees (self (turns fuel w).2))) \/
  ((turns fuel w).1 = Raise EOFError /\ stdin (turns fuel w).2 = []).
Proof.
  revert w. induction fuel as [|fuel IH]; intros w Hlen; [lia|].
  rewrite turns_S. unfold bind.
  pose proof (menu_turn_consumes w) as Hc.
  pose proof (menu_turn_outcome w) as Ho. unfold post in Hc, Ho.
  destruct (menu_turn w) as [[[]|e] w1]; cbn [fst snd] in *.
  - apply IH. specialize (Hc eq_refl). lia.
  - destruct Ho as [Ho|[(_ & Hg & Hd)|[Ho _]]]; try discriminate.
    left. split; [reflexivity | split; assumption].
  - destruct Ho as [Ho|[[Ho _]|[Ho Hs]]]; try discriminate.
    injection Ho as ->. right. split; [reflexivity | exact Hs].
Qed.

Lemma run_outcome (w : world) :
  ((run w).1 = Return tt /\
   last (stdout (run w).2) = Some (Text "Goodbye!") /\
   disk (run w).2 = Some (_save_employees (self (run w).2))) \/
  ((run w).1 = Raise EOFError /\ stdin (run w).2 = []).
Proof.
  unfold run, run_with, bind, print. cbn [fst snd].
  apply turns_outcome. cbn [stdin]. lia.
Qed.

(** X3: [run] ends, for every list of typed lines: the loop needs at most
    one turn more than there are lines.  It returns after it has saved the
    list and printed the goodbye line, the backing file then being the text
    that [_save_employees] writes for the final list (choice 7, or the end of
    the input inside a command); or the input ends at the menu prompt and
    [EOFError] leaves [run].  The handler for other exceptions never ends
    the program. *)
Theorem run_ends_saved_or_at_eof (w : world) :
  (forall extra : nat,
     turns (S (List.length (stdin w)) + extra)
           (print (Text (Py.newline
              +:+ "Welcome to the BitFutura Employee Management System")) w).2
     = run w) /\
  (((run w).1 = Return tt /\
    last (stdout (run w).2) = Some (Text "Goodbye!") /\
    disk (run w).2 = Some (_save_employees (self (run w).2))) \/
   ((run w).1 = Raise EOFError /\ stdin (run w).2 = [])).
Proof.
  split.
  - intros extra. unfold run, run_with, bind, print. cbn [fst snd stdin].
    apply turns_enough_fuel. cbn [stdin]. lia.
  - apply run_outcome.
Qed.

(** ** Nothing that was changed is lost *)

Lemma menu_turn_durable (w : world) :
  post menu_turn w (fun _ w' =>
    disk w' = Some (_save_employees (self w')) \/
    (self w' = self w /\ disk w' = disk w)).
Proof.
  unfold menu_turn, menu_turn_with. wp.
  all: try (left; reflexivity).
  all: try (right; split; reflexivity).
  - eapply post_weaken; [apply add_employee_effect|]. after_command.
    all: try (left; reflexivity).
    all: cbn [self disk] in *;
      destruct Heff as [Heff|(e & _ & _ & _ & Heff)]; [right | left]; exact Heff.
  - eapply post_weaken; [apply view_employee_effect|]. after_command.
    all: try (left; reflexivity). all: right; exact Heff.
  - eapply post_weaken; [apply update_employee_effect|]. after_command.
    all: try (left; reflexivity).
    all: cbn [self disk] in *;
      destruct Heff as [[_ Heff]|(_ & i & old & new & typed & _ & _ & _ & _ & Heff)];
      [right | left]; exact Heff.
  - eapply post_weaken; [apply delete_employee_effect|]. after_command.
    all: try (left; reflexivity).
    all: cbn [self disk] in *;
      destruct Heff as [Heff|(i & _ & Heff)]; [right | left]; exact Heff.
  - eapply post_weaken; [apply list_all_employees_effect|]. after_command.
    all: try (left; reflexivity). all: right; exact Heff.
  - eapply post_weaken; [apply generate_department_report_effect|]. after_command.
    all: try (left; reflexivity). all: right; exact Heff.
Qed.

Lemma turns_durable (fuel : nat) (w : world) :
  disk (turns fuel w).2 = Some (_save_employees (self (turns fuel w).2)) \/
  (self (turns fuel w).2 = self w /\ disk (turns fuel w).2 = disk w).
Proof.
  revert w. induction fuel as [|fuel IH]; intros w; try rewrite turns_S.
  - right. split; reflexivity.
  - unfold bind. pose proof (menu_turn_durable w) as Hd. unfold post in Hd.
    destruct (menu_turn w) as [[[]|e] w1]; cbn [fst snd] in *; try exact Hd.
    destruct (IH w1) as [H|[Hs Hk]]; [left; exact H|].
    destruct Hd as [Hd|[Hd1 Hd2]].
    + left. rewrite Hs, Hk. exact Hd.
    + right. split; congruence.
Qed.

Lemma run_durable (w : world) :
  disk (run w).2 = Some (_save_employees (self (run w).2)) \/
  (self (run w).2 = self w /\ disk (run w).2 = disk w).
Proof.
  unfold run, run_with, bind, print. cbn [fst snd].
  match goal with
  | |- context [turns_with no_fault ?f ?v] =>
      destruct (turns_durable f v) as [H|H]
  end; [left | right]; exact H.
Qed.

(** ** Writes that fail *)

Section SameCourse.
Variable R : world -> world -> Prop.

Lemma same_course_bind {A B} (m m' : M A) (k k' : A -> M B) :
  same_course R m m' -> (forall a, same_course R (k a) (k' a)) ->
  same_course R (bind m k) (bind m' k').
Proof.
  intros Hm Hk w v Hwv. unfold bind.
  destruct (Hm w v Hwv) as [Hr Hs].
  destruct (m w) as [[a|e] w1], (m' v) as [[a'|e'] v1]; cbn [fst snd] in *;
    try discriminate.
  - injection Hr as <-. apply Hk, Hs.
  - injection Hr as <-. split; [reflexivity | exact Hs].
Qed.

Lemma same_course_catch {A} (m m' : M A) (h h' : exn -> M A) :
  same_course R m m' -> (forall e, same_course R (h e) (h' e)) ->
  same_course R (catch m h) (catch m' h').
Proof.
  intros Hm Hh w v Hwv. unfold catch.
  destruct (Hm w v Hwv) as [Hr Hs].
  destruct (m w) as [[a|e] w1], (m' v) as [[a'|e'] v1]; cbn [fst snd] in *;
    try discriminate.
  - injection Hr as <-. split; [reflexivity | exact Hs].
  - injection Hr as <-. apply Hh, Hs.
Qed.

Lemma same_course_pure {A} (r : result A) :
  same_course R (fun w => (r, w)) (fun w => (r, w)).
Proof. intros w v Hwv. split; [reflexivity | exact Hwv]. Qed.

End SameCourse.

Lemma eq_respected : steps_respect eq.
Proof.
  unfold steps_respect, same_course.
  repeat split; intros; subst; reflexivity.
Qed.

Lemma alike_respected : steps_respect alike.
Proof.
  unfold steps_respect, same_course, alike.
  split; [|split; [|split; [|split; [|split]]]].
  - intros m w v [Hs Hi]. repeat split; cbn; auto.
  - intros ms w v [Hs Hi]. repeat split; cbn; auto.
  - intros w v [Hs Hi]. unfold input. rewrite Hi.
    destruct (stdin v) eqn:Ev; repeat split; cbn; congruence.
  - intros w v [Hs Hi]. unfold get_self. cbn [fst snd]. rewrite Hs.
    repeat split; assumption.
  - intros l w v [Hs Hi]. unfold set_employees_list. cbn [fst snd self stdin].
    rewrite Hs. repeat split; assumption.
  - intros A check w v [Hs Hi]. unfold ask. rewrite Hi.
    destruct (ask_lines check (stdin v)) as [out [[a rest]|]];
      repeat split; cbn; auto.
Qed.

Section Commands.
Variable R : world -> world -> Prop.
Hypothesis steps : steps_respect R.
Variable faults : world -> write_outcome.
Variable faults' : world -> write_outcome.
Hypothesis writes : same_course R (save_with faults) (save_with faults').

Ltac same_step :=
  lazymatch goal with
  | |- same_course _ (bind _ _) (bind _ _) =>
      apply same_course_bind; [|intros ?]
  | |- same_course _ (catch _ _) (catch _ _) =>
      apply same_course_catch; [|intros ?]
  | |- same_course _ (save_with _) (save_with _) => exact writes
  | |- same_course _ (print _) _ => apply steps
  | |- same_course _ (print_all _) _ => apply steps
  | |- same_course _ input _ => apply steps
  | |- same_course _ get_self _ => apply steps
  | |- same_course _ (set_employees_list _) _ => apply steps
  | |- same_course _ (ask _) _ => apply steps
  | |- same_course _ (ret _) _ => apply same_course_pure
  | |- same_course _ (raise _) _ => apply same_course_pure
  | |- same_course _ (fun w => (_, w)) _ => apply same_course_pure
  | |- same_course _ input_stripped _ => unfold input_stripped
  | |- same_course _ (item _ _) _ => unfold item
  | |- same_course _ (goodbye_with _) _ => unfold goodbye_with
  | |- same_course _ (match ?x with _ => _ end) _ => destruct x
  end.

Lemma add_employee_same_course :
  same_course R (add_employee_with faults) (add_employee_with faults').
Proof. unfold add_employee_with. repeat same_step. Qed.

Lemma view_employee_same_course : same_course R view_employee view_employee.
Proof. unfold view_employee. repeat same_step. Qed.

Lemma update_employee_same_course :
  same_course R (update_employee_with faults) (update_employee_with faults').
Proof. unfold update_employee_with. repeat same_step. Qed.

Lemma delete_employee_same_course :
  same_course R (delete_employee_with faults) (delete_employee_with faults').
Proof. unfold delete_employee_with. repeat same_step. Qed.

Lemma list_all_employees_same_course :
  same_course R list_all_employees list_all_employees.
Proof. unfold list_all_employees. repeat same_step. Qed.

Lemma generate_department_report_same_course :
  same_course R generate_department_report generate_department_report.
Proof. unfold generate_department_report. repeat same_step. Qed.

Lemma menu_turn_same_course :
  same_course R (menu_turn_with faults) (menu_turn_with faults').
Proof.
  unfold menu_turn_with. repeat same_step.
  all: first [ apply add_employee_same_course | apply view_employee_same_course
             | apply update_employee_same_course
             | apply delete_employee_same_course
             | apply list_all_employees_same_course
             | apply generate_department_report_same_course ].
Qed.

Lemma turns_same_course (fuel : nat) :
  same_course R (turns_with faults fuel) (turns_with faults' fuel).
Proof.
  induction fuel as [|fuel IH]; cbn [turns_with]; [apply same_course_pure|].
  apply same_course_bind; [apply menu_turn_same_course|].
  intros []; [exact IH | apply same_course_pure].
Qed.

End Commands.

(** *** When no write fails *)

Lemma save_with_written (faults : world -> write_outcome) :
  (forall v, faults v = Written) ->
  same_course eq (save_with faults) (save_with no_fault).
Proof.
  intros H w v <-. unfold save_with, no_fault. rewrite H. split; reflexivity.
Qed.

Lemma run_with_written (faults : world -> write_outcome) (w : world) :
  (forall v, faults v = Written) -> run_with faults w = run w.
Proof.
  intros H. unfold run, run_with, bind, print. cbn [fst snd stdin].
  match goal with
  | |- turns_with _ ?f ?v = _ =>
      destruct (turns_same_course eq eq_respected faults no_fault
                  (save_with_written faults H) f v v eq_refl) as [Hr Hs]
  end.
  apply injective_projections; assumption.
Qed.

(** *** When a write fails *)

Lemma save_with_alike (faults faults' : world -> write_outcome) :
  same_course alike (save_with faults) (save_with faults').
Proof.
  intros w v [Hs Hi]. unfold save_with.
  destruct (faults w), (faults' v); repeat split; cbn; assumption.
Qed.

Lemma run_with_alike (faults : world -> write_outcome) (w : world) :
  (run_with faults w).1 = (run w).1 /\ alike (run_with faults w).2 (run w).2.
Proof.
  unfold run, run_with, bind, print. cbn [fst snd stdin].
  match goal with
  | |- (turns_with _ ?f ?v).1 = _ /\ _ =>
      apply (turns_same_course alike alike_respected faults no_fault
               (save_with_alike faults no_fault) f v v)
  end.
  split; reflexivity.
Qed.

(** X4: nothing that was changed is lost, as long as no write fails.  When
    every write to the backing file succeeds then, however [run] ends, the
    file is the text that [_save_employees] writes for the final list, or
    neither the list nor the file has changed since [run] began.  A write
    that fails is reported and not rolled back: whatever the writes do,
    [run] ends in the same way, with the same list and the same lines read,
    as it does when they all succeed.  So, when every [open] is refused, the
    session that adds two employees, updates one and leaves returns with
    both in the list, four reports of the fault on the screen, and still no
    file. *)
Theorem run_saves_every_change (faults : world -> write_outcome) (w : world) :
  let w' := (run_with faults w).2 in
  ((forall v, faults v = Written) ->
   disk w' = Some (_save_employees (self w')) \/
   (self w' = self w /\ disk w' = disk w)) /\
  (run_with faults w).1 = (run w).1 /\
  self w' = self (run w).2 /\
  stdin w' = stdin (run w).2 /\
  let refused :=
    run_with open_denied
      (boot FILE_NAME DELIMITER EMPLOYEE_KEYS None restart_session) in
  refused.1 = Return tt /\
  map employee_id (_employees_list (self refused.2)) = ["BF001"; "BF002"] /\
  disk refused.2 = None /\
  write_failures (stdout refused.2) =
    List.repeat
      (Text ("An I/O error occurred while saving data to employees.csv: "
             +:+ "[Errno 13] Permission denied")) 4.
Proof.
  intros w'. split.
  { intros H. subst w'. rewrite (run_with_written faults w H). apply run_durable. }
  destruct (run_with_alike faults w) as (Hr & Hs & Hi).
  repeat split; try assumption; vm_compute; reflexivity.
Qed.

Lemma run_saves_every_change_witness :
  disk (run_with no_fault (boot FILE_NAME DELIMITER EMPLOYEE_KEYS None
                                restart_session)).2
  = Some ("Employee ID,Name,Department,Salary,Email,Contact Details" +:+ Py.newline
          +:+ "BF001,Alice Smith,Engineering,75000.50,alice.s@bitfutura.test,123-456-7890"
          +:+ Py.newline
          +:+ "BF002,Bob Johnson,Sales,61000.13,bob.j@bitfutura.test,987-654-3210"
          +:+ Py.newline).
Proof.
  destruct (run_saves_every_change no_fault
              (boot FILE_NAME DELIMITER EMPLOYEE_KEYS None restart_session))
    as [H _].
  destruct (H (fun v => eq_refl)) as [Hd|[Hs _]].
  - rewrite Hd. vm_compute. reflexivity.
  - vm_compute in Hs. discriminate Hs.
Defined.

(** ** The patterns of the validators *)

Lemma matches_Empty (s : string) : Py.matches Py.Empty s = false.
Proof. induction s as [|c s IH]; [reflexivity | exact IH]. Qed.

Lemma matches_Alt (r1 r2 : Py.regex) (s : string) :
  Py.matches (Py.Alt r1 r2) s = Py.matches r1 s || Py.matches r2 s.
Proof.
  revert r1 r2. induction s as [|c s IH]; intros r1 r2; [reflexivity|].
  simpl. apply IH.
Qed.

Lemma matches_Cat_Empty (r : Py.regex) (s : string) :
  Py.matches (Py.Cat Py.Empty r) s = false.
Proof. induction s as [|c s IH]; [reflexivity | exact IH]. Qed.

Lemma matches_Cat_Eps (r : Py.regex) (s : string) :
  Py.matches (Py.Cat Py.Eps r) s = Py.matches r s.
Proof.
  destruct s as [|c s]; [reflexivity|]. simpl.
  rewrite matches_Alt, matches_Cat_Empty. reflexivity.
Qed.

Lemma matches_Class (p : ascii -> bool) (s : string) :
  Py.matches (Py.Class p) s = true <-> exists c, s = String c EmptyString /\ p c = true.
Proof.
  destruct s as [|c s]; simpl.
  - split; [discriminate | intros (c & [=] & _)].
  - destruct (p c) eqn:E.
    + destruct s as [|d s]; simpl.
      * split; [exists c; auto | reflexivity].
      * rewrite matches_Empty. split; [discriminate | intros (x & [=] & _)].
    + rewrite matches_Empty. split; [discriminate|].
      intros (x & [= <- _] & Hx). congruence.
Qed.

Lemma matches_Star_Class (p : ascii -> bool) (s : string) :
  Py.matches (Py.Star (Py.Class p)) s = Py.forallb_str p s.
Proof.
  induction s as [|c s IH]; [reflexivity|]. simpl.
  destruct (p c); simpl; [rewrite matches_Cat_Eps; exact IH|].
  apply matches_Cat_Empty.
Qed.

(** [[class]+] matches the strings that are not empty and made of
    characters of the class. *)
Lemma matches_Plus_Class (p : ascii -> bool) (s : string) :
  Py.matches (Py.Plus (Py.Class p)) s = Py.truthy s && Py.forallb_str p s.
Proof.
  destruct s as [|c s]; [reflexivity|]. simpl.
  destruct (p c); simpl; [|apply matches_Cat_Empty].
  rewrite matches_Cat_Eps. apply matches_Star_Class.
Qed.

(** A concatenation matches the strings that split into a match of each
    part. *)
Lemma matches_Cat (r1 r2 : Py.regex) (s : string) :
  Py.matches (Py.Cat r1 r2) s = true <->
  exists s1 s2, s = s1 +:+ s2 /\
    Py.matches r1 s1 = true /\ Py.matches r2 s2 = true.
Proof.
  revert r1 r2. induction s as [|c s IH]; intros r1 r2.
  - simpl. rewrite andb_true_iff. split.
    + intros [H1 H2]. exists EmptyString, EmptyString. auto.
    + intros (s1 & s2 & Hs & H1 & H2).
      destruct s1; [|discriminate]. destruct s2; [|discriminate]. auto.
  - simpl. assert (Hcat : Py.matches (Py.Cat (Py.deriv c r1) r2) s = true <->
      exists s1 s2, String c s = String c s1 +:+ s2 /\
        Py.matches r1 (String c s1) = true /\ Py.matches r2 s2 = true).
    { rewrite IH. split; intros (s1 & s2 & Hs & H1 & H2); exists s1, s2.
      - subst s. auto.
      - injection Hs as ->. auto. }
    destruct (Py.nullable r1) eqn:En.
    + rewrite matches_Alt, orb_true_iff, Hcat. split.
      * intros [(s1 & s2 & Hs & H1 & H2)|H].
        -- exists (String c s1), s2. auto.
        -- exists EmptyString, (String c s). auto.
      * intros (s1 & s2 & Hs & H1 & H2). destruct s1 as [|d s1].
        -- right. change (String c s = s2) in Hs. subst s2. exact H2.
        -- left. injection Hs as <- ->. exists s1, s2. auto.
    + rewrite Hcat. split.
      * intros (s1 & s2 & Hs & H1 & H2). exists (String c s1), s2. auto.
      * intros (s1 & s2 & Hs & H1 & H2). destruct s1 as [|d s1].
        -- simpl in H1. congruence.
        -- injection Hs as <- ->. exists s1, s2. auto.
Qed.

(** ** What the validators of names, departments and emails accept *)

Lemma strip_blank_empty (s : string) :
  Py.truthy s = false -> Py.truthy (Py.strip s) = false.
Proof. intros H. apply truthy_false in H. subst s. reflexivity. Qed.

Lemma is_valid_name_format_chars (s : string) :
  (is_valid_name_format s).1 = true <->
  Py.truthy (Py.strip s) = true /\
  Py.forallb_str name_class (Py.strip s) = true.
Proof.
  unfold is_valid_name_format, Py.re_fullmatch, name_pattern.
  rewrite matches_Plus_Class.
  destruct (Py.truthy s) eqn:Hs; simpl.
  - destruct (Py.truthy (Py.strip s)); simpl.
    + destruct (Py.forallb_str name_class (Py.strip s)); simpl; intuition congruence.
    + split; [discriminate | intros [[=] _]].
  - rewrite (strip_blank_empty s Hs). split; [discriminate | intros [[=] _]].
Qed.

Lemma is_valid_department_format_chars (s : string) :
  (is_valid_department_format s).1 = true <->
  Py.truthy (Py.strip s) = true /\
  Py.forallb_str department_class (Py.strip s) = true.
Proof.
  unfold is_valid_department_format, Py.re_fullmatch, department_pattern.
  rewrite matches_Plus_Class.
  destruct (Py.truthy s) eqn:Hs; simpl.
  - destruct (Py.truthy (Py.strip s)); simpl.
    + destruct (Py.forallb_str department_class (Py.strip s)); simpl;
        intuition congruence.
    + split; [discriminate | intros [[=] _]].
  - rewrite (strip_blank_empty s Hs). split; [discriminate | intros [[=] _]].
Qed.

(** X5: what the validators of names and departments accept, without the
    pattern: the texts that, stripped, are not empty and consist of ASCII
    letters and spaces, for a department also of digits and hyphens. *)
Theorem name_and_department_accepted (s : string) :
  ((is_valid_name_format s).1 = true <->
   Py.truthy (Py.strip s) = true /\
   Py.forallb_str name_class (Py.strip s) = true) /\
  ((is_valid_department_format s).1 = true <->
   Py.truthy (Py.strip s) = true /\
   Py.forallb_str department_class (Py.strip s) = true).
Proof.
  split; [apply is_valid_name_format_chars | apply is_valid_department_format_chars].
Qed.

(** A stripped string does not end with a newline. *)
Lemma rstrip_fixed_no_final_newline (t : string) :
  Py.rstrip_with Py.isspace_char t = t -> Py.drop_final_newline t = None.
Proof.
  induction t as [|c r IH]; [reflexivity|]. intros H.
  destruct r as [|d r'].
  - simpl in H. simpl. destruct (Ascii.eqb_spec c Py.LF) as [->|_]; [|reflexivity].
    discriminate H.
  - assert (Hr : Py.rstrip_with Py.isspace_char (String d r') = String d r').
    { change (Py.rstrip_with Py.isspace_char (String c (String d r')))
        with (match Py.rstrip_with Py.isspace_char (String d r') with
              | EmptyString =>
                  if Py.isspace_char c then EmptyString else String c EmptyString
              | r0 => String c r0
              end) in H.
      destruct (Py.rstrip_with Py.isspace_char (String d r')).
      - destruct (Py.isspace_char c); discriminate H.
      - congruence. }
    change (Py.drop_final_newline (String c (String d r')))
      with (match Py.drop_final_newline (String d r') with
            | Some x => Some (String c x)
            | None => None
            end).
    rewrite (IH Hr). reflexivity.
Qed.

Lemma strip_no_final_newline (s : string) :
  Py.drop_final_newline (Py.strip s) = None.
Proof. apply rstrip_fixed_no_final_newline, rstrip_idempotent. Qed.

Lemma matches_Chr (c : ascii) (s : string) :
  Py.matches (Py.Chr c) s = true <-> s = String c EmptyString.
Proof.
  unfold Py.Chr. rewrite matches_Class. split.
  - intros (d & -> & Hd). apply Ascii.eqb_eq in Hd. subst d. reflexivity.
  - intros ->. exists c. split; [reflexivity | apply Ascii.eqb_refl].
Qed.

(** A word: at least one character, none of them whitespace. *)
Lemma matches_word (s : string) :
  Py.matches (Py.Plus (Py.Class non_space)) s = true <->
  Py.truthy s = true /\ Py.forallb_str non_space s = true.
Proof. rewrite matches_Plus_Class. apply andb_true_iff. Qed.

(** The strings that match the pattern of emails: a word, [@], a word, a
    dot and a word. *)
Lemma re_match_email_pattern (s : string) :
  Py.re_match_anchored email_pattern (Py.strip s) = true <->
  exists a b c : string,
    Py.strip s = a +:+ "@" +:+ b +:+ "." +:+ c /\
    (Py.truthy a = true /\ Py.forallb_str non_space a = true) /\
    (Py.truthy b = true /\ Py.forallb_str non_space b = true) /\
    (Py.truthy c = true /\ Py.forallb_str non_space c = true).
Proof.
  unfold Py.re_match_anchored. rewrite strip_no_final_newline, orb_false_r.
  unfold email_pattern. rewrite matches_Cat. split.
  - intros (a & r1 & H & Ha & H1). apply matches_Cat in H1 as (x & r2 & -> & Hx & H2).
    apply matches_Cat in H2 as (b & r3 & -> & Hb & H3).
    apply matches_Cat in H3 as (y & c & -> & Hy & Hc).
    apply matches_Chr in Hx, Hy. subst x y.
    exists a, b, c. rewrite <- !matches_word. auto.
  - intros (a & b & c & H & Ha & Hb & Hc). rewrite <- matches_word in Ha, Hb, Hc.
    exists a, ("@" +:+ b +:+ "." +:+ c). split; [exact H|]. split; [exact Ha|].
    apply matches_Cat. exists "@"%string, (b +:+ "." +:+ c).
    split; [reflexivity|]. split; [apply matches_Chr; reflexivity|].
    apply matches_Cat. exists b, ("." +:+ c). split; [reflexivity|].
    split; [exact Hb|].
    apply matches_Cat. exists "."%string, c. split; [reflexivity|].
    split; [apply matches_Chr; reflexivity | exact Hc].
Qed.

Lemma is_valid_email_format_match (s : string) :
  (is_valid_email_format s).1 = true <->
  Py.re_match_anchored email_pattern (Py.strip s) = true.
Proof.
  unfold is_valid_email_format.
  destruct (Py.truthy s) eqn:Hs; simpl.
  - destruct (Py.truthy (Py.strip s)) eqn:Ht; simpl.
    + destruct (Py.re_match_anchored email_pattern (Py.strip s)); simpl;
        intuition congruence.
    + split; [discriminate|]. intros H.
      apply truthy_false in Ht. rewrite Ht in H. discriminate H.
  - split; [discriminate|]. intros H.
    apply truthy_false in Hs. subst s. discriminate H.
Qed.

(** X6: what the validator of emails accepts: the texts that, stripped,
    are a word, [@], a word, a dot and a word, where a word is at least one
    character and has no whitespace.  A newline at the end is stripped
    before the pattern is tried, so that the end anchor never meets one. *)
Theorem email_accepted (s : string) :
  (is_valid_email_format s).1 = true <->
  exists a b c : string,
    Py.strip s = a +:+ "@" +:+ b +:+ "." +:+ c /\
    (Py.truthy a = true /\ Py.forallb_str non_space a = true) /\
    (Py.truthy b = true /\ Py.forallb_str non_space b = true) /\
    (Py.truthy c = true /\ Py.forallb_str non_space c = true).
Proof.
  rewrite is_valid_email_format_match. apply re_match_email_pattern.
Qed.

(** ** Salaries written with two decimals *)

Lemma forallb_str_app (p : ascii -> bool) (s t : string) :
  Py.forallb_str p (s +:+ t) = Py.forallb_str p s && Py.forallb_str p t.
Proof.
  induction s as [|c s IH]; [reflexivity|].
  change (String c s +:+ t) with (String c (s +:+ t)). simpl.
  rewrite IH, andb_assoc. reflexivity.
Qed.

Lemma string_of_uint_digits (d : Decimal.uint) :
  Py.forallb_str Py.isdigit_ascii (NilEmpty.string_of_uint d) = true.
Proof. induction d; simpl; try rewrite IHd; reflexivity. Qed.

Lemma string_of_Z_digits (n : Z) :
  Py.truthy (PyFloat.string_of_Z n) = true /\
  Py.forallb_str Py.isdigit_ascii (PyFloat.string_of_Z n) = true.
Proof.
  unfold PyFloat.string_of_Z, NilZero.string_of_uint.
  pose proof (string_of_uint_digits (N.to_uint (Z.to_N n))) as H.
  destruct (N.to_uint (Z.to_N n)); split; (reflexivity || exact H).
Qed.

Lemma digit_facts (c : ascii) :
  Py.isdigit_ascii c = true ->
  salary_char c = true /\
  Ascii.eqb c "-" = false /\ Ascii.eqb c "+" = false /\
  Ascii.eqb c "." = false /\
  Ascii.eqb (PyFloat.ascii_lower_char c) "i" = false /\
  Ascii.eqb (PyFloat.ascii_lower_char c) "n" = false.
Proof.
  destruct c as [[] [] [] [] [] [] [] []]; vm_compute; intuition congruence.
Qed.

Lemma salary_char_facts (c : ascii) :
  salary_char c = true ->
  PyFloat.float_space c = false /\ PyFloat.is_underscore c = false /\
  Py.isspace_char c = false /\ Ascii.eqb c "," = false /\
  Ascii.eqb c Py.LF = false /\ Ascii.eqb c Py.CR = false.
Proof.
  destruct c as [[] [] [] [] [] [] [] []]; vm_compute; intuition congruence.
Qed.

Lemma digits_salary_chars (s : string) :
  Py.forallb_str Py.isdigit_ascii s = true -> Py.forallb_str salary_char s = true.
Proof. apply forallb_str_impl. intros c Hc. apply digit_facts, Hc. Qed.

(** The shape of a salary written with two decimals. *)
Lemma format_2f_shape (s : bool) (m : positive) (e : Z) :
  exists D1 D2 : string,
    PyFloat.format_2f (S754_finite s m e)
      = PyFloat.sign_str s +:+ D1 +:+ "." +:+ D2 /\
    Py.truthy D1 = true /\ Py.forallb_str Py.isdigit_ascii D1 = true /\
    Py.forallb_str Py.isdigit_ascii D2 = true.
Proof.
  unfold PyFloat.format_2f.
  set (k := if 0 <=? e then _ else _).
  exists (PyFloat.string_of_Z (k / 100)),
    (PyFloat.string_of_Z (k mod 100 / 10) +:+ PyFloat.string_of_Z (k mod 10)).
  split; [reflexivity|].
  split; [apply string_of_Z_digits|]. split; [apply string_of_Z_digits|].
  rewrite forallb_str_app.
  rewrite (proj2 (string_of_Z_digits _)), (proj2 (string_of_Z_digits _)).
  reflexivity.
Qed.

Lemma format_2f_chars (x : spec_float) :
  Py.forallb_str salary_char (PyFloat.format_2f x) = true.
Proof.
  destruct x as [s|s| |s m e];
    [destruct s; reflexivity | destruct s; reflexivity | reflexivity |].
  destruct (format_2f_shape s m e) as (D1 & D2 & -> & _ & H1 & H2).
  rewrite !forallb_str_app, (digits_salary_chars _ H1), (digits_salary_chars _ H2).
  destruct s; reflexivity.
Qed.

Lemma digits_prefix_app (D s : string) (acc : Z) (n : nat) :
  Py.forallb_str Py.isdigit_ascii D = true ->
  exists acc', PyFloat.digits_prefix (D +:+ s) acc n
               = PyFloat.digits_prefix s acc' (String.length D + n)%nat.
Proof.
  revert acc n. induction D as [|c D IH]; intros acc n H.
  - exists acc. reflexivity.
  - simpl in H. apply andb_prop in H as [Hc HD].
    change (String c D +:+ s) with (String c (D +:+ s)).
    cbn [PyFloat.digits_prefix]. rewrite Hc.
    destruct (IH (acc * 10 + PyFloat.digit_value c) (S n) HD) as [acc' ->].
    exists acc'. cbn [String.length]. f_equal. lia.
Qed.

Lemma append_assoc (a b c : string) : (a +:+ b) +:+ c = a +:+ b +:+ c.
Proof.
  induction a as [|x a IH]; [reflexivity|].
  change ((String x a +:+ b) +:+ c) with (String x ((a +:+ b) +:+ c)).
  rewrite IH. reflexivity.
Qed.

Lemma append_empty_r (s : string) : s +:+ EmptyString = s.
Proof.
  induction s as [|c s IH]; [reflexivity|].
  change (String c s +:+ EmptyString) with (String c (s +:+ EmptyString)).
  rewrite IH. reflexivity.
Qed.

Lemma parse_number_decimal (neg : bool) (D1 D2 : string) :
  Py.truthy D1 = true ->
  Py.forallb_str Py.isdigit_ascii D1 = true ->
  Py.forallb_str Py.isdigit_ascii D2 = true ->
  exists mant : Z,
    PyFloat.parse_number neg (D1 +:+ "." +:+ D2)
      = Some (PyFloat.of_decimal neg mant (- Z.of_nat (String.length D2 + 0))).
Proof.
  intros Ht H1 H2. unfold PyFloat.parse_number.
  destruct (digits_prefix_app D1 ("." +:+ D2) 0 O H1) as [ip ->].
  change ("." +:+ D2) with (String "." D2).
  cbn [PyFloat.digits_prefix].
  change (Py.isdigit_ascii ".") with false. cbn iota.
  change (Ascii.eqb "." ".") with true. cbn iota.
  destruct (digits_prefix_app D2 EmptyString ip O H2) as [mant Hm].
  rewrite append_empty_r in Hm. rewrite Hm.
  cbn [PyFloat.digits_prefix].
  destruct D1 as [|c D1]; [discriminate|].
  cbn [String.length Nat.add Nat.eqb]. exists mant. reflexivity.
Qed.

Lemma numeral_char_facts (c : ascii) :
  numeral_char c = true ->
  PyFloat.float_space c = false /\ PyFloat.is_underscore c = false /\
  Py.isspace_char c = false.
Proof.
  destruct c as [[] [] [] [] [] [] [] []]; vm_compute; intuition congruence.
Qed.

Lemma digit_numeral (c : ascii) :
  Py.isdigit_ascii c = true -> numeral_char c = true.
Proof. unfold numeral_char. intros ->. reflexivity. Qed.

Lemma digits_numeral_chars (s : string) :
  Py.forallb_str Py.isdigit_ascii s = true -> Py.forallb_str numeral_char s = true.
Proof. apply forallb_str_impl, digit_numeral. Qed.

Lemma drop_underscores_none (s : string) (prev : ascii) :
  PyFloat.is_underscore prev = false ->
  Py.forallb_str numeral_char s = true ->
  PyFloat.drop_underscores prev s = Some s.
Proof.
  revert prev. induction s as [|c s IH]; intros prev Hp H; simpl.
  - rewrite Hp. reflexivity.
  - simpl in H. apply andb_prop in H as [Hc Hs].
    destruct (numeral_char_facts c Hc) as (_ & Hu & _).
    rewrite Hu, Hp. simpl. rewrite (IH c Hu Hs). reflexivity.
Qed.

(** [float] on a numeral that begins with a digit, after its sign: nothing
    is stripped, there is no underscore to drop, and the digits are neither
    [inf] nor [nan]. *)
Lemma of_str_numeral (s : bool) (c : ascii) (r : string) :
  Py.isdigit_ascii c = true -> Py.forallb_str numeral_char r = true ->
  PyFloat.of_str (PyFloat.sign_str s +:+ String c r)
  = PyFloat.parse_number s (String c r).
Proof.
  intros Hd Hr.
  assert (Hc : Py.forallb_str numeral_char (PyFloat.sign_str s +:+ String c r)
               = true).
  { rewrite forallb_str_app. simpl. rewrite (digit_numeral c Hd), Hr.
    destruct s; reflexivity. }
  unfold PyFloat.of_str.
  assert (Hfirst : match PyFloat.sign_str s +:+ String c r with
                   | EmptyString => True
                   | String x _ => PyFloat.float_space x = false
                   end).
  { destruct (PyFloat.sign_str s +:+ String c r) as [|x t]; [exact I|].
    simpl in Hc. apply andb_prop in Hc as [Hx _].
    apply numeral_char_facts, Hx. }
  rewrite (lstrip_fixed _ _ Hfirst).
  rewrite rstrip_fixed.
  2:{ eapply forallb_str_impl; [|exact Hc]. intros x Hx.
      destruct (numeral_char_facts x Hx) as (-> & _). reflexivity. }
  rewrite (drop_underscores_none _ "000"%char eq_refl Hc).
  destruct (digit_facts c Hd) as (_ & Hm & Hplus & _ & Hi & Hn).
  unfold PyFloat.parse_signed.
  assert (Hs : PyFloat.read_sign (PyFloat.sign_str s +:+ String c r)
               = (s, String c r)).
  { destruct s; [reflexivity|].
    change (PyFloat.sign_str false +:+ String c r) with (String c r).
    unfold PyFloat.read_sign. rewrite Hm, Hplus. reflexivity. }
  rewrite Hs. cbn [PyFloat.ascii_lower].
  unfold String.eqb at 1 2 3; fold String.eqb. rewrite Hi, Hn. reflexivity.
Qed.

(** [float] reads every salary written with two decimals. *)
Lemma of_str_format_2f_finite (s : bool) (m : positive) (e : Z) :
  exists mant ex : Z,
    PyFloat.of_str (PyFloat.format_2f (S754_finite s m e))
    = Some (PyFloat.of_decimal s mant ex).
Proof.
  destruct (format_2f_shape s m e) as (D1 & D2 & -> & Ht & H1 & H2).
  destruct (parse_number_decimal s D1 D2 Ht H1 H2) as [mant Hp].
  destruct D1 as [|c D1]; [discriminate|].
  simpl in H1. apply andb_prop in H1 as [Hd H1].
  change (String c D1 +:+ "." +:+ D2) with (String c (D1 +:+ "." +:+ D2)) in *.
  rewrite of_str_numeral, Hp; [eexists; eexists; reflexivity | exact Hd|].
  rewrite forallb_str_app, (digits_numeral_chars _ H1).
  change ("." +:+ D2) with (String "." D2). simpl.
  rewrite (digits_numeral_chars _ H2). reflexivity.
Qed.

Lemma of_str_format_2f (x : spec_float) :
  PyFloat.of_str (PyFloat.format_2f x) = Some (PyFloat.round_2 x).
Proof.
  destruct x as [s|s| |s m e];
    [destruct s; vm_compute; reflexivity | destruct s; vm_compute; reflexivity
    | vm_compute; reflexivity |].
  destruct (of_str_format_2f_finite s m e) as (mant & ex & Hy).
  unfold PyFloat.round_2. rewrite Hy. reflexivity.
Qed.

(** ** The salary test on the text of a float *)

(** Rounding to a float keeps the sign. *)
Lemma binary_round_aux_nonneg (m e : Z) (l : location) :
  PyFloat.ltb (binary_round_aux PyFloat.prec PyFloat.emax false m e l)
              PyFloat.zero = false.
Proof.
  unfold binary_round_aux.
  destruct (shr_fexp _ _ m e l) as [mrs' e'].
  destruct (shr_fexp _ _ _ e' loc_Exact) as [mrs'' e''].
  destruct (shr_m mrs''); [reflexivity| |reflexivity].
  destruct (e'' <=? _); reflexivity.
Qed.

Lemma of_decimal_nonneg (m e : Z) :
  PyFloat.ltb (PyFloat.of_decimal false m e) PyFloat.zero = false.
Proof.
  unfold PyFloat.of_decimal. destruct m as [|p|p]; try reflexivity.
  destruct (0 <=? e).
  - unfold binary_round. destruct (shl_align _ _ _) as [mz ez].
    apply binary_round_aux_nonneg.
  - destruct (SFdiv_core_binary _ _ _ _ _ _) as [[q e'] l].
    apply binary_round_aux_nonneg.
Qed.

Lemma of_decimal_finite (z p : Z) (m : positive) (e : Z) :
  PyFloat.same (PyFloat.of_decimal false z p) (S754_finite false m e) = true ->
  0 < z.
Proof. destruct z; [discriminate | lia | discriminate]. Qed.

(** *** The number of digits of a positive integer *)

Lemma length_string_of_uint (d : Decimal.uint) :
  String.length (NilEmpty.string_of_uint d) = Decimal.nb_digits d.
Proof. induction d; simpl; congruence. Qed.

Lemma of_uint_acc_lower (d : Decimal.uint) (acc : positive) :
  Zpos acc * 10 ^ Z.of_nat (Decimal.nb_digits d) <= Zpos (Pos.of_uint_acc d acc).
Proof.
  revert acc. induction d; intros acc; cbn [Pos.of_uint_acc Decimal.nb_digits];
    [rewrite Z.pow_0_r; lia|..];
    (etransitivity; [|apply IHd]);
    rewrite Nat2Z.inj_succ, Z.pow_succ_r by lia;
    pose proof (Z.pow_pos_nonneg 10 (Z.of_nat (Decimal.nb_digits d))
                  ltac:(lia) ltac:(lia));
    nia.
Qed.

Lemma of_uint_acc_bound (d : Decimal.uint) (acc : positive) :
  10 ^ Z.of_nat (Decimal.nb_digits d) <= Zpos (Pos.of_uint_acc d acc).
Proof.
  pose proof (of_uint_acc_lower d acc) as H.
  pose proof (Z.pow_pos_nonneg 10 (Z.of_nat (Decimal.nb_digits d))
                ltac:(lia) ltac:(lia)).
  nia.
Qed.

Lemma of_uint_lower (d : Decimal.uint) :
  Decimal.unorm d = d -> d <> Decimal.zero ->
  10 ^ (Z.of_nat (Decimal.nb_digits d) - 1) <= Z.of_N (Pos.of_uint d).
Proof.
  intros Hn Hz. destruct d as [|d|d|d|d|d|d|d|d|d|d].
  3-11: cbn [Pos.of_uint Decimal.nb_digits Z.of_N];
    rewrite Nat2Z.inj_succ, Z.sub_1_r, Z.pred_succ; apply of_uint_acc_bound.
  - discriminate Hn.
  - exfalso. unfold Decimal.unorm in Hn. cbn [Decimal.nzhead] in Hn.
    pose proof (DecimalFacts.nb_digits_nzhead d) as Hle.
    destruct (Decimal.nzhead d) eqn:E;
      try (rewrite Hn in Hle; cbn [Decimal.nb_digits] in Hle; lia).
    apply Hz. exact (eq_sym Hn).
Qed.

Lemma to_uint_unorm (p : positive) :
  Decimal.unorm (Pos.to_uint p) = Pos.to_uint p.
Proof.
  rewrite <- (DecimalPos.Unsigned.to_of (Pos.to_uint p)), DecimalPos.Unsigned.of_to. reflexivity.
Qed.

(** A positive integer is at least the power of ten of its digits. *)
Lemma ndigits_magnitude (n : Z) :
  0 < n -> 10 ^ (PyFloat.ndigits n - 1) <= n.
Proof.
  destruct n as [|p|p]; try lia. intros _.
  unfold PyFloat.ndigits, PyFloat.string_of_Z, NilZero.string_of_uint.
  cbn [Z.to_N N.to_uint].
  pose proof (of_uint_lower (Pos.to_uint p) (to_uint_unorm p)
                (DecimalPos.Unsigned.to_uint_nonzero p)) as H.
  rewrite DecimalPos.Unsigned.of_to in H. cbn [Z.of_N] in H.
  destruct (Pos.to_uint p) eqn:E;
    [exfalso; exact (DecimalPos.Unsigned.to_uint_nonnil p E)|..];
    rewrite <- E, length_string_of_uint; rewrite <- E in H; exact H.
Qed.

Lemma first_scale_spec (fuel : nat) (j num den : Z) :
  j <= PyFloat.first_scale fuel j num den /\
  (den <= num * 10 ^ PyFloat.first_scale fuel j num den \/
   PyFloat.first_scale fuel j num den = j + Z.of_nat fuel).
Proof.
  revert j. induction fuel as [|fuel IH]; intros j; cbn [PyFloat.first_scale].
  - split; [lia | right; lia].
  - destruct (Z.leb_spec den (num * 10 ^ j)) as [H|H].
    + split; [lia | left; exact H].
    + destruct (IH (j + 1)) as [H1 H2]. split; [lia|].
      destruct H2 as [H2|H2]; [left; exact H2 | right; lia].
Qed.

Lemma round_half_even_pos (num den : Z) :
  0 < den -> den <= num -> 0 < PyFloat.round_half_even num den.
Proof.
  intros Hd Hn. unfold PyFloat.round_half_even.
  assert (1 <= num / den) by (apply Z.div_le_lower_bound; lia).
  destruct (2 * (num mod den) ?= den); [destruct (Z.even _)|..]; lia.
Qed.

Lemma pow10_pos (z : Z) : 0 <= z -> 1 <= 10 ^ z.
Proof.
  intros H. pose proof (Z.pow_pos_nonneg 10 z ltac:(lia) H). lia.
Qed.

(** With seventeen digits the scaled mantissa is at least one. *)
Lemma decimal_exponent_scale (m : positive) (e : Z) :
  0 < (PyFloat.scaled m e (PyFloat.decimal_exponent m e - 16)).2 /\
  (PyFloat.scaled m e (PyFloat.decimal_exponent m e - 16)).2
  <= (PyFloat.scaled m e (PyFloat.decimal_exponent m e - 16)).1.1
     * (PyFloat.scaled m e (PyFloat.decimal_exponent m e - 16)).2
     + (PyFloat.scaled m e (PyFloat.decimal_exponent m e - 16)).1.2.
Proof.
  unfold PyFloat.scaled. cbn [fst snd].
  set (p := PyFloat.decimal_exponent m e - 16).
  set (num := Zpos m * _ * _). set (den := _ * _).
  assert (H : 0 < den /\ den <= num).
  { subst num den p. unfold PyFloat.decimal_exponent.
    destruct (Z.leb_spec 0 e) as [He|He].
    - set (N := Zpos m * 2 ^ e).
      assert (HN : 0 < N).
      { subst N. pose proof (Z.pow_pos_nonneg 2 e ltac:(lia) He). nia. }
      pose proof (ndigits_magnitude N HN) as Hmag.
      destruct (Z.leb_spec 0 (PyFloat.ndigits N - 1 - 16)) as [Hp|Hp].
      + pose proof (Z.pow_pos_nonneg 10 (PyFloat.ndigits N - 1 - 16)
                      ltac:(lia) Hp).
        pose proof (Z.pow_le_mono_r 10 (PyFloat.ndigits N - 1 - 16)
                      (PyFloat.ndigits N - 1) ltac:(lia) ltac:(lia)).
        lia.
      + pose proof (pow10_pos (- (PyFloat.ndigits N - 1 - 16)) ltac:(lia)). nia.
    - set (D := 2 ^ (- e)).
      assert (HD : 0 < D) by (apply Z.pow_pos_nonneg; lia).
      destruct (Z.leb_spec D (Zpos m)) as [Hm|Hm].
      + set (q := Zpos m / D).
        assert (Hq : 0 < q) by (apply Z.div_str_pos; lia).
        pose proof (ndigits_magnitude q Hq) as Hmag.
        pose proof (Z.mul_div_le (Zpos m) D HD) as Hdiv. fold q in Hdiv.
        destruct (Z.leb_spec 0 (PyFloat.ndigits q - 1 - 16)) as [Hp|Hp].
        * pose proof (Z.pow_pos_nonneg 10 (PyFloat.ndigits q - 1 - 16)
                        ltac:(lia) Hp).
          pose proof (Z.pow_le_mono_r 10 (PyFloat.ndigits q - 1 - 16)
                        (PyFloat.ndigits q - 1) ltac:(lia) ltac:(lia)).
          nia.
        * pose proof (pow10_pos (- (PyFloat.ndigits q - 1 - 16)) ltac:(lia)).
          nia.
      + destruct (first_scale_spec (Z.to_nat (- e)) 1 (Zpos m) D) as [Hj Hs].
        set (j := PyFloat.first_scale (Z.to_nat (- e)) 1 (Zpos m) D) in *.
        destruct (Z.leb_spec 0 (- j - 16)) as [Hp|Hp]; [lia|].
        replace (- (- j - 16)) with (j + 16) by lia.
        rewrite Z.pow_add_r by lia.
        pose proof (pow10_pos j ltac:(lia)) as H1.
        destruct Hs as [Hs|Hs].
        * nia.
        * assert (D <= 10 ^ j).
          { subst D. rewrite Hs.
            etransitivity; [apply (Z.pow_le_mono_l 2 10 (- e)); lia|].
            apply Z.pow_le_mono_r; lia. }
          nia. }
  destruct H as [Hd Hn]. split; [exact Hd|].
  pose proof (Z.div_mod num den ltac:(lia)). nia.
Qed.

Lemma shortest_digits_pos (fuel : nat) (k : Z) (m : positive) (e x : Z) :
  0 < (PyFloat.scaled m e (x - (k + Z.of_nat fuel) + 1)).2 /\
  (PyFloat.scaled m e (x - (k + Z.of_nat fuel) + 1)).2
  <= (PyFloat.scaled m e (x - (k + Z.of_nat fuel) + 1)).1.1
     * (PyFloat.scaled m e (x - (k + Z.of_nat fuel) + 1)).2
     + (PyFloat.scaled m e (x - (k + Z.of_nat fuel) + 1)).1.2 ->
  0 < (PyFloat.shortest_digits fuel k m e x).1.
Proof.
  revert k. induction fuel as [|fuel IH]; intros k H;
    cbn [PyFloat.shortest_digits].
  - replace (x - (k + Z.of_nat 0) + 1) with (x - k + 1) in H by lia.
    destruct (PyFloat.scaled m e (x - k + 1)) as [[lo r] den].
    cbn [fst snd] in *. apply round_half_even_pos; lia.
  - destruct (PyFloat.scaled m e (x - k + 1)) as [[lo r] den].
    destruct (PyFloat.same (PyFloat.of_decimal false lo (x - k + 1)) _) eqn:Elo;
      destruct (PyFloat.same (PyFloat.of_decimal false (lo + 1) (x - k + 1)) _)
        eqn:Ehi; cbn [andb fst].
    + apply of_decimal_finite in Elo, Ehi. destruct (2 * r <=? den); assumption.
    + exact (of_decimal_finite _ _ _ _ Elo).
    + exact (of_decimal_finite _ _ _ _ Ehi).
    + apply IH.
      replace (x - (k + 1 + Z.of_nat fuel) + 1)
        with (x - (k + Z.of_nat (S fuel)) + 1) by lia.
      exact H.
Qed.

(** *** Numerals *)

Lemma digits_prefix_all (D : string) (acc : Z) :
  Py.forallb_str Py.isdigit_ascii D = true ->
  exists acc', PyFloat.digits_prefix D acc O = (acc', String.length D, EmptyString).
Proof.
  intros H. destruct (digits_prefix_app D EmptyString acc O H) as [acc' E].
  rewrite append_empty_r, Nat.add_0_r in E. exists acc'. exact E.
Qed.

(** Digits, then maybe a point and digits, then maybe an exponent: [float]
    reads it as the nearest float of that sign. *)
Lemma numeral_parses (neg : bool) (t D1 F X : string) :
  t = D1 +:+ F +:+ X ->
  Py.truthy D1 = true -> Py.forallb_str Py.isdigit_ascii D1 = true ->
  (F = EmptyString \/
   exists D2, F = String "." D2 /\ Py.forallb_str Py.isdigit_ascii D2 = true) ->
  (X = EmptyString \/
   exists sg D3, X = String "e" (String sg D3) /\ (sg = "-" \/ sg = "+")%char /\
     Py.truthy D3 = true /\ Py.forallb_str Py.isdigit_ascii D3 = true) ->
  exists c r, t = String c r /\ Py.isdigit_ascii c = true /\
    Py.forallb_str numeral_char r = true /\
    exists mant ex, PyFloat.parse_number neg t = Some (PyFloat.of_decimal neg mant ex).
Proof.
  intros -> Ht H1 HF HX.
  assert (Hchars : Py.forallb_str numeral_char (D1 +:+ F +:+ X) = true).
  { rewrite !forallb_str_app, (digits_numeral_chars _ H1).
    destruct HF as [->|(D2 & -> & H2)], HX as [->|(sg & D3 & -> & Hsg & _ & H3)];
      cbn [Py.forallb_str andb];
      rewrite ?(digits_numeral_chars _ H2), ?(digits_numeral_chars _ H3);
      try reflexivity; destruct Hsg as [->| ->]; reflexivity. }
  assert (Hparse : exists mant ex,
    PyFloat.parse_number neg (D1 +:+ F +:+ X)
    = Some (PyFloat.of_decimal neg mant ex)).
  { unfold PyFloat.parse_number.
    destruct (digits_prefix_app D1 (F +:+ X) 0 O H1) as [ip ->].
    assert (Hni : forall nf, Nat.eqb (String.length D1 + 0 + nf) O = false).
    { destruct D1; [discriminate Ht | reflexivity]. }
    assert (Hexp : forall sg D3, (sg = "-" \/ sg = "+")%char ->
      Py.truthy D3 = true -> Py.forallb_str Py.isdigit_ascii D3 = true ->
      exists eneg ev k,
        PyFloat.read_sign (String sg D3) = (eneg, D3) /\
        PyFloat.digits_prefix D3 0 O = (ev, S k, EmptyString)).
    { intros sg D3 Hsg Ht3 H3. destruct (digits_prefix_all D3 0 H3) as [ev E].
      destruct D3 as [|c3 D3]; [discriminate Ht3|].
      destruct Hsg as [->| ->]; eexists; exists ev, (String.length D3);
        (split; [reflexivity | exact E]). }
    destruct HF as [->|(D2 & -> & H2)].
    - change (EmptyString +:+ X) with X.
      destruct HX as [->|(sg & D3 & -> & Hsg & Ht3 & H3)].
      + cbn [PyFloat.digits_prefix]. rewrite Hni. eexists; eexists; reflexivity.
      + cbn [PyFloat.digits_prefix]. change (Py.isdigit_ascii "e") with false.
        cbv iota. change (Ascii.eqb "e" ".") with false. cbv iota.
        rewrite Hni. change (Ascii.eqb "e" "e" || Ascii.eqb "e" "E") with true.
        cbv iota.
        destruct (Hexp sg D3 Hsg Ht3 H3) as (eneg & ev & k & -> & ->).
        eexists; eexists; reflexivity.
    - change (String "." D2 +:+ X) with (String "." (D2 +:+ X)).
      cbn [PyFloat.digits_prefix]. change (Py.isdigit_ascii ".") with false.
      cbv iota. change (Ascii.eqb "." ".") with true. cbv iota.
      destruct (digits_prefix_app D2 X ip O H2) as [mant ->].
      destruct HX as [->|(sg & D3 & -> & Hsg & Ht3 & H3)].
      + cbn [PyFloat.digits_prefix]. rewrite Hni. eexists; eexists; reflexivity.
      + cbn [PyFloat.digits_prefix]. change (Py.isdigit_ascii "e") with false.
        cbv iota. rewrite Hni.
        change (Ascii.eqb "e" "e" || Ascii.eqb "e" "E") with true. cbv iota.
        destruct (Hexp sg D3 Hsg Ht3 H3) as (eneg & ev & k & -> & ->).
        eexists; eexists; reflexivity. }
  destruct D1 as [|c D1]; [discriminate Ht|].
  exists c, (D1 +:+ F +:+ X). split; [reflexivity|].
  simpl in H1. apply andb_prop in H1 as [Hc _]. split; [exact Hc|].
  change (String c D1 +:+ F +:+ X) with (String c (D1 +:+ F +:+ X)) in Hchars.
  simpl in Hchars. apply andb_prop in Hchars as [_ Hr]. split; [exact Hr|].
  exact Hparse.
Qed.

(** *** The text of a float *)

Lemma forallb_rstrip (p ws : ascii -> bool) (s : string) :
  Py.forallb_str p s = true -> Py.forallb_str p (Py.rstrip_with ws s) = true.
Proof.
  induction s as [|c s IH]; [reflexivity|]. simpl.
  intros [Hc Hs]%andb_prop. specialize (IH Hs).
  destruct (Py.rstrip_with ws s) as [|d t].
  - destruct (ws c); [reflexivity|]. simpl. rewrite Hc. reflexivity.
  - change (Py.forallb_str p (String c (String d t)))
      with (p c && Py.forallb_str p (String d t)).
    rewrite Hc, IH. reflexivity.
Qed.

Lemma rstrip_empty (ws : ascii -> bool) (s : string) :
  Py.rstrip_with ws s = EmptyString -> Py.forallb_str ws s = true.
Proof.
  induction s as [|c s IH]; [reflexivity|]. simpl.
  destruct (Py.rstrip_with ws s); [|discriminate].
  destruct (ws c); [|discriminate]. intros _. apply IH. reflexivity.
Qed.

Lemma zero_string_of_uint (u : Decimal.uint) :
  Py.forallb_str (Ascii.eqb "0") (NilEmpty.string_of_uint u) = true ->
  Pos.of_uint u = 0%N.
Proof. induction u; simpl; try discriminate; auto. Qed.

(** The digits of a positive integer, without the zeros at the end. *)
Lemma strip_zeros_digits (d : Z) :
  0 < d ->
  Py.truthy (PyFloat.strip_zeros (PyFloat.string_of_Z d)) = true /\
  Py.forallb_str Py.isdigit_ascii (PyFloat.strip_zeros (PyFloat.string_of_Z d))
    = true.
Proof.
  intros Hd. split; [|apply forallb_rstrip, string_of_Z_digits].
  destruct (PyFloat.strip_zeros (PyFloat.string_of_Z d)) eqn:E; [|reflexivity].
  exfalso. apply rstrip_empty in E.
  destruct d as [|p|p]; try lia.
  unfold PyFloat.string_of_Z, NilZero.string_of_uint in E.
  cbn [Z.to_N N.to_uint] in E.
  pose proof (DecimalPos.Unsigned.of_to p) as Hp.
  destruct (Pos.to_uint p) eqn:Eu;
    [exact (DecimalPos.Unsigned.to_uint_nonnil p Eu)|..];
    rewrite <- Eu in E; apply zero_string_of_uint in E; rewrite Eu in E;
    congruence.
Qed.

Lemma forallb_substring (p : ascii -> bool) (a b : nat) (s : string) :
  Py.forallb_str p s = true -> Py.forallb_str p (String.substring a b s) = true.
Proof.
  revert a b. induction s as [|c s IH]; intros a b H.
  - destruct a, b; reflexivity.
  - simpl in H. apply andb_prop in H as [Hc Hs].
    destruct a as [|a]; [destruct b as [|b]|]; simpl;
      [reflexivity | rewrite Hc, (IH O b Hs); reflexivity | exact (IH a b Hs)].
Qed.

Lemma zeros_digits (n : nat) : Py.forallb_str Py.isdigit_ascii (PyFloat.zeros n) = true.
Proof. induction n as [|n IH]; [reflexivity | exact IH]. Qed.

(** [repr] of a positive float is a numeral that [float] reads. *)
Lemma repr_finite_parses (m : positive) (e : Z) :
  exists c r, PyFloat.repr (S754_finite false m e) = String c r /\
    Py.isdigit_ascii c = true /\ Py.forallb_str numeral_char r = true /\
    exists mant ex,
      PyFloat.parse_number false (String c r)
      = Some (PyFloat.of_decimal false mant ex).
Proof.
  assert (H : exists t D1 F X,
    PyFloat.repr (S754_finite false m e) = t /\ t = D1 +:+ F +:+ X /\
    Py.truthy D1 = true /\ Py.forallb_str Py.isdigit_ascii D1 = true /\
    (F = EmptyString \/
     exists D2, F = String "." D2 /\ Py.forallb_str Py.isdigit_ascii D2 = true) /\
    (X = EmptyString \/
     exists sg D3, X = String "e" (String sg D3) /\ (sg = "-" \/ sg = "+")%char /\
       Py.truthy D3 = true /\ Py.forallb_str Py.isdigit_ascii D3 = true)).
  { unfold PyFloat.repr.
    pose proof (shortest_digits_pos 16 1 m e (PyFloat.decimal_exponent m e)) as Hd.
    replace (PyFloat.decimal_exponent m e - (1 + Z.of_nat 16) + 1)
      with (PyFloat.decimal_exponent m e - 16) in Hd by lia.
    specialize (Hd (decimal_exponent_scale m e)).
    destruct (PyFloat.shortest_digits 16 1 m e (PyFloat.decimal_exponent m e))
      as [d p]. cbn [fst] in Hd.
    destruct (strip_zeros_digits d Hd) as [Ht Hds].
    set (ds := PyFloat.strip_zeros (PyFloat.string_of_Z d)) in *.
    set (decpt := PyFloat.ndigits d + p).
    change (PyFloat.sign_str false +:+ ?x) with x.
    destruct ((decpt <=? -4) || (16 <? decpt)) eqn:Eexp.
    - eexists. exists (String.substring 0 1 ds).
      exists (if Nat.ltb 1 (String.length ds)
              then "." +:+ PyFloat.substring_from 1 ds else EmptyString).
      exists ("e" +:+ (if decpt - 1 <? 0 then "-" else "+")
              +:+ (if Z.abs (decpt - 1) <? 10 then "0" else "")
              +:+ PyFloat.string_of_Z (Z.abs (decpt - 1))).
      split; [reflexivity|]. split; [reflexivity|].
      split; [destruct ds; [discriminate Ht | reflexivity]|].
      split; [apply forallb_substring, Hds|].
      split.
      + destruct (Nat.ltb 1 (String.length ds)); [right | left; reflexivity].
        eexists. split; [reflexivity|]. apply forallb_substring, Hds.
      + right.
        exists (if decpt - 1 <? 0 then "-"%char else "+"%char),
          ((if Z.abs (decpt - 1) <? 10 then "0" else "")
           +:+ PyFloat.string_of_Z (Z.abs (decpt - 1))).
        destruct (string_of_Z_digits (Z.abs (decpt - 1))) as [Htz Hdz].
        split; [destruct (decpt - 1 <? 0); reflexivity|].
        split; [destruct (decpt - 1 <? 0); auto|].
        destruct (Z.abs (decpt - 1) <? 10).
        * split; [reflexivity|]. simpl. exact Hdz.
        * split; assumption.
    - destruct (Z.leb_spec decpt 0) as [Hle|Hgt].
      + eexists. exists "0"%string, ("." +:+ PyFloat.zeros (Z.to_nat (- decpt)) +:+ ds),
          EmptyString.
        split; [reflexivity|].
        split; [rewrite append_empty_r; reflexivity|].
        split; [reflexivity|]. split; [reflexivity|].
        split; [right | left; reflexivity].
        eexists. split; [reflexivity|].
        rewrite forallb_str_app, zeros_digits, Hds. reflexivity.
      + destruct (decpt <? Z.of_nat (String.length ds)).
        * eexists. exists (String.substring 0 (Z.to_nat decpt) ds),
            ("." +:+ PyFloat.substring_from (Z.to_nat decpt) ds), EmptyString.
          split; [reflexivity|].
          split; [rewrite append_empty_r; reflexivity|].
          split.
          { destruct ds as [|c0 ds0]; [discriminate Ht|].
            destruct (Z.to_nat decpt) eqn:En; [lia | reflexivity]. }
          split; [apply forallb_substring, Hds|].
          split; [right | left; reflexivity].
          eexists. split; [reflexivity|]. apply forallb_substring, Hds.
        * eexists.
          exists (ds +:+ PyFloat.zeros (Z.to_nat decpt - String.length ds)),
            ".0"%string, EmptyString.
          split; [reflexivity|].
          split; [rewrite append_assoc; reflexivity|].
          split; [destruct ds; [discriminate Ht | reflexivity]|].
          split; [rewrite forallb_str_app, zeros_digits, Hds; reflexivity|].
          split; [right | left; reflexivity].
          eexists. split; reflexivity. }
  destruct H as (t & D1 & F & X & -> & Ht & H1 & H2 & HF & HX).
  destruct (numeral_parses false _ D1 F X Ht H1 H2 HF HX)
    as (c & r & E & Hc & Hr & Hp).
  exists c, r. rewrite <- E. auto.
Qed.

(** The salary test accepts the text of every float that is not below
    zero. *)
Lemma is_valid_salary_format_repr (x : spec_float) :
  PyFloat.ltb x PyFloat.zero = false ->
  (is_valid_salary_format (PyFloat.repr x)).1 = true.
Proof.
  intros Hx.
  destruct x as [s|s| |s m e];
    [destruct s; vm_compute; reflexivity
    | destruct s; [discriminate Hx | vm_compute; reflexivity]
    | vm_compute; reflexivity |].
  destruct s; [discriminate Hx|].
  destruct (repr_finite_parses m e) as (c & r & -> & Hc & Hr & mant & ex & Hp).
  apply is_valid_salary_format_accepts.
  pose proof (of_str_numeral false c r Hc Hr) as Hs.
  change (PyFloat.sign_str false +:+ String c r) with (String c r) in Hs.
  split.
  - unfold Py.strip. rewrite lstrip_fixed.
    + destruct (Py.rstrip_with Py.isspace_char (String c r)) eqn:E; [|reflexivity].
      apply rstrip_empty in E. simpl in E. apply andb_prop in E as [E _].
      destruct (numeral_char_facts c (digit_numeral c Hc)) as (_ & _ & Hsp).
      congruence.
    + apply numeral_char_facts, digit_numeral, Hc.
  - exists (PyFloat.of_decimal false mant ex).
    split; [rewrite Hs; exact Hp | apply of_decimal_nonneg].
Qed.

Lemma round_2_nonneg (x : spec_float) :
  PyFloat.ltb x PyFloat.zero = false ->
  PyFloat.ltb (PyFloat.round_2 x) PyFloat.zero = false.
Proof.
  intros Hx. destruct x as [s|s| |s m e]; try exact Hx.
  destruct s; [discriminate Hx|].
  destruct (of_str_format_2f_finite false m e) as (mant & ex & Hy).
  unfold PyFloat.round_2. rewrite Hy. apply of_decimal_nonneg.
Qed.

(** ** Looking up after a change *)

Lemma find_snoc (id : string) (l : list Employee) (e : Employee) :
  List.find (same_id id) (l ++ [e]) =
  match List.find (same_id id) l with
  | Some x => Some x
  | None => if same_id id e then Some e else None
  end.
Proof.
  induction l as [|a l IH]; simpl; [reflexivity|].
  destruct (same_id id a); [reflexivity | exact IH].
Qed.

Lemma find_absent (id : string) (l : list Employee) :
  id ∉ map employee_id l -> List.find (same_id id) l = None.
Proof.
  induction l as [|a l IH]; simpl; [reflexivity|].
  intros [Ha Hl]%not_elem_of_cons. unfold same_id at 1.
  destruct (String.eqb_spec (employee_id a) id) as [E|_]; [congruence | exact (IH Hl)].
Qed.

Lemma find_unique (l : list Employee) (i : nat) (e : Employee) :
  NoDup (map employee_id l) -> l !! i = Some e ->
  List.find (same_id (employee_id e)) l = Some e.
Proof.
  revert i. induction l as [|a l IH]; intros i Hn Hi; [discriminate|].
  simpl in *. apply NoDup_cons in Hn as [Ha Hn].
  destruct i as [|i]; simpl in Hi.
  - injection Hi as ->. unfold same_id. rewrite String.eqb_refl. reflexivity.
  - destruct (same_id (employee_id e) a) eqn:E; [|exact (IH i Hn Hi)].
    unfold same_id in E. apply String.eqb_eq in E. exfalso. apply Ha.
    rewrite E. apply list_elem_of_fmap. exists e.
    split; [reflexivity | eapply list_elem_of_lookup_2, Hi].
Qed.

Lemma find_insert_other (id : string) (l : list Employee) (i : nat)
    (old new : Employee) :
  l !! i = Some old -> employee_id new = employee_id old ->
  id <> employee_id old ->
  List.find (same_id id) (<[i := new]> l) = List.find (same_id id) l.
Proof.
  revert i. induction l as [|a l IH]; intros i Hi Hid Hne; [discriminate|].
  destruct i as [|i]; simpl in *.
  - injection Hi as ->. unfold same_id. rewrite Hid.
    destruct (String.eqb_spec (employee_id old) id); [congruence | reflexivity].
  - destruct (same_id id a); [reflexivity | exact (IH i Hi Hid Hne)].
Qed.

Lemma find_delete (id : string) (l : list Employee) (i : nat) (e : Employee) :
  NoDup (map employee_id l) -> l !! i = Some e ->
  List.find (same_id id) (delete i l) =
  if String.eqb (employee_id e) id then None else List.find (same_id id) l.
Proof.
  revert i. induction l as [|a l IH]; intros i Hn Hi; [discriminate|].
  simpl in Hn. apply NoDup_cons in Hn as [Ha Hn].
  destruct i as [|i]; simpl in *.
  - injection Hi as ->. unfold same_id at 2.
    destruct (String.eqb_spec (employee_id e) id) as [E|E]; [|reflexivity].
    apply find_absent. rewrite <- E. exact Ha.
  - rewrite (IH i Hn Hi).
    destruct (same_id id a) eqn:Ea; [|reflexivity].
    destruct (String.eqb_spec (employee_id e) id) as [Ee|Ee]; [|reflexivity].
    unfold same_id in Ea. apply String.eqb_eq in Ea.
    exfalso. apply Ha. rewrite Ea, <- Ee. apply list_elem_of_fmap. exists e.
    split; [reflexivity | eapply list_elem_of_lookup_2, Hi].
Qed.

Lemma Forall_not_in_ids (id : string) (l : list Employee) :
  Forall (fun x => employee_id x <> id) l -> id ∉ map employee_id l.
Proof.
  intros Hf Hin. apply list_elem_of_fmap in Hin as [x [Hx Hin]].
  rewrite Forall_forall in Hf. exact (Hf x Hin (eq_sym Hx)).
Qed.

Lemma find_index_from_snoc (id : string) (l : list Employee) (e : Employee)
    (k : Z) :
  id ∉ map employee_id l -> employee_id e = id ->
  find_index_from id (l ++ [e]) k = k + len l.
Proof.
  revert k. induction l as [|a l IH]; intros k Hn He; simpl.
  - unfold same_id. rewrite He, String.eqb_refl. unfold len. simpl. lia.
  - simpl in Hn. apply not_elem_of_cons in Hn as [Ha Hn].
    unfold same_id at 1. destruct (String.eqb_spec (employee_id a) id) as [E|_];
      [congruence|].
    rewrite (IH (k + 1) Hn He). unfold len. simpl List.length. lia.
Qed.

(** X7: looking up after [add_employee].  The call leaves the list and the
    file as they are, or the list has one employee more at its end: its id
    was not found before and is found afterwards, at the last index, the
    lookup of every other id gives what it gave before, and the file has
    been written. *)
Theorem add_employee_then_find (w : world) :
  post add_employee w (fun _ w' =>
    (self w' = self w /\ disk w' = disk w) \/
    exists e,
      _employees_list (self w') = _employees_list (self w) ++ [e] /\
      _find_employee_by_id (self w) (employee_id e) = None /\
      _find_employee_by_id (self w') (employee_id e) = Some e /\
      _find_employee_index_by_id (self w') (employee_id e)
        = len (_employees_list (self w)) /\
      (forall id, id <> employee_id e ->
         _find_employee_by_id (self w') id = _find_employee_by_id (self w) id) /\
      disk w' = Some (_save_employees (self w'))).
Proof.
  eapply post_weaken; [apply add_employee_effect|].
  intros r w' [H|(e & _ & Hf & Hs & Hd)]; [left; exact H | right].
  exists e. apply Forall_not_in_ids in Hf.
  unfold _find_employee_by_id, _find_employee_index_by_id.
  rewrite Hs. cbn [with_list _employees_list].
  split; [reflexivity|].
  split; [apply find_absent, Hf|].
  split; [rewrite find_snoc, (find_absent _ _ Hf); unfold same_id;
          rewrite String.eqb_refl; reflexivity|].
  split; [rewrite find_index_from_snoc by auto; lia|].
  split; [|rewrite Hd, Hs; reflexivity].
  intros id Hid. rewrite find_snoc.
  destruct (List.find (same_id id) (_employees_list (self w))); [reflexivity|].
  unfold same_id. destruct (String.eqb_spec (employee_id e) id); congruence.
Qed.

(** X8: looking up after [update_employee], in a list without repeated
    ids.  When the update was saved, the first typed line, stripped, is the
    id of an employee that was found before; the lookup of that id now gives
    the new record, which has the same id; the lookup of every other id
    gives what it gave before, and the ids of the list are the same, in the
    same order. *)
Theorem update_employee_then_find (w : world) :
  NoDup (map employee_id (_employees_list (self w))) ->
  update_committed (update_employee w).2 ->
  exists (id_line : string) (rest : list string) (old new : Employee),
    stdin w = id_line :: rest /\
    _find_employee_by_id (self w) (Py.strip id_line) = Some old /\
    _find_employee_by_id (self (update_employee w).2) (Py.strip id_line)
      = Some new /\
    employee_id new = Py.strip id_line /\
    (forall id, id <> Py.strip id_line ->
       _find_employee_by_id (self (update_employee w).2) id
         = _find_employee_by_id (self w) id) /\
    map employee_id (_employees_list (self (update_employee w).2))
      = map employee_id (_employees_list (self w)).
Proof.
  intros Hn Hc.
  destruct (update_employee_effect w) as [[Hnc _]|[_ H]]; [contradiction|].
  destruct H as (i & old & new & typed & Hin & Hf & Hold & Hself & _).
  destruct Hf as (a & b & c & d & e & f & g & -> & Hid & Hnew & _).
  exists a, ([b; c; d; e; f; g] ++ stdin (update_employee w).2), old, new.
  assert (Hids : map employee_id (<[i := new]> (_employees_list (self w)))
                 = map employee_id (_employees_list (self w))).
  { change (employee_id <$> <[i:=new]> (_employees_list (self w))
            = employee_id <$> _employees_list (self w)).
    rewrite list_fmap_insert. apply list_insert_id.
    rewrite list_lookup_fmap, Hold. simpl. congruence. }
  unfold _find_employee_by_id. rewrite Hself. cbn [with_list _employees_list].
  split; [exact Hin|].
  split; [rewrite <- Hid; exact (find_unique _ i old Hn Hold)|].
  split.
  { rewrite <- Hid, <- Hnew. apply (find_unique _ i new).
    - rewrite Hids. exact Hn.
    - apply list_lookup_insert_eq. eapply lookup_lt_Some, Hold. }
  split; [congruence|].
  split; [|exact Hids].
  intros id Hne. apply (find_insert_other id _ i old new Hold Hnew). congruence.
Qed.

Lemma update_employee_then_find_witness :
  NoDup (map employee_id (_employees_list (self update_sample))) /\
  update_committed (update_employee update_sample).2 /\
  exists new,
    _find_employee_by_id (self (update_employee update_sample).2) "BF001"
      = Some new /\
    employee_id new = "BF001".
Proof.
  assert (Hn : NoDup (map employee_id (_employees_list (self update_sample)))).
  { apply (bool_decide_unpack _). vm_compute. exact I. }
  assert (Hc : update_committed (update_employee update_sample).2)
    by (vm_compute; reflexivity).
  split; [exact Hn|]. split; [exact Hc|].
  destruct (update_employee_then_find update_sample Hn Hc)
    as (a & rest & old & new & Hin & _ & Hnew & Hid & _).
  injection Hin as <- _. exists new. split; [exact Hnew | exact Hid].
Defined.


(** What [delete_employee] does when it changes something: the typed id is
    the id of an employee, the answer is yes, and the first employee with
    that id is removed. *)
Lemma delete_employee_detail (w : world) :
  post delete_employee w (fun _ w' =>
    (self w' = self w /\ disk w' = disk w) \/
    exists (id_line answer : string) (e : Employee) (i : nat),
      stdin w = id_line :: answer :: stdin w' /\
      yes_or_y (Py.strip (Py.lower answer)) = true /\
      _employees_list (self w) !! i = Some e /\
      employee_id e = Py.strip id_line /\
      self w' = with_list (self w) (delete i (_employees_list (self w))) /\
      disk w' = Some (_save_employees (self w'))).
Proof.
  unfold delete_employee, delete_employee_with. wp.
  all: try (left; split; reflexivity).
  right.
  match goal with
  | Hs : stdin ?v = ?a :: ?b :: ?r,
    Hb : (_find_employee_index_by_id (self ?v) ?id =? -1) = false |- _ =>
      exists a, b;
      apply Z.eqb_neq in Hb;
      destruct (find_index_from_found id (_employees_list (self v)) 0
                  (_find_employee_index_by_id (self v) id)
                  eq_refl Hb (Z.le_refl 0)) as [_ [x [Hx Hid]]];
      rewrite Z.sub_0_r in Hx;
      exists x, (Z.to_nat (_find_employee_index_by_id (self v) id))
  end.
  match goal with
  | Hl : _employees_list (self ?v) = _ |- _ => rewrite <- Hl in *
  end.
  repeat split; assumption.
Qed.

(** X9: looking up after [delete_employee], in a list without repeated
    ids.  The call leaves the list and the file as they are, or it has read
    an id and an answer that is yes: the id, stripped, was found before and
    is not found afterwards, the lookup of every other id gives what it gave
    before, the list is one shorter, and the file has been written. *)
Theorem delete_employee_then_find (w : world) :
  NoDup (map employee_id (_employees_list (self w))) ->
  (self (delete_employee w).2 = self w /\ disk (delete_employee w).2 = disk w) \/
  exists (id_line answer : string) (e : Employee),
    stdin w = id_line :: answer :: stdin (delete_employee w).2 /\
    yes_or_y (Py.strip (Py.lower answer)) = true /\
    _find_employee_by_id (self w) (Py.strip id_line) = Some e /\
    _find_employee_by_id (self (delete_employee w).2) (Py.strip id_line) = None /\
    (forall id, id <> Py.strip id_line ->
       _find_employee_by_id (self (delete_employee w).2) id
         = _find_employee_by_id (self w) id) /\
    len (_employees_list (self (delete_employee w).2))
      = len (_employees_list (self w)) - 1 /\
    disk (delete_employee w).2
      = Some (_save_employees (self (delete_employee w).2)).
Proof.
  intros Hn.
  destruct (delete_employee_detail w)
    as [H|(a & b & e & i & Hin & Hy & He & Hid & Hs & Hd)]; [left; exact H|].
  right. exists a, b, e. unfold _find_employee_by_id.
  rewrite Hs in *. cbn [with_list _employees_list] in *.
  split; [exact Hin|]. split; [exact Hy|].
  split; [rewrite <- Hid; exact (find_unique _ i e Hn He)|].
  split; [rewrite (find_delete _ _ i e Hn He), Hid, String.eqb_refl; reflexivity|].
  split.
  { intros id Hne. rewrite (find_delete _ _ i e Hn He), Hid.
    destruct (String.eqb_spec (Py.strip a) id); congruence. }
  split; [|exact Hd].
  unfold len. rewrite length_delete by (rewrite He; eauto).
  apply lookup_lt_Some in He. lia.
Qed.

Lemma delete_employee_then_find_witness :
  NoDup (map employee_id (_employees_list (self delete_sample))) /\
  map employee_id (_employees_list (self delete_sample)) = ["BF001"; "BF002"] /\
  _find_employee_by_id (self (delete_employee delete_sample).2) "BF001" = None.
Proof.
  assert (Hn : NoDup (map employee_id (_employees_list (self delete_sample)))).
  { apply (bool_decide_unpack _). vm_compute. exact I. }
  split; [exact Hn|]. split; [vm_compute; reflexivity|].
  destruct (delete_employee_then_find delete_sample Hn)
    as [[Hs _]|(a & b & e & Hin & _ & _ & Hnone & _)].
  - exfalso. apply (f_equal (fun s => len (_employees_list s))) in Hs.
    vm_compute in Hs. discriminate.
  - change (stdin delete_sample) with ["BF001"; "y"] in Hin.
    injection Hin as <- _. exact Hnone.
Defined.

(** ** The stored text fields *)

(** A salary text that the validator accepts is read as a float whose own
    text the validator accepts. *)
Lemma float_of_salary_str_valid (s : string) (x : spec_float) :
  (is_valid_salary_format s).1 = true ->
  float_of_salary (SalaryStr s) = Return x ->
  (is_valid_salary_format (PyFloat.repr x)).1 = true.
Proof.
  intros H Hx. apply is_valid_salary_format_accepts in H as [_ (y & Hy & Hl)].
  unfold float_of_salary in Hx. rewrite Hy in Hx. injection Hx as <-.
  apply is_valid_salary_format_repr, Hl.
Qed.

Lemma constructed_well_formed (e : Employee) : constructed e -> well_formed e.
Proof.
  intros (i & n & d & s & m & c & H). unfold well_formed.
  apply Employee_init_fields in H
    as (Hi & Hn & Hd & Hs & Hm & Hc & Hx & -> & -> & -> & -> & ->).
  destruct valid_after_strip as (Vi & Vn & Vd & Vm & Vc).
  split; [|repeat split; apply strip_idempotent].
  repeat split; auto.
  destruct s as [s|x]; [exact (float_of_salary_str_valid s _ Hs Hx)|].
  injection Hx as <-. exact Hs.
Qed.

(** A typed value that [update_employee] takes has passed its validator. *)
Ltac typed_value :=
  repeat match goal with
         | H : Py.truthy ?s && negb _ = false |- _ =>
             destruct (Py.truthy s) eqn:?; simpl in H;
             [apply negb_false_iff in H | clear H]
         | H : true && negb _ = false |- _ =>
             simpl in H; apply negb_false_iff in H
         end.

(** An update replaces a well-formed employee by a well-formed one. *)
Lemma update_employee_well_formed (w : world) :
  post update_employee w (fun _ w' =>
    self w' = self w \/
    exists (i : nat) (old new : Employee),
      _employees_list (self w) !! i = Some old /\
      self w' = with_list (self w) (<[i := new]> (_employees_list (self w))) /\
      (well_formed old -> well_formed new)).
Proof.
  unfold update_employee, update_employee_with. wp.
  all: try (left; reflexivity).
  all: right.
  all: match goal with
       | Hl : _employees_list (self ?v) = _ |- _ => rewrite <- Hl in *
       end.
  all: match goal with
       | Hf : _ !! ?i = Some ?old |- _ => exists i, old; eexists
       end.
  all: split; [eassumption|]. all: split; [reflexivity|].
  all: intros ((Vi & Vn & Vd & Vm & Vc & Vs) & (Si & Sn & Sd & Sm & Sc)).
  all: typed_value.
  all: split; cbn [employee_id name department salary email contact_details];
    repeat split;
    first [assumption | apply strip_idempotent
          | match goal with
            | H : float_of_salary (SalaryStr ?s) = Return ?x,
              Hv : (is_valid_salary_format ?s).1 = true |- _ =>
                exact (float_of_salary_str_valid s x Hv H)
            end].
Qed.

Lemma menu_turn_well_formed (w : world) :
  Forall well_formed (_employees_list (self w)) ->
  post menu_turn w (fun _ w' => Forall well_formed (_employees_list (self w'))).
Proof.
  intros Hw. unfold menu_turn, menu_turn_with. wp.
  all: try exact Hw.
  - eapply post_weaken; [apply add_employee_effect|]. after_command.
    all: cbn [self] in *;
      destruct Heff as [[-> _]|(e & Hc & _ & -> & _)]; [exact Hw|].
    all: cbn [with_list _employees_list]; apply Forall_app; split;
      [exact Hw | repeat constructor; apply constructed_well_formed, Hc].
  - eapply post_weaken; [apply view_employee_effect|]. after_command.
    all: destruct Heff as [-> _]; exact Hw.
  - eapply post_weaken; [apply update_employee_well_formed|]. after_command.
    all: cbn [self] in *;
      destruct Heff as [->|(i & old & new & Hold & -> & Hnew)]; [exact Hw|].
    all: cbn [with_list _employees_list]; apply Forall_insert; [exact Hw|].
    all: apply Hnew; rewrite Forall_forall in Hw; apply Hw;
      eapply list_elem_of_lookup_2, Hold.
  - eapply post_weaken; [apply delete_employee_effect|]. after_command.
    all: cbn [self] in *; destruct Heff as [[-> _]|(i & -> & _)]; [exact Hw|].
    all: apply Forall_delete, Hw.
  - eapply post_weaken; [apply list_all_employees_effect|]. after_command.
    all: destruct Heff as [-> _]; exact Hw.
  - eapply post_weaken; [apply generate_department_report_effect|]. after_command.
    all: destruct Heff as [-> _]; exact Hw.
Qed.

Lemma reachable_well_formed (w : world) :
  reachable w -> Forall well_formed (_employees_list (self w)).
Proof.
  induction 1 as [fn delim keys file typed|w m Hw IH|w Hw IH].
  - unfold boot, EmployeeManagementSystem_init.
    pose proof (_load_employees_inv (mkSystem fn delim keys []) file) as [_ Hc].
    destruct (_load_employees _ file) as [out data]. simpl in *.
    eapply Forall_impl; [exact Hc|]. apply constructed_well_formed.
  - exact IH.
  - exact (menu_turn_well_formed w IH).
Qed.

(** The constructor, called on the fields of a well-formed employee, gives
    the employee back. *)
Lemma Employee_init_well_formed (e : Employee) :
  well_formed e ->
  Employee_init (employee_id e) (name e) (department e)
    (SalaryFloat (salary e)) (email e) (contact_details e) = Return e.
Proof.
  intros ((Vi & Vn & Vd & Vm & Vc & Vs) & (Si & Sn & Sd & Sm & Sc)).
  unfold Employee_init. cbn [str_of_salary float_of_salary].
  rewrite Vi, Vn, Vd, Vs, Vm, Vc. cbn [negb].
  rewrite Si, Sn, Sd, Sm, Sc. destruct e; reflexivity.
Qed.

(** X10: in every state between two turns of the menu, each employee of
    the list is as the constructor leaves it, although [update_employee]
    assigns the fields without calling it: the text fields pass their
    validators and are stripped, the text of the salary passes the salary
    test, and the constructor called on the six fields returns the same
    employee. *)
Theorem stored_employees_valid (w : world) :
  reachable w ->
  Forall (fun e =>
            well_formed e /\
            Employee_init (employee_id e) (name e) (department e)
              (SalaryFloat (salary e)) (email e) (contact_details e)
              = Return e)
         (_employees_list (self w)).
Proof.
  intros Hw. eapply Forall_impl; [exact (reachable_well_formed w Hw)|].
  intros e He. split; [exact He | apply Employee_init_well_formed, He].
Qed.

Lemma stored_employees_valid_witness :
  reachable sample_world /\
  map employee_id (_employees_list (self sample_world)) = ["BF002"; "BF005"] /\
  Forall well_formed (_employees_list (self sample_world)).
Proof.
  split; [apply main_reachable|]. split; [vm_compute; reflexivity|].
  eapply Forall_impl; [apply (stored_employees_valid sample_world), main_reachable|].
  intros e [H _]. exact H.
Defined.

(** ** Does a department exist *)

Lemma well_formed_dept_key (e : Employee) :
  well_formed e -> dept_key_of e = Py.lower (department e).
Proof.
  intros ((_ & _ & Vd & _) & (_ & _ & Sd & _)).
  apply is_valid_department_format_truthy, truthy_strip in Vd.
  unfold dept_key_of. rewrite Vd, Sd. reflexivity.
Qed.

(** X11: in every state between two turns of the menu,
    [_does_department_exist] holds of a name exactly when the name is not
    empty and its lower-case form is a key of the department report.  The
    name is compared as it is given, not stripped. *)
Theorem does_department_exist_report (w : world) (department_name : string) :
  reachable w ->
  (_does_department_exist (self w) department_name = true <->
   department_name <> EmptyString /\
   Py.lower department_name
     ∈ map fst (group_by_department (_employees_list (self w)))).
Proof.
  intros Hw. pose proof (reachable_well_formed w Hw) as Hwf.
  rewrite Forall_forall in Hwf.
  destruct (group_loop (_employees_list (self w)) []) as (_ & Hk & _).
  cbn zeta in Hk. unfold group_by_department. rewrite Hk.
  unfold _does_department_exist.
  destruct department_name as [|c d].
  - simpl. split; [discriminate | intros [H _]; congruence].
  - cbn [Py.truthy negb]. rewrite existsb_exists. split.
    + intros (e & Hin & He). apply andb_prop in He as [_ He].
      apply String.eqb_eq in He. apply list_elem_of_In in Hin.
      split; [discriminate|]. right. exists e. split; [exact Hin|].
      rewrite (well_formed_dept_key e (Hwf e Hin)). exact He.
    + intros [_ [Hin|(e & Hin & He)]]; [inversion Hin|].
      exists e. split; [apply list_elem_of_In, Hin|].
      pose proof (Hwf e Hin) as Hwe.
      rewrite (well_formed_dept_key e Hwe) in He. rewrite He, String.eqb_refl.
      destruct Hwe as ((_ & _ & Vd & _) & _).
      apply is_valid_department_format_truthy, truthy_strip in Vd.
      rewrite Vd. reflexivity.
Qed.

Lemma does_department_exist_report_witness :
  reachable sample_world /\
  _does_department_exist (self sample_world) "SALES" = true /\
  (_does_department_exist (self sample_world) "SALES" = true <->
   "SALES" <> EmptyString /\
   Py.lower "SALES"
     ∈ map fst (group_by_department (_employees_list (self sample_world)))).
Proof.
  split; [apply main_reachable|]. split; [vm_compute; reflexivity|].
  apply (does_department_exist_report sample_world), main_reachable.
Defined.

(** ** Which lines of the file are read *)

Lemma load_lines_data (this : EmployeeManagementSystem) (lines : list string)
    (n m : Z) (data : list Employee) :
  (load_lines this lines n data).2 =
  (load_lines this (List.filter Py.truthy (map Py.strip lines)) m data).2.
Proof.
  revert n m data. induction lines as [|raw rest IH]; intros n m data;
    [reflexivity|].
  assert (Hgo : forall out out' d,
    (let '(o, r) := load_lines this rest (n + 1) d in (out ++ o, r)).2 =
    (let '(o, r) :=
       load_lines this
         (List.filter Py.truthy (map Py.strip rest)) (m + 1) d in
     (out' ++ o, r)).2).
  { intros out out' d. specialize (IH (n + 1) (m + 1) d).
    destruct (load_lines this rest (n + 1) d),
      (load_lines this (List.filter _ _) (m + 1) d). exact IH. }
  cbn [List.filter map]. destruct (Py.truthy (Py.strip raw)) eqn:E.
  - cbn [load_lines]. rewrite strip_idempotent, E. cbn [negb].
    destruct (Py.split (Py.strip raw) (_delimiter this)); [|reflexivity].
    destruct (len l =? len (_employee_keys this)); [|apply Hgo].
    destruct (from_dict _) as [out [[e|]|[msg| |]]]; try apply Hgo.
    destruct (existsb _ data); apply Hgo.
  - cbn [load_lines]. rewrite E. cbn [negb].
    specialize (IH (n + 1) m data).
    destruct (load_lines this rest (n + 1) data). exact IH.
Qed.

(** X12: [_load_employees] looks only at the lines after the first,
    stripped, that are not empty.  Two files that agree on them give the same
    list: the first line is never compared with the keys, blank lines are
    passed over, and the kind of line end and blanks around a line make no
    difference. *)
Theorem load_reads_data_lines_only (this : EmployeeManagementSystem)
    (text1 text2 : string) :
  data_lines text1 = data_lines text2 ->
  (_load_employees this (Some text1)).2 = (_load_employees this (Some text2)).2.
Proof.
  intros H.
  assert (Hl : forall text,
    (_load_employees this (Some text)).2 =
    match _delimiter this with
    | EmptyString => []
    | _ => match (load_lines this (data_lines text) 2 []).2 with
           | Return d => d
           | Raise _ => []
           end
    end).
  { intros text. unfold _load_employees, Py.split, data_lines.
    rewrite <- (load_lines_data this _ 2 2 []).
    destruct (_delimiter this); [reflexivity|].
    destruct (load_lines this (List.tl (Py.text_lines text)) 2 [])
      as [out [d|[msg| |]]]; reflexivity. }
  rewrite !Hl, H. reflexivity.
Qed.

Lemma load_reads_data_lines_only_witness :
  data_lines sample_file_variant = data_lines sample_file /\
  map employee_id (_load_employees test_system (Some sample_file_variant)).2
    = ["BF001"; "BF002"] /\
  (_load_employees test_system (Some sample_file_variant)).2
    = (_load_employees test_system (Some sample_file)).2.
Proof.
  assert (H : data_lines sample_file_variant = data_lines sample_file).
  { vm_compute. reflexivity. }
  split; [exact H|]. split; [vm_compute; reflexivity|].
  apply (load_reads_data_lines_only test_system _ _ H).
Defined.

(** ** Saving and loading again *)

Lemma to_dict_values (e : Employee) :
  map (fun key => Py.get (to_dict e) key "") EMPLOYEE_KEYS =
  [employee_id e; name e; department e; PyFloat.format_2f (salary e);
   email e; contact_details e].
Proof.
  unfold Py.get, to_dict, Py.dict, EMPLOYEE_KEYS; simpl.
  repeat f_equal;
    repeat (rewrite lookup_insert_ne by discriminate);
    rewrite lookup_insert_eq; reflexivity.
Qed.

Lemma save_line_default (this : EmployeeManagementSystem) (e : Employee) :
  _delimiter this = DELIMITER -> _employee_keys this = EMPLOYEE_KEYS ->
  save_line this e = line_of e +:+ Py.newline.
Proof.
  intros Hd Hk. unfold save_line. rewrite Hd, Hk, to_dict_values.
  reflexivity.
Qed.

Lemma split_from_last (a : string) :
  no_delimiter a = true -> Py.split_from "," a O = [a].
Proof.
  induction a as [|c a IH]; [reflexivity|]. intros H.
  apply andb_prop in H as [Hc Ha]. apply negb_true_iff, Ascii.eqb_neq in Hc.
  cbn [Py.split_from String.prefix].
  destruct (ascii_dec "," c) as [E|_]; [congruence|].
  rewrite (IH Ha). reflexivity.
Qed.

Lemma split_from_comma (a rest : string) :
  no_delimiter a = true ->
  Py.split_from "," (a +:+ "," +:+ rest) O = a :: Py.split_from "," rest O.
Proof.
  induction a as [|c a IH]; intros H.
  - change (EmptyString +:+ "," +:+ rest) with (String "," rest).
    cbn [Py.split_from String.prefix].
    destruct (ascii_dec "," ",") as [_|E]; [|congruence].
    destruct rest; reflexivity.
  - apply andb_prop in H as [Hc Ha]. apply negb_true_iff, Ascii.eqb_neq in Hc.
    change (String c a +:+ "," +:+ rest) with (String c (a +:+ "," +:+ rest)).
    cbn [Py.split_from String.prefix].
    destruct (ascii_dec "," c) as [E|_]; [congruence|].
    rewrite (IH Ha). reflexivity.
Qed.

(** A text that begins and ends with a stripped text is stripped. *)
Lemma rstrip_app_fixed (ws : ascii -> bool) (x z : string) :
  Py.rstrip_with ws z = z -> Py.truthy z = true ->
  Py.rstrip_with ws (x +:+ z) = x +:+ z.
Proof.
  intros Hz Ht. induction x as [|c x IH]; [exact Hz|].
  change (String c x +:+ z) with (String c (x +:+ z)).
  cbn [Py.rstrip_with]. rewrite IH.
  destruct (x +:+ z) eqn:E; [|reflexivity].
  destruct x; [|discriminate E].
  change (z = EmptyString) in E. subst z. discriminate Ht.
Qed.

Lemma strip_fixed_first (a : string) :
  Py.strip a = a ->
  match a with
  | EmptyString => True
  | String c _ => Py.isspace_char c = false
  end.
Proof.
  unfold Py.strip. intros H.
  pose proof (rstrip_first _ _ (lstrip_first Py.isspace_char a)) as Hf.
  rewrite H in Hf. destruct a; [exact I | exact Hf].
Qed.

Lemma strip_fixed_rstrip (z : string) :
  Py.strip z = z -> Py.rstrip_with Py.isspace_char z = z.
Proof.
  unfold Py.strip. intros H. rewrite <- H at 1. rewrite rstrip_idempotent. exact H.
Qed.

Lemma strip_fixed_app (a mid z : string) :
  Py.strip a = a -> Py.truthy a = true ->
  Py.strip z = z -> Py.truthy z = true ->
  Py.strip (a +:+ mid +:+ z) = a +:+ mid +:+ z.
Proof.
  intros Ha Hta Hz Htz. unfold Py.strip.
  rewrite lstrip_fixed.
  - rewrite <- append_assoc.
    apply rstrip_app_fixed; [apply strip_fixed_rstrip, Hz | exact Htz].
  - apply strip_fixed_first in Ha. destruct a as [|c a]; [discriminate Hta|].
    exact Ha.
Qed.

Lemma text_lines_saved (bodies : list string) :
  Forall (fun b => no_break b = true) bodies ->
  Py.text_lines (String.concat "" (map (fun b => b +:+ Py.newline) bodies))
  = map (fun b => b +:+ Py.newline) bodies.
Proof.
  induction 1 as [|b bodies Hb _ IH]; [reflexivity|].
  destruct bodies as [|b' bodies].
  - cbn [map String.concat].
    change (b +:+ Py.newline) with (b +:+ Py.newline +:+ EmptyString) at 1.
    rewrite (text_lines_line b _ Hb). reflexivity.
  - change (String.concat "" (map (fun b => b +:+ Py.newline) (b :: b' :: bodies)))
      with ((b +:+ Py.newline)
            +:+ String.concat "" (map (fun b => b +:+ Py.newline) (b' :: bodies))).
    rewrite append_assoc, (text_lines_line b _ Hb), IH. reflexivity.
Qed.


Lemma field_char_facts (c : ascii) :
  (Py.isalnum_char c = true \/ name_class c = true \/ department_class c = true
   \/ salary_char c = true ->
   negb (Ascii.eqb c ",") = true) /\
  (Py.isalnum_char c = true \/ name_class c = true \/ department_class c = true
   \/ salary_char c = true \/ non_space c = true ->
   negb (Ascii.eqb c Py.LF) && negb (Ascii.eqb c Py.CR) = true).
Proof.
  destruct c as [[] [] [] [] [] [] [] []]; vm_compute; intuition congruence.
Qed.

Lemma email_words (s : string) :
  (is_valid_email_format s).1 = true -> Py.strip s = s ->
  Py.forallb_str non_space s = true.
Proof.
  intros H Hs. apply is_valid_email_format_match, re_match_email_pattern in H
    as (a & b & c & E & [_ Ha] & [_ Hb] & [_ Hc]).
  rewrite Hs in E. subst s.
  rewrite !forallb_str_app, Ha, Hb, Hc. reflexivity.
Qed.

(** The fields of a storable employee have no delimiter and no line break,
    and its line is stripped. *)
Lemma storable_fields (e : Employee) :
  storable e ->
  (no_delimiter (employee_id e) = true /\ no_delimiter (name e) = true /\
   no_delimiter (department e) = true /\
   no_delimiter (PyFloat.format_2f (salary e)) = true) /\
  no_break (line_of e) = true /\
  Py.strip (line_of e) = line_of e /\ Py.truthy (line_of e) = true.
Proof.
  intros (((Vi & Vn & Vd & Vm & Vc & Vs) & (Si & Sn & Sd & Sm & Sc)) & Dm & Dc & Bc).
  assert (Hi : Py.forallb_str Py.isalnum_char (employee_id e) = true).
  { unfold is_valid_employee_id_format, Py.isalnum in Vi.
    destruct (Py.truthy (employee_id e)); [|discriminate Vi]. simpl in Vi.
    destruct (Py.forallb_str Py.isalnum_char (employee_id e));
      [reflexivity | discriminate Vi]. }
  assert (Hti : Py.truthy (employee_id e) = true).
  { unfold is_valid_employee_id_format in Vi.
    destruct (Py.truthy (employee_id e)); [reflexivity | discriminate Vi]. }
  apply is_valid_name_format_chars in Vn as [_ Hn]. rewrite Sn in Hn.
  apply is_valid_department_format_chars in Vd as [_ Hd]. rewrite Sd in Hd.
  pose proof (email_words _ Vm Sm) as Hm.
  pose proof (format_2f_chars (salary e)) as Hs.
  assert (Htc : Py.truthy (contact_details e) = true).
  { unfold is_valid_contact_details_format in Vc.
    destruct (Py.truthy (contact_details e)); [reflexivity | discriminate Vc]. }
  split; [|split; [|split]].
  - repeat split; unfold no_delimiter;
      (eapply forallb_str_impl; [|eassumption]);
      intros c Hc; apply (proj1 (field_char_facts c)); auto.
  - unfold line_of, no_break. rewrite !forallb_str_app.
    repeat (apply andb_true_intro; split); try reflexivity; try exact Bc;
      (eapply forallb_str_impl; [|eassumption]);
      intros c Hc; apply (proj2 (field_char_facts c)); auto 6.
  - unfold line_of.
    apply (strip_fixed_app (employee_id e)
             ("," +:+ name e +:+ "," +:+ department e +:+ ","
              +:+ PyFloat.format_2f (salary e) +:+ "," +:+ email e +:+ ",")
             (contact_details e)) in Si; try assumption.
    rewrite !append_assoc in Si. exact Si.
  - unfold line_of. destruct (employee_id e); [discriminate Hti | reflexivity].
Qed.

Lemma split_line_of (e : Employee) :
  storable e ->
  Py.split_from "," (line_of e) O =
  [employee_id e; name e; department e; PyFloat.format_2f (salary e);
   email e; contact_details e].
Proof.
  intros He. destruct (storable_fields e He) as ((Di & Dn & Dd & Ds) & _).
  destruct He as (_ & Dm & Dc & _). unfold line_of.
  rewrite !split_from_comma by assumption.
  rewrite split_from_last by assumption. reflexivity.
Qed.

(** [from_dict] on the values of a saved line. *)
Lemma from_dict_saved (e : Employee) :
  well_formed e ->
  (is_valid_salary_format (PyFloat.repr (PyFloat.round_2 (salary e)))).1 = true ->
  from_dict (Py.dict (Py.zip EMPLOYEE_KEYS
    [employee_id e; name e; department e; PyFloat.format_2f (salary e);
     email e; contact_details e])) = ([], Return (Some (reloaded e))).
Proof.
  intros ((Vi & Vn & Vd & Vm & Vc & Vs) & (Si & Sn & Sd & Sm & Sc)) Hv.
  unfold from_dict.
  destruct (dict_of_six_values (employee_id e) (name e) (department e)
              (PyFloat.format_2f (salary e)) (email e) (contact_details e))
    as (-> & -> & -> & -> & -> & ->).
  rewrite of_str_format_2f. unfold Employee_init.
  cbn [str_of_salary float_of_salary].
  rewrite Vi, Vn, Vd, Hv, Vm, Vc. cbn [negb].
  rewrite Si, Sn, Sd, Sm, Sc. reflexivity.
Qed.

Lemma load_lines_saved (this : EmployeeManagementSystem) (l : list Employee)
    (n : Z) (data : list Employee) :
  _delimiter this = DELIMITER -> _employee_keys this = EMPLOYEE_KEYS ->
  Forall storable l ->
  Forall (fun e => (is_valid_salary_format
                      (PyFloat.repr (PyFloat.round_2 (salary e)))).1 = true) l ->
  NoDup (map employee_id (data ++ l)) ->
  load_lines this (map (fun e => line_of e +:+ Py.newline) l) n data
  = ([], Return (data ++ map reloaded l)).
Proof.
  intros Hd Hk Hl Hs. revert n data.
  induction Hl as [|e l He Hl IH]; intros n data Hn.
  - simpl. rewrite app_nil_r. reflexivity.
  - apply Forall_cons in Hs as [Hse Hs]. specialize (IH Hs).
    destruct (storable_fields e He) as (_ & _ & Hstrip & Ht).
    cbn [map load_lines]. rewrite strip_newline, Hstrip, Ht. cbn [negb].
    rewrite Hd, Hk. unfold Py.split, DELIMITER at 1. fold DELIMITER.
    change (Py.split_from DELIMITER (line_of e) 0)
      with (Py.split_from "," (line_of e) 0).
    rewrite (split_line_of e He).
    change (len _ =? len EMPLOYEE_KEYS) with true. cbv iota.
    rewrite (from_dict_saved e (proj1 He) Hse).
    assert (Hex : existsb (same_id (employee_id (reloaded e))) data = false).
    { apply not_true_is_false. intros Hex. apply existsb_exists in Hex
        as (x & Hx & Hid). unfold same_id in Hid. apply String.eqb_eq in Hid.
      rewrite map_app in Hn. apply NoDup_app in Hn as (_ & Hdis & _).
      apply (Hdis (employee_id x)).
      - apply list_elem_of_fmap. exists x. split; [reflexivity|].
        apply list_elem_of_In, Hx.
      - rewrite Hid. left. }
    rewrite Hex.
    rewrite (IH (n + 1) (data ++ [reloaded e])).
    + rewrite <- app_assoc. reflexivity.
    + rewrite <- app_assoc. rewrite !map_app in *. exact Hn.
Qed.

Lemma save_load (this : EmployeeManagementSystem) :
  _delimiter this = DELIMITER -> _employee_keys this = EMPLOYEE_KEYS ->
  NoDup (map employee_id (_employees_list this)) ->
  Forall storable (_employees_list this) ->
  Forall (fun e => (is_valid_salary_format
                      (PyFloat.repr (PyFloat.round_2 (salary e)))).1 = true)
         (_employees_list this) ->
  _load_employees this (Some (_save_employees this)) =
  ([Text ("Successfully loaded " +:+ str_of_int (len (_employees_list this))
          +:+ " employee records from " +:+ _file_name this +:+ ".")],
   map reloaded (_employees_list this)).
Proof.
  intros Hd Hk Hn Hl Hs. unfold _load_employees, _save_employees.
  rewrite Hk, Hd.
  rewrite (text_lines_line (Py.join DELIMITER EMPLOYEE_KEYS)) by reflexivity.
  cbn [List.hd List.tl].
  destruct (Py.split _ DELIMITER) eqn:E; [clear E | discriminate E].
  rewrite (map_ext (save_line this) (fun e => line_of e +:+ Py.newline))
    by (intros e; apply save_line_default; assumption).
  rewrite <- (map_map line_of (fun b => b +:+ Py.newline)).
  rewrite text_lines_saved.
  2:{ apply Forall_map. eapply Forall_impl; [exact Hl|].
      intros e He. apply (storable_fields e He). }
  rewrite map_map.
  rewrite (load_lines_saved this _ 2 [] Hd Hk Hl Hs Hn).
  cbn [app]. unfold len. rewrite length_map. reflexivity.
Qed.


(** A salary that is not below zero stays so when it is rounded to two
    decimals, and its text passes the salary test. *)
Lemma reloaded_salary_valid (e : Employee) :
  PyFloat.ltb (salary e) PyFloat.zero = false ->
  (is_valid_salary_format (PyFloat.repr (PyFloat.round_2 (salary e)))).1 = true.
Proof. intros H. apply is_valid_salary_format_repr, round_2_nonneg, H. Qed.

(** X13: the salary test on the text of a float.  For every float that is
    not below zero, the validator accepts its [repr], which is what the
    constructor tests when it is given a float; [float] reads the text with
    two decimals that [to_dict] writes, as the salary rounded to two
    decimals, which is not below zero and whose [repr] is accepted again;
    and that text has neither the delimiter nor a line break. *)
Theorem salary_text_accepted (x : spec_float) :
  PyFloat.ltb x PyFloat.zero = false ->
  (is_valid_salary_format (PyFloat.repr x)).1 = true /\
  PyFloat.of_str (PyFloat.format_2f x) = Some (PyFloat.round_2 x) /\
  PyFloat.ltb (PyFloat.round_2 x) PyFloat.zero = false /\
  (is_valid_salary_format (PyFloat.repr (PyFloat.round_2 x))).1 = true /\
  no_delimiter (PyFloat.format_2f x) = true /\
  no_break (PyFloat.format_2f x) = true.
Proof.
  intros H. split; [apply is_valid_salary_format_repr, H|].
  split; [apply of_str_format_2f|]. split; [apply round_2_nonneg, H|].
  split; [apply is_valid_salary_format_repr, round_2_nonneg, H|].
  pose proof (format_2f_chars x) as Hc.
  split; [unfold no_delimiter | unfold no_break];
    (eapply forallb_str_impl; [|exact Hc]); intros c Hcc.
  - apply (proj1 (field_char_facts c)). auto.
  - apply (proj2 (field_char_facts c)). auto 6.
Qed.

Lemma salary_text_accepted_witness :
  PyFloat.ltb (salary comma_employee) PyFloat.zero = false /\
  PyFloat.repr (salary comma_employee) = "75000.5" /\
  (is_valid_salary_format (PyFloat.repr (salary comma_employee))).1 = true.
Proof.
  assert (H : PyFloat.ltb (salary comma_employee) PyFloat.zero = false)
    by reflexivity.
  split; [exact H|]. split; [vm_compute; reflexivity|].
  apply (salary_text_accepted (salary comma_employee) H).
Defined.

(** X14: where the round trip through a dictionary works.  For an employee
    as the constructor leaves it whose salary is not below zero,
    [from_dict(to_dict(e))] prints nothing and returns an employee with the
    same five text fields and the salary rounded to two decimals. *)
Theorem from_dict_to_dict_round_trip (e : Employee) :
  well_formed e -> PyFloat.ltb (salary e) PyFloat.zero = false ->
  from_dict (to_dict e) = ([], Return (Some (reloaded e))) /\
  employee_id (reloaded e) = employee_id e /\ name (reloaded e) = name e /\
  department (reloaded e) = department e /\ email (reloaded e) = email e /\
  contact_details (reloaded e) = contact_details e /\
  salary (reloaded e) = PyFloat.round_2 (salary e).
Proof.
  intros He Hs. split; [|repeat split].
  exact (from_dict_saved e He (reloaded_salary_valid e Hs)).
Qed.

Lemma from_dict_to_dict_round_trip_witness :
  well_formed comma_employee /\
  PyFloat.ltb (salary comma_employee) PyFloat.zero = false /\
  from_dict (to_dict comma_employee) = ([], Return (Some (reloaded comma_employee))).
Proof.
  assert (Hw : well_formed comma_employee) by (vm_compute; repeat split).
  assert (Hs : PyFloat.ltb (salary comma_employee) PyFloat.zero = false)
    by reflexivity.
  split; [exact Hw|]. split; [exact Hs|].
  apply (from_dict_to_dict_round_trip comma_employee Hw Hs).
Defined.

(** X15: saving and loading again.  Under the default delimiter and keys,
    for a list without repeated ids of employees as the constructor leaves
    them, with no delimiter in the email and the contact details, no line
    break in the contact details and no salary below zero,
    [_load_employees] on the text that [_save_employees] writes prints the
    count alone and returns the same employees in the same order, each with
    its salary rounded to two decimals. *)
Theorem save_load_round_trip (this : EmployeeManagementSystem) :
  _delimiter this = DELIMITER -> _employee_keys this = EMPLOYEE_KEYS ->
  NoDup (map employee_id (_employees_list this)) ->
  Forall (fun e => storable e /\ PyFloat.ltb (salary e) PyFloat.zero = false)
         (_employees_list this) ->
  _load_employees this (Some (_save_employees this)) =
  ([Text ("Successfully loaded " +:+ str_of_int (len (_employees_list this))
          +:+ " employee records from " +:+ _file_name this +:+ ".")],
   map reloaded (_employees_list this)).
Proof.
  intros Hd Hk Hn Hl. apply save_load; try assumption.
  - eapply Forall_impl; [exact Hl|]. intros e [He _]. exact He.
  - eapply Forall_impl; [exact Hl|]. intros e [_ He].
    apply reloaded_salary_valid, He.
Qed.

Lemma save_load_round_trip_witness :
  Forall (fun e => storable e /\ PyFloat.ltb (salary e) PyFloat.zero = false)
         (_employees_list saved_sample) /\
  (_load_employees saved_sample (Some (_save_employees saved_sample))).2
    = _employees_list saved_sample.
Proof.
  assert (Hl : Forall (fun e => storable e /\
                                PyFloat.ltb (salary e) PyFloat.zero = false)
                      (_employees_list saved_sample)).
  { repeat constructor; vm_compute; repeat split. }
  split; [exact Hl|].
  rewrite (save_load_round_trip saved_sample eq_refl eq_refl); [|
    apply (bool_decide_unpack _); vm_compute; exact I | exact Hl].
  vm_compute. reflexivity.
Defined.

(** ** Adding never fails *)

Lemma Employee_init_accepts (id name_ dept : string) (x : spec_float)
    (email_ contact : string) :
  (is_valid_employee_id_format id).1 = true ->
  (is_valid_name_format name_).1 = true ->
  (is_valid_department_format dept).1 = true ->
  PyFloat.ltb x PyFloat.zero = false ->
  (is_valid_email_format email_).1 = true ->
  (is_valid_contact_details_format contact).1 = true ->
  exists e, Employee_init id name_ dept (SalaryFloat x) email_ contact = Return e.
Proof.
  intros Hi Hn Hd Hx Hm Hc. unfold Employee_init.
  cbn [str_of_salary float_of_salary].
  rewrite Hi, Hn, Hd, (is_valid_salary_format_repr x Hx), Hm, Hc.
  eexists. reflexivity.
Qed.

(** What the six input loops of [add_employee] have established. *)
Ltac accepted_lines :=
  repeat match goal with
         | H : check_new_id _ _ = inr (Return _) |- _ =>
             apply check_new_id_accepted in H as ([= ->] & ? & ?)
         | H : check_with _ _ = inr (Return _) |- _ =>
             apply check_with_accepted in H as ([= ->] & ?)
         | H : check_salary _ = inr (Return _) |- _ =>
             apply check_salary_accepted in H as (? & [= <-] & ? & ?)
         end.

(** X16: [add_employee] never fails once the six values are accepted.  It
    raises [EOFError] with the list and the file unchanged, or it returns
    and has appended one employee, as the constructor leaves it and with a
    salary that is not below zero, has written the file and has ended with
    the confirmation email.  The constructor validates the six values again,
    the salary through the text of the float, and never turns them down. *)
Theorem add_employee_appends (w : world) :
  post add_employee w (fun r w' =>
    (r = Raise EOFError /\ stdin w' = [] /\
     self w' = self w /\ disk w' = disk w) \/
    (r = Return tt /\
     exists e,
       well_formed e /\ PyFloat.ltb (salary e) PyFloat.zero = false /\
       _find_employee_by_id (self w) (employee_id e) = None /\
       _employees_list (self w') = _employees_list (self w) ++ [e] /\
       disk w' = Some (_save_employees (self w')) /\
       last (stdout w')
         = Some (ConfirmationEmail (employee_id e) (email e) (name e)))).
Proof.
  unfold add_employee, add_employee_with. wp.
  all: try (left; repeat split; reflexivity).
  all: try never_raised.
  all: accepted_lines.
  all: try (exfalso;
            match goal with
            | H : Employee_init ?a ?b ?c (SalaryFloat ?x) ?d ?e = Raise _ |- _ =>
                destruct (Employee_init_accepts a b c x d e) as [? ?];
                [assumption.. | congruence]
            end).
  right. split; [reflexivity|].
  match goal with
  | H : Employee_init _ _ _ _ _ _ = Return ?e |- _ =>
      exists e; pose proof (constructed_well_formed e
                              ltac:(do 6 eexists; exact H)) as Hwf;
      apply Employee_init_fields in H
        as (_ & _ & _ & _ & _ & _ & Hx & Hid & Hn & _ & Hm & _)
  end.
  rewrite strip_idempotent in Hid, Hn, Hm.
  cbn [float_of_salary] in Hx. injection Hx as <-.
  split; [exact Hwf|]. split; [assumption|].
  split.
  { rewrite Hid.
    match goal with
    | H : _is_employee_id_unique _ _ = true |- _ =>
        unfold _is_employee_id_unique in H;
        destruct (_find_employee_by_id _ _); [discriminate H | reflexivity]
    end. }
  split; [reflexivity|]. split; [reflexivity|].
  cbn [stdout]. rewrite Hid, Hn, Hm. apply last_snoc.
Qed.

(** ** Starting again *)

Lemma menu_turn_config (w : world) :
  post menu_turn w (fun _ w' => config (self w') = config (self w)).
Proof.
  unfold menu_turn, menu_turn_with. wp.
  all: try reflexivity.
  - eapply post_weaken; [apply add_employee_effect|]. after_command.
    all: cbn [self] in *;
      destruct Heff as [[-> _]|(e & _ & _ & -> & _)]; reflexivity.
  - eapply post_weaken; [apply view_employee_effect|]. after_command.
    all: destruct Heff as [-> _]; reflexivity.
  - eapply post_weaken; [apply update_employee_effect|]. after_command.
    all: cbn [self] in *;
      destruct Heff as [(_ & -> & _)|(_ & i & old & new & typed & _ & _ & _ & -> & _)];
      reflexivity.
  - eapply post_weaken; [apply delete_employee_effect|]. after_command.
    all: cbn [self] in *; destruct Heff as [[-> _]|(i & -> & _)]; reflexivity.
  - eapply post_weaken; [apply list_all_employees_effect|]. after_command.
    all: destruct Heff as [-> _]; reflexivity.
  - eapply post_weaken; [apply generate_department_report_effect|]. after_command.
    all: destruct Heff as [-> _]; reflexivity.
Qed.

Lemma turns_config (fuel : nat) (w : world) :
  config (self (turns fuel w).2) = config (self w).
Proof.
  revert w. induction fuel as [|fuel IH]; intros w; try rewrite turns_S; [reflexivity|].
  unfold bind. pose proof (menu_turn_config w) as Hc. unfold post in Hc.
  destruct (menu_turn w) as [[[]|e] w1]; cbn [fst snd] in *; try exact Hc.
  rewrite IH. exact Hc.
Qed.

Lemma main_config (file : option string) (typed : list string) :
  config (self (main file typed).2) = (FILE_NAME, DELIMITER, EMPLOYEE_KEYS).
Proof.
  unfold main, run, run_with, bind, print. cbn [fst snd]. rewrite turns_config.
  cbn [self]. unfold boot, EmployeeManagementSystem_init.
  destruct (_load_employees _ file) as [out data]. reflexivity.
Qed.

(** Loading looks at the configuration of the system only, not at its
    list. *)
Lemma load_lines_config (s1 s2 : EmployeeManagementSystem)
    (lines : list string) (n : Z) (data : list Employee) :
  config s1 = config s2 ->
  load_lines s1 lines n data = load_lines s2 lines n data.
Proof.
  intros [= Hf Hd Hk]. revert n data.
  induction lines as [|raw rest IH]; intros n data; [reflexivity|].
  cbn [load_lines]. rewrite Hf, Hd, Hk.
  destruct (Py.truthy (Py.strip raw)); cbn [negb]; [|rewrite IH; reflexivity].
  destruct (Py.split (Py.strip raw) (_delimiter s2)); [|reflexivity].
  destruct (len l =? len (_employee_keys s2)); [|rewrite IH; reflexivity].
  destruct (from_dict _) as [out [[e|]|[msg| |]]]; try (rewrite IH; reflexivity).
  destruct (existsb _ data); rewrite IH; reflexivity.
Qed.

Lemma _load_employees_config (s1 s2 : EmployeeManagementSystem)
    (file : option string) :
  config s1 = config s2 -> _load_employees s1 file = _load_employees s2 file.
Proof.
  intros H. unfold _load_employees.
  destruct file as [text|].
  - rewrite (load_lines_config s1 s2 _ _ _ H).
    injection H as -> -> _. reflexivity.
  - injection H as -> _ _. reflexivity.
Qed.

(** X17: starting again.  When no write to the backing file has failed, the
    program has returned and, in its final list, no email and no contact
    details contain the delimiter, no contact details contain a line break
    and no salary is below zero, the program started again on the file it
    has left builds the same list, each salary rounded to two decimals. *)
Theorem restart_sees_saved_records (faults : world -> write_outcome)
    (file : option string) (typed typed' : list string) :
  let ended := run_with faults (boot FILE_NAME DELIMITER EMPLOYEE_KEYS file typed) in
  (forall v, faults v = Written) ->
  ended.1 = Return tt ->
  Forall (fun e => no_delimiter (email e) = true /\
                   no_delimiter (contact_details e) = true /\
                   no_break (contact_details e) = true /\
                   PyFloat.ltb (salary e) PyFloat.zero = false)
         (_employees_list (self ended.2)) ->
  _employees_list
    (self (boot FILE_NAME DELIMITER EMPLOYEE_KEYS (disk ended.2) typed'))
  = map reloaded (_employees_list (self ended.2)).
Proof.
  intros ended Hf. subst ended. rewrite (run_with_written faults _ Hf).
  fold (main file typed). intros Hr Hl.
  pose proof (main_reachable file typed) as Hw.
  pose proof (main_config file typed) as Hc.
  destruct (run_outcome (boot FILE_NAME DELIMITER EMPLOYEE_KEYS file typed))
    as [(_ & _ & Hd)|[He _]]; [|unfold main in Hr; congruence].
  fold (main file typed) in Hd.
  destruct (reachable_inv _ Hw) as [Hn _].
  pose proof (reachable_well_formed _ Hw) as Hwf.
  set (w := (main file typed).2) in *.
  unfold config in Hc. injection Hc as Hf' Hdel Hk.
  assert (Hsl : _load_employees (self w) (Some (_save_employees (self w)))
                = ([Text ("Successfully loaded "
                          +:+ str_of_int (len (_employees_list (self w)))
                          +:+ " employee records from " +:+ _file_name (self w)
                          +:+ ".")],
                   map reloaded (_employees_list (self w)))).
  { apply save_load; try assumption.
    - rewrite Forall_forall in *. intros e He.
      destruct (Hl e He) as (H1 & H2 & H3 & _).
      split; [exact (Hwf e He) | auto].
    - rewrite Forall_forall in *. intros e He.
      destruct (Hl e He) as (_ & _ & _ & Hs). apply reloaded_salary_valid, Hs. }
  unfold boot, EmployeeManagementSystem_init. rewrite Hd.
  rewrite (_load_employees_config _ (self w))
    by (unfold config; cbn [_file_name _delimiter _employee_keys]; congruence).
  rewrite Hsl. reflexivity.
Qed.

Lemma restart_sees_saved_records_witness :
  let ended :=
    run_with no_fault (boot FILE_NAME DELIMITER EMPLOYEE_KEYS None restart_session) in
  let refused :=
    run_with open_denied (boot FILE_NAME DELIMITER EMPLOYEE_KEYS None restart_session) in
  ended.1 = Return tt /\
  map employee_id
    (_employees_list
       (self (boot FILE_NAME DELIMITER EMPLOYEE_KEYS (disk ended.2) [])))
  = ["BF001"; "BF002"] /\
  _employees_list
    (self (boot FILE_NAME DELIMITER EMPLOYEE_KEYS (disk ended.2) []))
  = map reloaded (_employees_list (self ended.2)) /\
  refused.1 = Return tt /\
  _employees_list
    (self (boot FILE_NAME DELIMITER EMPLOYEE_KEYS (disk refused.2) [])) = [].
Proof.
  intros ended refused.
  assert (Hr : ended.1 = Return tt) by (vm_compute; reflexivity).
  split; [exact Hr|]. split; [vm_compute; reflexivity|].
  split; [|split; vm_compute; reflexivity].
  apply (restart_sees_saved_records no_fault None restart_session []
           (fun v => eq_refl) Hr).
  vm_compute. repeat constructor.
Defined.

(** ** Equal keys *)

Lemma insert_sorted_ties {A : Type} (key : A -> string) (x : A) (l : list A)
    (k : string) :
  List.filter (fun y => String.eqb (key y) k) (Py.insert_sorted key x l) =
  List.filter (fun y => String.eqb (key y) k) (x :: l).
Proof.
  induction l as [|y l IH]; [reflexivity|]. cbn [Py.insert_sorted].
  destruct (String.leb (key x) (key y)) eqn:E; [reflexivity|].
  cbn [List.filter] in *. rewrite IH.
  destruct (String.eqb_spec (key y) k) as [Ey|_]; [|reflexivity].
  destruct (String.eqb_spec (key x) k) as [Ex|_]; [|reflexivity].
  exfalso. rewrite Ex, Ey in E.
  destruct (String.leb_total k k); congruence.
Qed.

Lemma sorted_ties {A : Type} (key : A -> string) (l : list A) (k : string) :
  List.filter (fun y => String.eqb (key y) k) (Py.sorted key l) =
  List.filter (fun y => String.eqb (key y) k) l.
Proof.
  induction l as [|x l IH]; [reflexivity|]. cbn [Py.sorted foldr].
  rewrite insert_sorted_ties. cbn [List.filter].
  fold (Py.sorted key l). rewrite IH. reflexivity.
Qed.

(** X18: the sorts keep the order of ties.  In the listing, the employees
    with the same id, and in a section of the report the employees with the
    same name, come in the order of the list; the departments with the same
    displayed name come in the order in which they were first met. *)
Theorem sorted_keeps_order_of_ties :
  (forall (l : list Employee) (id : string),
     List.filter (fun e => String.eqb (employee_id e) id) (by_employee_id l)
     = List.filter (fun e => String.eqb (employee_id e) id) l) /\
  (forall (info : dept_info) (n : string),
     List.filter (fun e => String.eqb (name e) n)
                 (sorted_dept_list (section_of info))
     = List.filter (fun e => String.eqb (name e) n) (employees info)) /\
  (forall (departments_data : list (string * dept_info)) (n : string),
     List.filter
       (fun k => String.eqb (display_name (lookup_dept departments_data k)) n)
       (sorted_dept_keys departments_data)
     = List.filter
         (fun k => String.eqb (display_name (lookup_dept departments_data k)) n)
         (map fst departments_data)).
Proof.
  split; [|split].
  - intros l id. apply (sorted_ties employee_id).
  - intros info n. apply (sorted_ties name).
  - intros G n. unfold sorted_dept_keys.
    apply (sorted_ties (fun k => display_name (lookup_dept G k))).
Qed.

(** ** Valid input *)

Lemma ask_first {A} (check : string -> message + result A) (w : world)
    (line : string) (rest : list string) (a : result A) :
  stdin w = line :: rest -> check line = inr a ->
  ask check w = (a, {| self := self w; disk := disk w; stdin := rest;
                       stdout := stdout w |}).
Proof.
  intros Hs Hc. unfold ask. rewrite Hs. cbn [ask_lines]. rewrite Hc.
  rewrite app_nil_r. reflexivity.
Qed.

Lemma check_new_id_accepts (this : EmployeeManagementSystem) (line : string) :
  (is_valid_employee_id_format (Py.strip line)).1 = true ->
  _is_employee_id_unique this (Py.strip line) = true ->
  check_new_id this line = inr (Return (Py.strip line)).
Proof.
  intros Hv Hu. unfold check_new_id. rewrite Hu.
  destruct (is_valid_employee_id_format (Py.strip line)) as [ok msg].
  simpl in Hv. subst ok. reflexivity.
Qed.

Lemma check_with_accepts (valid : string -> bool * string) (line : string) :
  (valid (Py.strip line)).1 = true ->
  check_with valid line = inr (Return (Py.strip line)).
Proof.
  intros Hv. unfold check_with.
  destruct (valid (Py.strip line)) as [ok msg]. simpl in Hv. subst ok.
  reflexivity.
Qed.

Lemma check_salary_accepts (line : string) :
  (is_valid_salary_format (Py.strip line)).1 = true ->
  exists x, PyFloat.of_str (Py.strip line) = Some x /\
            PyFloat.ltb x PyFloat.zero = false /\
            check_salary line = inr (Return x).
Proof.
  intros Hv. pose proof Hv as Ha.
  apply is_valid_salary_format_accepts in Ha as [_ (x & Hx & Hl)].
  exists x. split; [exact Hx|]. split; [exact Hl|].
  unfold check_salary.
  destruct (is_valid_salary_format (Py.strip line)) as [ok msg].
  simpl in Hv. subst ok. cbn [negb float_of_salary]. rewrite Hx. reflexivity.
Qed.

(** An input loop whose first typed line is accepted. *)
Ltac typed_line Hstdin Hcheck :=
  erewrite ask_first;
  [| cbn [stdin]; first [exact Hstdin | reflexivity] | exact Hcheck];
  cbn [self disk stdin stdout].

(** X19: [add_employee] on valid input.  When the first six typed lines
    are, stripped, a well-formed id that is not in the list, a valid name,
    department, salary, email and contact details, the call returns, reads
    these six lines and no more, appends the employee of the six stripped
    values, the salary being the float of its text, writes the file, and
    prints the heading, the confirmation and the confirmation email. *)
Theorem add_employee_valid_input (w : world)
    (id_line name_line department_line salary_line email_line contact_line
     : string) (rest : list string) :
  stdin w = id_line :: name_line :: department_line :: salary_line
              :: email_line :: contact_line :: rest ->
  (is_valid_employee_id_format (Py.strip id_line)).1 = true ->
  _is_employee_id_unique (self w) (Py.strip id_line) = true ->
  (is_valid_name_format (Py.strip name_line)).1 = true ->
  (is_valid_department_format (Py.strip department_line)).1 = true ->
  (is_valid_salary_format (Py.strip salary_line)).1 = true ->
  (is_valid_email_format (Py.strip email_line)).1 = true ->
  (is_valid_contact_details_format (Py.strip contact_line)).1 = true ->
  exists x,
    PyFloat.of_str (Py.strip salary_line) = Some x /\
    let new_employee :=
      {| employee_id := Py.strip id_line; name := Py.strip name_line;
         department := Py.strip department_line; salary := x;
         email := Py.strip email_line;
         contact_details := Py.strip contact_line |} in
    let this := with_list (self w) (_employees_list (self w) ++ [new_employee]) in
    add_employee w =
    (Return tt,
     {| self := this; disk := Some (_save_employees this); stdin := rest;
        stdout := stdout w ++
          [Text (Py.newline +:+ "--- Add New Employee ---");
           Text (Py.newline +:+ "Confirmation: Employee '" +:+ Py.strip name_line
                 +:+ "' (ID: " +:+ Py.strip id_line
                 +:+ ") has been successfully added.");
           ConfirmationEmail (Py.strip id_line) (Py.strip email_line)
             (Py.strip name_line)] |}).
Proof.
  intros Hs Hi Hu Hn Hd Hsal Hm Hc.
  destruct (check_salary_accepts salary_line Hsal) as (x & Hx & Hl & Hcs).
  exists x. split; [exact Hx|]. cbn zeta.
  unfold add_employee, add_employee_with, bind, print, get_self. cbn [self disk stdin stdout].
  typed_line Hs (check_new_id_accepts _ _ Hi Hu).
  typed_line Hs (check_with_accepts _ _ Hn).
  typed_line Hs (check_with_accepts _ _ Hd).
  typed_line Hs Hcs.
  typed_line Hs (check_with_accepts _ _ Hm).
  typed_line Hs (check_with_accepts _ _ Hc).
  unfold Employee_init. cbn [str_of_salary float_of_salary].
  destruct valid_after_strip as (Vi & Vn & Vd & Vm & Vc).
  rewrite Hi, Hn, Hd, (is_valid_salary_format_repr x Hl), Hm, Hc.
  cbn [negb]. rewrite !strip_idempotent.
  unfold set_employees_list, save, save_with, no_fault, print. cbn [self disk stdin stdout].
  rewrite <- !app_assoc. reflexivity.
Qed.

Lemma found_index (this : EmployeeManagementSystem) (id : string) (e : Employee) :
  _find_employee_by_id this id = Some e ->
  exists i : nat,
    _find_employee_index_by_id this id = Z.of_nat i /\
    _employees_list this !! i = Some e /\ employee_id e = id.
Proof.
  intros H. pose proof (find_index_from_spec id (_employees_list this) 0) as Hi.
  unfold _find_employee_by_id in H. rewrite H in Hi.
  destruct Hi as (i & Hi & Hl & He & _). exists i. auto.
Qed.

(** X20: [delete_employee] on valid input.  When the first typed line,
    stripped, is a well-formed id that is found, the call shows that
    employee and reads the answer: on yes or y, in any case and with blanks
    around, the employee at the index of the id is removed and the file
    written; on any other answer the list and the file stay and the
    deletion is reported as cancelled. *)
Theorem delete_employee_valid_input (w : world) (id_line answer : string)
    (rest : list string) (e : Employee) :
  stdin w = id_line :: answer :: rest ->
  (is_valid_employee_id_format (Py.strip id_line)).1 = true ->
  _find_employee_by_id (self w) (Py.strip id_line) = Some e ->
  exists i : nat,
    _find_employee_index_by_id (self w) (Py.strip id_line) = Z.of_nat i /\
    _employees_list (self w) !! i = Some e /\
    let shown :=
      [Text (Py.newline +:+ "--- Delete Employee Record ---");
       Text (Py.newline +:+ "Employee Details to Delete:");
       Text ("  Employee ID: " +:+ employee_id e);
       Text ("  Name: " +:+ name e);
       Text ("  Department: " +:+ department e)] in
    let this := with_list (self w) (delete i (_employees_list (self w))) in
    delete_employee w =
    (Return tt,
     if yes_or_y (Py.strip (Py.lower answer)) then
       {| self := this; disk := Some (_save_employees this); stdin := rest;
          stdout := stdout w ++ shown ++
            [Text ("Employee with ID '" +:+ Py.strip id_line
                   +:+ "' has been successfully deleted.")] |}
     else
       {| self := self w; disk := disk w; stdin := rest;
          stdout := stdout w ++ shown ++ [Text "Deletion cancelled."] |}).
Proof.
  intros Hs Hv Hf. destruct (found_index _ _ _ Hf) as (i & Hi & Hl & He).
  exists i. split; [exact Hi|]. split; [exact Hl|]. cbn zeta.
  unfold delete_employee, delete_employee_with, input_stripped, bind, print, get_self, input, ret.
  cbn [self disk stdin stdout].
  destruct (_employees_list (self w)) as [|e0 l] eqn:El; [discriminate Hl|].
  rewrite Hs. cbn [self disk stdin stdout].
  destruct (is_valid_employee_id_format (Py.strip id_line)) as [ok msg].
  simpl in Hv. subst ok. cbn [negb]. rewrite Hi.
  destruct (Z.eqb_spec (Z.of_nat i) (-1)) as [E|_]; [lia|].
  unfold item. rewrite Nat2Z.id, Hl.
  unfold ret, print_all, set_employees_list, save, save_with, no_fault, print.
  cbn [self disk stdin stdout].
  destruct (yes_or_y (Py.strip (Py.lower answer)));
    cbn [self disk stdin stdout]; rewrite <- !app_assoc; reflexivity.
Qed.

(** X21: [update_employee] on valid input.  When the typed lines are an id
    that is found, five values each blank or valid, at least one of them not
    blank, and yes, the update is saved: the call returns, reads these seven
    lines and no more, replaces the employee at the index of the id by the
    one with the same id and, for each field, the typed value, stripped,
    or the old value when the line is blank, and writes the file. *)
Theorem update_employee_valid_input (w : world)
    (id_line name_line department_line salary_line email_line contact_line
     answer : string) (rest : list string) (e : Employee) :
  stdin w = id_line :: name_line :: department_line :: salary_line
              :: email_line :: contact_line :: answer :: rest ->
  (is_valid_employee_id_format (Py.strip id_line)).1 = true ->
  _find_employee_by_id (self w) (Py.strip id_line) = Some e ->
  (Py.truthy (Py.strip name_line) = true ->
   (is_valid_name_format (Py.strip name_line)).1 = true) ->
  (Py.truthy (Py.strip department_line) = true ->
   (is_valid_department_format (Py.strip department_line)).1 = true) ->
  (Py.truthy (Py.strip salary_line) = true ->
   (is_valid_salary_format (Py.strip salary_line)).1 = true) ->
  (Py.truthy (Py.strip email_line) = true ->
   (is_valid_email_format (Py.strip email_line)).1 = true) ->
  (Py.truthy (Py.strip contact_line) = true ->
   (is_valid_contact_details_format (Py.strip contact_line)).1 = true) ->
  Py.truthy (Py.strip name_line) || Py.truthy (Py.strip department_line)
  || Py.truthy (Py.strip salary_line) || Py.truthy (Py.strip email_line)
  || Py.truthy (Py.strip contact_line) = true ->
  yes_or_y (Py.strip (Py.lower answer)) = true ->
  exists (i : nat) (x : spec_float),
    _find_employee_index_by_id (self w) (Py.strip id_line) = Z.of_nat i /\
    _employees_list (self w) !! i = Some e /\
    (if Py.truthy (Py.strip salary_line)
     then PyFloat.of_str (Py.strip salary_line) = Some x
     else x = salary e) /\
    (update_employee w).1 = Return tt /\
    update_committed (update_employee w).2 /\
    stdin (update_employee w).2 = rest /\
    self (update_employee w).2 =
      with_list (self w)
        (<[i := {| employee_id := employee_id e;
                   name := if Py.truthy (Py.strip name_line)
                           then Py.strip name_line else name e;
                   department := if Py.truthy (Py.strip department_line)
                                 then Py.strip department_line
                                 else department e;
                   salary := x;
                   email := if Py.truthy (Py.strip email_line)
                            then Py.strip email_line else email e;
                   contact_details := if Py.truthy (Py.strip contact_line)
                                      then Py.strip contact_line
                                      else contact_details e |}]>
           (_employees_list (self w))) /\
    disk (update_employee w).2
      = Some (_save_employees (self (update_employee w).2)).
Proof.
  intros Hs Hv Hf Hn Hd Hsal Hm Hc Hany Hyes.
  destruct (found_index _ _ _ Hf) as (i & Hi & Hl & He).
  exists i.
  assert (H : post update_employee w (fun r w' =>
    exists x : spec_float,
      (if Py.truthy (Py.strip salary_line)
       then PyFloat.of_str (Py.strip salary_line) = Some x
       else x = salary e) /\
      r = Return tt /\ update_committed w' /\ stdin w' = rest /\
      self w' =
        with_list (self w)
          (<[i := {| employee_id := employee_id e;
                     name := if Py.truthy (Py.strip name_line)
                             then Py.strip name_line else name e;
                     department := if Py.truthy (Py.strip department_line)
                                   then Py.strip department_line
                                   else department e;
                     salary := x;
                     email := if Py.truthy (Py.strip email_line)
                              then Py.strip email_line else email e;
                     contact_details := if Py.truthy (Py.strip contact_line)
                                        then Py.strip contact_line
                                        else contact_details e |}]>
             (_employees_list (self w))) /\
      disk w' = Some (_save_employees (self w')))).
  { unfold update_employee, update_employee_with. wp.
    all: repeat match goal with
           | H1 : stdin ?v = _, H2 : stdin ?v = _ |- _ =>
               rewrite H1 in H2; simplify_eq
           end.
    all: try (rewrite Hl in *; discriminate).
    all: try never_raised.
    all: repeat match goal with
           | H : Py.truthy ?s && negb _ = true |- _ =>
               apply andb_prop in H as [? H]; apply negb_true_iff in H
           | H : is_valid_employee_id_format ?s = (_, _) |- _ =>
               rewrite H in *; cbn [fst] in *; subst
           | H : negb (_ || _) = true |- _ => apply negb_true_iff in H
           end.
    all: try (rewrite ?Hn, ?Hd, ?Hsal, ?Hm, ?Hc in * by assumption; discriminate).
    all: try congruence.
    all: try (rewrite Hi in *; lia).
    all: match goal with
         | Hl0 : _employees_list (self ?v) = _ |- _ => rewrite <- Hl0 in *
         end.
    all: rewrite Hi, Nat2Z.id in *.
    all: match goal with
         | Ha : _employees_list _ !! _ = Some ?a |- _ =>
             tryif constr_eq a e then fail
             else (assert (a = e) by congruence; subst a)
         end.
    all: eexists; split; [|split; [reflexivity|];
      split; [unfold update_committed; cbn [stdout]; apply last_snoc|];
      split; [reflexivity|]; split; [reflexivity|]; reflexivity].
    all: match goal with
         | H : Py.truthy ?s = _ |- context [if Py.truthy ?s then _ else _] =>
             rewrite H
         end.
    all: try reflexivity.
    all: match goal with
         | H : float_of_salary (SalaryStr ?s) = Return ?x |- _ =>
             unfold float_of_salary in H; destruct (PyFloat.of_str s);
             congruence
         end. }
  unfold post in H. destruct H as (x & Hx & Hr & Hcm & Hst & Hself & Hdisk).
  exists x. repeat split; assumption.
Qed.


Lemma delete_last {A} (l : list A) (x : A) : delete (List.length l) (l ++ [x]) = l.
Proof. induction l as [|a l IH]; [reflexivity|]. simpl. rewrite IH. reflexivity. Qed.

(** X22: adding an employee and deleting it again.  After [add_employee]
    on six valid values and [delete_employee] on the same id and yes, the
    list is the one before, the file is the text written for that list, and
    exactly these eight lines have been read. *)
Theorem add_then_delete_restores (w : world)
    (id_line name_line department_line salary_line email_line contact_line
     id_again answer : string) (rest : list string) :
  stdin w = id_line :: name_line :: department_line :: salary_line
              :: email_line :: contact_line :: id_again :: answer :: rest ->
  (is_valid_employee_id_format (Py.strip id_line)).1 = true ->
  _is_employee_id_unique (self w) (Py.strip id_line) = true ->
  (is_valid_name_format (Py.strip name_line)).1 = true ->
  (is_valid_department_format (Py.strip department_line)).1 = true ->
  (is_valid_salary_format (Py.strip salary_line)).1 = true ->
  (is_valid_email_format (Py.strip email_line)).1 = true ->
  (is_valid_contact_details_format (Py.strip contact_line)).1 = true ->
  Py.strip id_again = Py.strip id_line ->
  yes_or_y (Py.strip (Py.lower answer)) = true ->
  let w' := ((add_employee ;;; delete_employee) w).2 in
  ((add_employee ;;; delete_employee) w).1 = Return tt /\
  self w' = self w /\
  disk w' = Some (_save_employees (self w)) /\
  stdin w' = rest.
Proof.
  intros Hs Hi Hu Hn Hd Hsal Hm Hc Hagain Hyes.
  destruct (add_employee_valid_input w _ _ _ _ _ _ _ Hs Hi Hu Hn Hd Hsal Hm Hc)
    as (x & _ & Hadd).
  cbn zeta in Hadd |- *. unfold bind. rewrite Hadd.
  set (e := {| employee_id := Py.strip id_line; name := Py.strip name_line;
               department := Py.strip department_line; salary := x;
               email := Py.strip email_line;
               contact_details := Py.strip contact_line |}) in *.
  set (w1 := {| self := with_list (self w) (_employees_list (self w) ++ [e]);
                disk := _; stdin := _; stdout := _ |}).
  assert (Hnot : Py.strip id_line ∉ map employee_id (_employees_list (self w))).
  { apply Forall_not_in_ids, is_unique_not_in, Hu. }
  assert (Hf : _find_employee_by_id (self w1) (Py.strip id_again) = Some e).
  { unfold _find_employee_by_id. subst w1. cbn [self with_list _employees_list].
    rewrite Hagain, find_snoc, (find_absent _ _ Hnot). unfold same_id.
    cbn [employee_id e]. rewrite String.eqb_refl. reflexivity. }
  destruct (delete_employee_valid_input w1 id_again answer rest e eq_refl
              ltac:(rewrite Hagain; exact Hi) Hf) as (i & Hidx & _ & Hdel).
  cbn zeta in Hdel. rewrite Hdel, Hyes. cbn [fst snd self disk stdin].
  assert (Ei : i = List.length (_employees_list (self w))).
  { unfold _find_employee_index_by_id in Hidx. subst w1.
    cbn [self with_list _employees_list] in Hidx.
    rewrite Hagain, find_index_from_snoc in Hidx by auto.
    unfold len in Hidx. lia. }
  subst i w1. cbn [self with_list _employees_list _file_name _delimiter
                   _employee_keys].
  rewrite delete_last.
  assert (Hw : with_list (self w) (_employees_list (self w)) = self w)
    by (destruct (self w); reflexivity).
  unfold with_list in Hw |- *. cbn [_file_name _delimiter _employee_keys].
  rewrite Hw. repeat split; reflexivity.
Qed.

Lemma add_then_delete_restores_witness :
  _is_employee_id_unique (self add_sample) (Py.strip " BF007 ") = true /\
  self ((add_employee ;;; delete_employee) add_sample).2 = self add_sample /\
  stdin ((add_employee ;;; delete_employee) add_sample).2 = ["7"].
Proof.
  assert (Hu : _is_employee_id_unique (self add_sample) (Py.strip " BF007 ")
               = true) by reflexivity.
  split; [exact Hu|].
  destruct (add_then_delete_restores add_sample " BF007 " "Eve Adams"
              "Quality Assurance" "52000.5" "eve.a@bitfutura.test" "555-0107"
              "BF007" "yes" ["7"] eq_refl eq_refl Hu eq_refl eq_refl
              ltac:(vm_compute; reflexivity) eq_refl eq_refl eq_refl eq_refl)
    as (_ & Hself & _ & Hin).
  split; [exact Hself | exact Hin].
Defined.

Lemma add_employee_valid_input_witness :
  exists x,
    PyFloat.of_str "52000.5" = Some x /\
    map employee_id (_employees_list (self (add_employee add_sample).2))
      = ["BF001"; "BF007"] /\
    stdin (add_employee add_sample).2 = ["BF007"; "yes"; "7"].
Proof.
  destruct (add_employee_valid_input add_sample " BF007 " "Eve Adams"
              "Quality Assurance" "52000.5" "eve.a@bitfutura.test" "555-0107"
              ["BF007"; "yes"; "7"] eq_refl eq_refl eq_refl eq_refl eq_refl
              ltac:(vm_compute; reflexivity) eq_refl eq_refl)
    as (x & Hx & Hadd).
  exists x. split; [exact Hx|]. cbn zeta in Hadd. rewrite Hadd.
  split; reflexivity.
Defined.

Lemma delete_employee_valid_input_witness :
  exists i : nat,
    _find_employee_index_by_id (self delete_sample) "BF001" = Z.of_nat i /\
    map employee_id (_employees_list (self (delete_employee delete_sample).2))
      = ["BF002"].
Proof.
  destruct (delete_employee_valid_input delete_sample "BF001" "y" []
              {| employee_id := "BF001"; name := "Alice Smith";
                 department := "Engineering";
                 salary := S754_finite false 5153995114938368 (-36);
                 email := "alice.s@bitfutura.test";
                 contact_details := "123-456-7890" |}
              eq_refl eq_refl eq_refl)
    as (i & Hi & Hl & Hdel).
  exists i. split; [exact Hi|]. cbn zeta in Hdel. rewrite Hdel.
  assert (Ei : i = O).
  { assert (E0 : _find_employee_index_by_id (self delete_sample)
                    (Py.strip "BF001") = 0) by reflexivity.
    rewrite E0 in Hi. lia. }
  subst i. reflexivity.
Defined.

Lemma update_employee_valid_input_witness :
  exists (i : nat) (x : spec_float),
    _employees_list (self update_sample) !! i
      = Some {| employee_id := "BF001"; name := "Alice Smith";
                department := "Engineering";
                salary := S754_finite false 5153995114938368 (-36);
                email := "alice.s@bitfutura.test";
                contact_details := "123-456-7890" |} /\
    PyFloat.of_str "80000" = Some x /\
    update_committed (update_employee update_sample).2 /\
    stdin (update_employee update_sample).2 = [].
Proof.
  destruct (update_employee_valid_input update_sample "BF001" "Alice Smith Jr"
              "" "80000" "" "New Contact" "yes" []
              {| employee_id := "BF001"; name := "Alice Smith";
                 department := "Engineering";
                 salary := S754_finite false 5153995114938368 (-36);
                 email := "alice.s@bitfutura.test";
                 contact_details := "123-456-7890" |}
              eq_refl eq_refl eq_refl
              ltac:(intros _; reflexivity) ltac:(intros H; discriminate H)
              ltac:(intros _; vm_compute; reflexivity)
              ltac:(intros H; discriminate H) ltac:(intros _; reflexivity)
              eq_refl eq_refl)
    as (i & x & _ & Hl & Hx & _ & Hc & Hs & _).
  exists i, x. repeat split; assumption.
Defined.

(** ** The commands that only show *)

(** X23: the commands that only show.  [view_employee] leaves the list
    and the file as they are and reads at most one line; the listing and the
    department report return, read nothing and leave the list and the file
    as they are. *)
Theorem read_only_commands (w : world) :
  post view_employee w (fun _ w' =>
    self w' = self w /\ disk w' = disk w /\
    (stdin w' = stdin w \/ exists line, stdin w = line :: stdin w')) /\
  post list_all_employees w (fun r w' =>
    r = Return tt /\ self w' = self w /\ disk w' = disk w /\
    stdin w' = stdin w) /\
  post generate_department_report w (fun r w' =>
    r = Return tt /\ self w' = self w /\ disk w' = disk w /\
    stdin w' = stdin w).
Proof.
  split; [|split].
  - unfold view_employee. wp.
    all: split; [reflexivity|]; split; [reflexivity|].
    all: first [left; reflexivity | right; eexists; eassumption].
  - unfold list_all_employees. wp. all: repeat split; reflexivity.
  - unfold generate_department_report. wp. all: repeat split; reflexivity.
Qed.
